(** * The AI request orchestration core of NanoGen Studio

    A shallow embedding of [src/services/ai-core.ts] (module [AiCore]) and of
    the second copy of the same service found in the repository
    (module [Part003]), followed by the properties of the orchestration core:
    error classification, request assembly, retry with backoff and the
    video polling loop.

    JavaScript numbers that the service uses as counters, HTTP statuses and
    token budgets are integers and are modelled in [Z]; the backoff delay,
    which involves [Math.random()], is a rational.  Strings are byte strings,
    so [toLowerCase] is the ASCII one. *)

From Stdlib Require Import String Ascii ZArith QArith Lqa List Lia Bool DecimalString.
Import ListNotations.

Close Scope Q_scope.
Open Scope string_scope.
Open Scope Z_scope.

(** ** JavaScript string and truthiness helpers *)

Module Js.

(** [s.includes(sub)]: some suffix of [s] starts with [sub]. *)
Fixpoint includes (s sub : string) : bool :=
  prefix sub s ||
  match s with
  | EmptyString => false
  | String _ rest => includes rest sub
  end.

Definition lowerAscii (c : ascii) : ascii :=
  let n := nat_of_ascii c in
  if (Nat.leb 65 n && Nat.leb n 90)%bool then ascii_of_nat (n + 32) else c.

(** [s.toLowerCase()] on a byte string: the letters A to Z become a to z.
    This is JavaScript's [toLowerCase] on ASCII text ([isAscii] below); on
    other text JavaScript also maps letters outside ASCII, some of them to
    ASCII letters, so a statement that depends on how a message is
    lower-cased takes the message to be ASCII. *)
Fixpoint toLowerCase (s : string) : string :=
  match s with
  | EmptyString => EmptyString
  | String c rest => String (lowerAscii c) (toLowerCase rest)
  end.

(** A byte string that is ASCII text: every byte is below 128. *)
Fixpoint isAscii (s : string) : bool :=
  match s with
  | EmptyString => true
  | String c rest => Nat.ltb (nat_of_ascii c) 128 && isAscii rest
  end.

(** An integer that a JavaScript number holds exactly: the binary64 format
    represents every integer from [-2^53] to [2^53], and the sum of two of
    them is exact whenever it lies in this range again.  Outside it [+]
    rounds, so a statement about a sum the code computes takes its
    operands and its result in this range. *)
Definition exactInteger (z : Z) : Prop := - 2 ^ 53 <= z <= 2 ^ 53.

(** Truthiness of a possibly undefined string: [undefined] and [""] are falsy. *)
Definition truthyString (s : option string) : bool :=
  match s with
  | Some EmptyString => false
  | Some _ => true
  | None => false
  end.

(** Truthiness of a possibly undefined integer: [undefined] and [0] are falsy. *)
Definition truthyNumber (n : option Z) : bool :=
  match n with
  | Some z => negb (z =? 0)
  | None => false
  end.

(** [a || b] on possibly undefined strings. *)
Definition orString (a b : option string) : option string :=
  if truthyString a then a else b.

(** [a || b] on possibly undefined integers. *)
Definition orNumber (a b : option Z) : option Z :=
  if truthyNumber a then a else b.

(** [x === n] for a possibly undefined integer [x] and a literal [n]. *)
Definition strictEq (x : option Z) (n : Z) : bool :=
  match x with
  | Some z => z =? n
  | None => false
  end.

(** [`${n}`] for a possibly undefined integer. *)
Definition showNumber (n : option Z) : string :=
  match n with
  | Some z => NilZero.string_of_int (Z.to_int z)
  | None => "undefined"
  end.

End Js.

(** ** Errors *)

Module Errors.

(** Modelled from the spec: [shared/utils/errors.ts], which declares the
    classes [AppError], [ApiError], [AuthenticationError], [SafetyError]
    and [RateLimitError], is not among the sources.  Following the spec's
    closed error taxonomy ("carries a human-readable message and, where
    applicable, an HTTP-status-like numeric code"), an [AppError] is one of
    the four classes the service constructs.  [RateLimitError] records the
    constructor argument as written ([None] for [new RateLimitError()]). *)
Inductive AppError : Type :=
| ApiError (message : string) (statusCode : Z)
| AuthenticationError (message : string)
| SafetyError (message : string)
| RateLimitError (message : option string).

(** What a failing SDK call or a runtime fault throws: any value that is
    not an [AppError].  Only the properties [normalizeError] reads are kept:
    [error?.message], [error?.toString()], [error?.status] and
    [error?.response?.status].  The value [undefined] has none of them. *)
Record RawError : Type := mkRawError {
  err_message : option string;
  err_toString : option string;
  err_status : option Z;
  err_response_status : option Z
}.

Inductive Thrown : Type :=
| AppErr (e : AppError)
| Raw (r : RawError).

Definition undefinedValue : RawError := mkRawError None None None None.

(** Modelled from the spec: the class hierarchy of [shared/utils/errors.ts]
    is not among the sources.  This is
    [normalized instanceof ApiError && normalized.statusCode] as far as the
    retry guards can observe it.  A rate-limit error stands for status 429
    (rule 1 of the classifier); whether [RateLimitError] derives from
    [ApiError] or not, the guards of [generate] let it through. *)
Definition apiStatusCode (e : AppError) : option Z :=
  match e with
  | ApiError _ code => Some code
  | RateLimitError _ => Some 429
  | AuthenticationError _ => None
  | SafetyError _ => None
  end.

(** The error kinds of the specification's taxonomy. *)
Inductive Kind : Type :=
| RateLimited
| AuthenticationFailed
| SafetyBlocked
| ModelUnavailable
| ServerOverloaded
| NetworkUnreachable
| InvalidRequest
| Unknown.

End Errors.

(** ** Data exchanged with the provider SDK *)

Module Provider.

Inductive AIModel : Type :=
| Gemini3FlashPreview
| Gemini3ProPreview
| Gemini25FlashImage
| Gemini3ProImagePreview
| Gemini25FlashLiteLatest
| Veo31FastGeneratePreview.

Definition modelName (m : AIModel) : string :=
  match m with
  | Gemini3FlashPreview => "gemini-3-flash-preview"
  | Gemini3ProPreview => "gemini-3-pro-preview"
  | Gemini25FlashImage => "gemini-2.5-flash-image"
  | Gemini3ProImagePreview => "gemini-3-pro-image-preview"
  | Gemini25FlashLiteLatest => "gemini-2.5-flash-lite-latest"
  | Veo31FastGeneratePreview => "veo-3.1-fast-generate-preview"
  end.

Inductive AspectRatio : Type :=
| AR_1_1 | AR_3_4 | AR_4_3 | AR_9_16 | AR_16_9 | AR_2_3 | AR_3_2 | AR_21_9.

Inductive ImageSize : Type := Size1K | Size2K | Size4K.

Record AIRequestConfig : Type := mkConfig {
  model : AIModel;
  aspectRatio : option AspectRatio;
  imageSize : option ImageSize;
  thinkingBudget : option Z;
  maxOutputTokens : option Z;
  useSearch : option bool;
  systemInstruction : option string;
  responseMimeType : option string;
  maxRetries : option Z;
  seed : option Z;
  temperature : option Q
}.

(** A request part: [{ inlineData: { data, mimeType } }] or [{ text }]. *)
Inductive Part : Type :=
| InlineDataPart (data mimeType : string)
| TextPart (text : string).

Record ImageConfig : Type := mkImageConfig {
  ic_aspectRatio : AspectRatio;
  ic_imageSize : option ImageSize
}.

(** The [config] object handed to [generateContent]; a field is [None]
    when the service leaves it undefined. *)
Record GenerationConfig : Type := mkGenerationConfig {
  gc_systemInstruction : option string;
  gc_responseMimeType : option string;
  gc_temperature : Q;
  gc_seed : option Z;
  gc_thinkingConfig : option Z;
  gc_maxOutputTokens : option Z;
  gc_googleSearch : bool;
  gc_imageConfig : option ImageConfig
}.

(** The argument of [ai.models.generateContent].  [req_systemInstruction]
    is the top-level field that only the second copy of the service sets
    (as a user-role content with one text part). *)
Record ContentRequest : Type := mkContentRequest {
  req_model : AIModel;
  req_parts : list Part;
  req_config : GenerationConfig;
  req_systemInstruction : option string
}.

Definition GroundingChunk : Type := string.

Record InlineData : Type := mkInlineData {
  id_data : option string;
  id_mimeType : option string
}.

Record ResponsePart : Type := mkResponsePart {
  rp_inlineData : option InlineData;
  rp_text : option string
}.

Record Content : Type := mkContent {
  content_parts : option (list ResponsePart)
}.

Record Candidate : Type := mkCandidate {
  cand_finishReason : option string;
  cand_groundingChunks : option (list GroundingChunk);
  cand_content : option Content
}.

Record GenerateContentResponse : Type := mkResponse {
  resp_blockReason : option string;
  resp_candidates : option (list Candidate);
  resp_text : option string
}.

Record AIResponse : Type := mkAIResponse {
  ai_text : option string;
  ai_image : option string;
  ai_groundingSources : option (list GroundingChunk);
  ai_finishReason : option string
}.

Record VideoRequest : Type := mkVideoRequest {
  vr_model : AIModel;
  vr_prompt : string;
  vr_imageBytes : string;
  vr_mimeType : string;
  vr_numberOfVideos : option Z;
  vr_resolution : string;
  vr_aspectRatio : AspectRatio
}.

(** A video operation handle: [operation.done] and
    [operation.response?.generatedVideos?.[0]?.video?.uri]. *)
Record Operation : Type := mkOperation {
  op_done : bool;
  op_videoUri : option string
}.

End Provider.

(** ** The world the service runs in *)

Module Runtime.
Import Errors Provider.

(** Everything outside the service: the process environment, the SDK and
    the random source.  Each is indexed by how many times it has been
    used so far, so a run is a function of the environment. *)
Record Env : Type := mkEnv {
  env_API_KEY : nat -> option string;
  env_generateContent : nat -> string -> ContentRequest -> RawError + GenerateContentResponse;
  env_random : nat -> Q;
  env_generateVideos : string -> VideoRequest -> RawError + Operation;
  env_getVideosOperation : nat -> Operation -> RawError + Operation
}.

Inductive Event : Type :=
| EvReadKey
| EvGenerateContent (apiKey : string) (req : ContentRequest)
| EvSleep (ms : Q)
| EvWarn (attempt : Z) (e : AppError)
| EvError (t : Thrown)
| EvGenerateVideos (apiKey : string) (req : VideoRequest)
| EvGetVideosOperation (op : Operation).

Record World : Type := mkWorld {
  keyReads : nat;
  contentCalls : nat;
  randomDraws : nat;
  pollCalls : nat;
  log : list Event
}.

Definition initialWorld : World := mkWorld 0 0 0 0 [].

Definition record (ev : Event) (w : World) : World :=
  mkWorld (keyReads w) (contentCalls w) (randomDraws w) (pollCalls w) (log w ++ [ev]).

(** A call either returns or throws.  [OutOfFuel] is the third outcome of
    the model only: a loop cut off by its iteration bound.  The loops of the
    service are shown never to reach it. *)
Inductive Outcome (A : Type) : Type :=
| Returned (a : A)
| Threw (t : Thrown)
| OutOfFuel.
Arguments Returned {A} a.
Arguments Threw {A} t.
Arguments OutOfFuel {A}.

Definition M (A : Type) : Type := World -> Outcome A * World.

Definition ret {A} (a : A) : M A := fun w => (Returned a, w).

Definition throw {A} (t : Thrown) : M A := fun w => (Threw t, w).

Definition bind {A B} (c : M A) (k : A -> M B) : M B :=
  fun w =>
    match c w with
    | (Returned a, w') => k a w'
    | (Threw t, w') => (Threw t, w')
    | (OutOfFuel, w') => (OutOfFuel, w')
    end.

(** [try { c } catch (error) { handler error }]. *)
Definition tryCatch {A} (c : M A) (handler : Thrown -> M A) : M A :=
  fun w =>
    match c w with
    | (Threw t, w') => handler t w'
    | other => other
    end.

Definition emit (ev : Event) : M unit := fun w => (Returned tt, record ev w).

Section Primitives.
Variable env : Env.

(** [process.env.API_KEY] *)
Definition readApiKey : M (option string) :=
  fun w =>
    (Returned (env_API_KEY env (keyReads w)),
     record EvReadKey
       (mkWorld (S (keyReads w)) (contentCalls w) (randomDraws w) (pollCalls w) (log w))).

(** [await ai.models.generateContent(req)] with the client built on [apiKey] *)
Definition generateContent (apiKey : string) (req : ContentRequest)
  : M GenerateContentResponse :=
  fun w =>
    let w' := record (EvGenerateContent apiKey req)
                (mkWorld (keyReads w) (S (contentCalls w)) (randomDraws w) (pollCalls w) (log w)) in
    match env_generateContent env (contentCalls w) apiKey req with
    | inl r => (Threw (Raw r), w')
    | inr resp => (Returned resp, w')
    end.

(** [Math.random()] *)
Definition mathRandom : M Q :=
  fun w =>
    (Returned (env_random env (randomDraws w)),
     mkWorld (keyReads w) (contentCalls w) (S (randomDraws w)) (pollCalls w) (log w)).

(** [await this.sleep(ms)] *)
Definition sleep (ms : Q) : M unit := emit (EvSleep ms).

(** [await ai.models.generateVideos(req)] *)
Definition generateVideos (apiKey : string) (req : VideoRequest) : M Operation :=
  fun w =>
    let w' := record (EvGenerateVideos apiKey req) w in
    match env_generateVideos env apiKey req with
    | inl r => (Threw (Raw r), w')
    | inr op => (Returned op, w')
    end.

(** [await ai.operations.getVideosOperation({ operation })] *)
Definition getVideosOperation (op : Operation) : M Operation :=
  fun w =>
    let w' := record (EvGetVideosOperation op)
                (mkWorld (keyReads w) (contentCalls w) (randomDraws w) (S (pollCalls w)) (log w)) in
    match env_getVideosOperation env (pollCalls w) op with
    | inl r => (Threw (Raw r), w')
    | inr op' => (Returned op', w')
    end.

End Primitives.

(** The delays of the sleeps of a log, in order. *)
Fixpoint sleeps (l : list Event) : list Q :=
  match l with
  | [] => []
  | EvSleep ms :: rest => ms :: sleeps rest
  | _ :: rest => sleeps rest
  end.

Declare Scope runtime_scope.
Delimit Scope runtime_scope with rt.
Notation "x <- c ;; k" := (bind c (fun x => k))
  (at level 61, c at next level, right associativity) : runtime_scope.
Notation "c ;;; k" := (bind c (fun _ => k))
  (at level 61, right associativity) : runtime_scope.

End Runtime.

(** ** [src/services/ai-core.ts] *)

Module AiCore.
Import Js Errors Provider Runtime.
Local Open Scope runtime_scope.

Definition DEFAULT_RETRIES : Z := 3.

Definition MAX_POLLS : Z := 60.

(** [error?.message || error?.toString() || "Unknown error"] *)
Definition rawMessageOf (r : RawError) : string :=
  match orString (orString (err_message r) (err_toString r)) (Some "Unknown error") with
  | Some m => m
  | None => "Unknown error"
  end.

(** [error?.status || error?.response?.status] *)
Definition statusOf (r : RawError) : option Z :=
  orNumber (err_status r) (err_response_status r).

(** [status || 500] *)
Definition statusOr500 (status : option Z) : Z :=
  match orNumber status (Some 500) with
  | Some z => z
  | None => 500
  end.

Definition INVALID_API_KEY : string :=
  "INVALID_API_KEY: The provided API key is invalid or expired. Please update your credentials.".
Definition BILLING_REQUIRED : string :=
  "BILLING_REQUIRED: The Google Cloud Project for this key needs billing enabled.".
Definition GEO_RESTRICTION : string :=
  "GEO_RESTRICTION: Google Gemini is not available in your current region.".
Definition ACCESS_DENIED : string :=
  "ACCESS_DENIED: API access prohibited. Check project permissions.".
Definition SAFETY_VIOLATION : string :=
  "SAFETY_VIOLATION: The prompt or input image triggered safety filters. Try simplifying your request.".
Definition MODEL_UNAVAILABLE : string :=
  "MODEL_UNAVAILABLE: The requested AI model version is not found or deprecated.".
Definition SYSTEM_OVERLOAD : string :=
  "SYSTEM_OVERLOAD: Google AI servers are experiencing high traffic. Please retry in a moment.".
Definition NETWORK_ERROR : string :=
  "NETWORK_ERROR: Unable to connect to Google AI services. Please check your internet connection.".
Definition INVALID_IMAGE : string :=
  "INVALID_IMAGE: The provided image format or size is not supported.".
Definition INVALID_REQUEST : string :=
  "INVALID_REQUEST: The request parameters are invalid. Check your prompt or configuration.".
Definition API_KEY_MISSING : string :=
  "API_KEY_MISSING: Environment key unavailable. Please check your .env configuration.".
Definition ZERO_CANDIDATES : string :=
  "ZERO_CANDIDATES: The model returned no results. Try adjusting your prompt.".
Definition TIMEOUT : string :=
  "TIMEOUT: Video generation took too long.".

(** Maps raw errors to [AppError]s, first matching rule first. *)
Definition normalizeError (error : Thrown) : AppError :=
  match error with
  | AppErr e => e
  | Raw r =>
    let rawMessage := rawMessageOf r in
    let status := statusOf r in
    let lowerMsg := toLowerCase rawMessage in
    (* 1. Rate limiting and quotas *)
    if strictEq status 429 || includes lowerMsg "429" || includes lowerMsg "quota"
       || includes lowerMsg "exhausted"
    then RateLimitError None
    (* 2. Authentication and billing *)
    else if strictEq status 401 || includes lowerMsg "api key"
            || includes lowerMsg "unauthenticated"
    then AuthenticationError INVALID_API_KEY
    else if strictEq status 403 || includes lowerMsg "permission denied"
    then
      if includes lowerMsg "billing" then AuthenticationError BILLING_REQUIRED
      else if includes lowerMsg "location" || includes lowerMsg "region"
      then AuthenticationError GEO_RESTRICTION
      else AuthenticationError ACCESS_DENIED
    (* 3. Safety and policy *)
    else if includes lowerMsg "safety" || includes lowerMsg "blocked"
            || includes lowerMsg "harmful"
    then SafetyError SAFETY_VIOLATION
    (* 4. Model availability *)
    else if strictEq status 404 || includes lowerMsg "not found"
    then ApiError MODEL_UNAVAILABLE 404
    (* 5. System instability *)
    else if existsb (strictEq status) [500; 502; 503; 504] || includes lowerMsg "overloaded"
            || includes lowerMsg "busy" || includes lowerMsg "capacity"
    then ApiError SYSTEM_OVERLOAD 503
    (* 6. Network and connectivity *)
    else if includes lowerMsg "fetch" || includes lowerMsg "network"
            || includes lowerMsg "connection"
    then ApiError NETWORK_ERROR 0
    (* 7. Request format *)
    else if strictEq status 400 || includes lowerMsg "invalid argument"
    then
      if includes lowerMsg "image" then ApiError INVALID_IMAGE 400
      else ApiError INVALID_REQUEST 400
    else ApiError ("GENAI_ERROR: " ++ rawMessage) (statusOr500 status)
  end.

(** The specification's name for an error of this service, read off its
    class and, for an [ApiError], the status code its rule attaches. *)
Definition kindOf (e : AppError) : Kind :=
  match e with
  | RateLimitError _ => RateLimited
  | AuthenticationError _ => AuthenticationFailed
  | SafetyError _ => SafetyBlocked
  | ApiError _ code =>
    if code =? 404 then ModelUnavailable
    else if code =? 503 then ServerOverloaded
    else if code =? 0 then NetworkUnreachable
    else if code =? 400 then InvalidRequest
    else Unknown
  end.

(** The guard "fail immediately on non-transient errors" of [generate]. *)
Definition nonTransient (normalized : AppError) : bool :=
  match normalized with
  | SafetyError _ => true
  | AuthenticationError _ => true
  | _ =>
    match apiStatusCode normalized with
    | Some statusCode => (400 <=? statusCode) && (statusCode <? 500) && negb (statusCode =? 429)
    | None => false
    end
  end.

Definition liftResult {A} (r : Thrown + A) : M A :=
  match r with
  | inl t => throw t
  | inr a => ret a
  end.

(** [candidate.content?.parts.find(p => p.inlineData)]: reading [find] of
    an undefined [parts] is a [TypeError]. *)
Definition findImagePart (c : Candidate) : Thrown + option ResponsePart :=
  match cand_content c with
  | None => inr None
  | Some content =>
    match content_parts content with
    | None =>
      inl (Raw (mkRawError
                  (Some "Cannot read properties of undefined (reading 'find')")
                  (Some "TypeError: Cannot read properties of undefined (reading 'find')")
                  None None))
    | Some parts =>
      inr (find (fun p => match rp_inlineData p with Some _ => true | None => false end) parts)
    end
  end.

(** [imagePart?.inlineData?.data], when truthy. *)
Definition imageDataOf (p : option ResponsePart) : option string :=
  match p with
  | Some part =>
    match rp_inlineData part with
    | Some d => if truthyString (id_data d) then id_data d else None
    | None => None
    end
  | None => None
  end.

Definition parseResponse (response : GenerateContentResponse) : Thrown + AIResponse :=
  let candidate :=
    match resp_candidates response with
    | Some cs => hd_error cs
    | None => None
    end in
  match (if truthyString (resp_blockReason response) then resp_blockReason response else None) with
  | Some blockReason => inl (AppErr (SafetyError ("PROMPT_BLOCKED: " ++ blockReason)))
  | None =>
    match candidate with
    | None => inl (AppErr (ApiError ZERO_CANDIDATES 500))
    | Some candidate =>
      let abnormal :=
        match cand_finishReason candidate with
        | Some reason =>
          if truthyString (Some reason) && negb (reason =? "STOP")%string
             && negb (reason =? "MAX_TOKENS")%string
          then Some reason else None
        | None => None
        end in
      match abnormal with
      | Some reason =>
        if (reason =? "SAFETY")%string then
          inl (AppErr (SafetyError
            "GENERATION_BLOCKED: Content flagged by safety filters. Avoid restricted topics or imagery."))
        else if (reason =? "RECITATION")%string then
          inl (AppErr (SafetyError
            "COPYRIGHT_BLOCK: Content matched protected intellectual property."))
        else if (reason =? "OTHER")%string then
          inl (AppErr (ApiError "GENERATION_FAILED: Unknown model error occurred." 500))
        else inl (AppErr (ApiError ("GENERATION_STOPPED: " ++ reason) 500))
      | None =>
        match findImagePart candidate with
        | inl t => inl t
        | inr imagePart =>
          inr (mkAIResponse
                 (resp_text response)
                 (match imageDataOf imagePart with
                  | Some data => Some ("data:image/png;base64," ++ data)
                  | None => None
                  end)
                 (cand_groundingChunks candidate)
                 (cand_finishReason candidate))
        end
      end
    end
  end.

Section Service.
(** [shared/utils/image.ts] is not among the sources: its two functions are
    parameters of the service. *)
Variable cleanBase64 : string -> string.
Variable getMimeType : string -> string.
Variable env : Env.

Definition getApiKey : M string :=
  apiKey <- readApiKey env ;;
  match apiKey with
  | Some key =>
    if truthyString (Some key) then ret key
    else throw (AppErr (AuthenticationError API_KEY_MISSING))
  | None => throw (AppErr (AuthenticationError API_KEY_MISSING))
  end.

(** [images.filter(Boolean).map(...)] followed by the text part *)
Definition buildParts (prompt : string) (images : list string) : list Part :=
  map (fun img => InlineDataPart (cleanBase64 img) (getMimeType img))
      (filter (fun img => truthyString (Some img)) images)
  ++ [TextPart (if truthyString (Some prompt) then prompt else "Analyze input assets.")].

(** The "thinking logic" of [executeRequest]: the [maxOutputTokens]
    that ends up in the generation config.  The sums are those of the
    integers; they are the sums the code computes for budgets that are
    [exactInteger] together with the sum. *)
Definition effectiveMaxOutputTokens (config : AIRequestConfig) : option Z :=
  match thinkingBudget config with
  | Some budget =>
    match maxOutputTokens config with
    | Some m =>
      if truthyNumber (Some m) then Some (Z.max m (budget + 1024))
      else Some (budget + 2048)
    | None => Some (budget + 2048)
    end
  | None =>
    if truthyNumber (maxOutputTokens config) then maxOutputTokens config else None
  end.

Definition imageConfigOf (config : AIRequestConfig) : option ImageConfig :=
  if includes (modelName (model config)) "image" then
    Some (mkImageConfig
            (match aspectRatio config with Some a => a | None => AR_1_1 end)
            (if (modelName (model config) =? "gemini-3-pro-image-preview")%string
             then Some (match imageSize config with Some s => s | None => Size1K end)
             else None))
  else None.

Definition buildGenerationConfig (config : AIRequestConfig) : GenerationConfig :=
  mkGenerationConfig
    (systemInstruction config)
    (responseMimeType config)
    (match temperature config with Some t => t | None => (7 # 10)%Q end)
    (seed config)
    (thinkingBudget config)
    (effectiveMaxOutputTokens config)
    (match useSearch config with Some true => true | _ => false end)
    (imageConfigOf config).

Definition buildRequest (prompt : string) (images : list string) (config : AIRequestConfig)
  : ContentRequest :=
  mkContentRequest (model config) (buildParts prompt images) (buildGenerationConfig config) None.

Definition executeRequest (apiKey : string) (prompt : string) (images : list string)
    (config : AIRequestConfig) : M AIResponse :=
  response <- generateContent env apiKey (buildRequest prompt images config) ;;
  liftResult (parseResponse response).

(** The [try] block of the retry loop: resolve the key, run one request. *)
Definition tryBlock (prompt : string) (images : list string) (config : AIRequestConfig)
  : M AIResponse :=
  apiKey <- getApiKey ;;
  executeRequest apiKey prompt images config.

(** One iteration of the retry loop.  [inl] is the [return] out of
    [generate]; [inr normalized] falls through to the next iteration with
    [lastError = normalized]. *)
Definition attemptOnce (prompt : string) (images : list string) (config : AIRequestConfig)
    (retries attempt : Z) : M (AIResponse + AppError) :=
  tryCatch
    (response <- tryBlock prompt images config ;;
     ret (inl response))
    (fun error =>
       let normalized := normalizeError error in
       if nonTransient normalized then throw (AppErr normalized)
       else if attempt <? retries then
         rnd <- mathRandom env ;;
         let delay := (inject_Z (2 ^ attempt * 1000) + rnd * 500)%Q in
         emit (EvWarn (attempt + 1) normalized) ;;;
         sleep delay ;;;
         ret (inr normalized)
       else ret (inr normalized)).

(** [for (let attempt = 0; attempt <= retries; attempt++) { ... } throw lastError].
    [fuel] bounds the iterations of the model; [generate] supplies
    [retries + 1], which the guard never lets run out. *)
Fixpoint generateFrom (fuel : nat) (prompt : string) (images : list string)
    (config : AIRequestConfig) (retries attempt : Z) (lastError : Thrown) : M AIResponse :=
  if attempt <=? retries then
    match fuel with
    | O => fun w => (OutOfFuel, w)
    | S fuel' =>
      r <- attemptOnce prompt images config retries attempt ;;
      match r with
      | inl response => ret response
      | inr normalized =>
        generateFrom fuel' prompt images config retries (attempt + 1) (AppErr normalized)
      end
    end
  else throw lastError.

Definition retriesOf (config : AIRequestConfig) : Z :=
  match maxRetries config with
  | Some n => n
  | None => DEFAULT_RETRIES
  end.

Definition generate (prompt : string) (images : list string) (config : AIRequestConfig)
  : M AIResponse :=
  let retries := retriesOf config in
  generateFrom (Z.to_nat (retries + 1)) prompt images config retries 0 (Raw undefinedValue).

Definition videoRequest (prompt image : string) : VideoRequest :=
  mkVideoRequest Veo31FastGeneratePreview prompt (cleanBase64 image) (getMimeType image)
                 (Some 1) "720p" AR_16_9.

(** [while (!operation.done) { if (polls++ > MAX_POLLS) throw ...; sleep; re-fetch }].
    The comparison reads [polls] before the increment.  [fuel] bounds the
    iterations of the model; [generateVideo] supplies [MAX_POLLS + 2], which
    the [throw] never lets run out. *)
Fixpoint pollUntilDone (fuel : nat) (polls : Z) (operation : Operation) : M Operation :=
  if op_done operation then ret operation
  else
    match fuel with
    | O => fun w => (OutOfFuel, w)
    | S fuel' =>
      if MAX_POLLS <? polls then throw (AppErr (ApiError TIMEOUT 408))
      else
        sleep (inject_Z 5000) ;;;
        operation' <- getVideosOperation env operation ;;
        pollUntilDone fuel' (polls + 1) operation'
    end.

Definition generateVideo (prompt image : string) : M (option string) :=
  tryCatch
    (apiKey <- getApiKey ;;
     operation <- generateVideos env apiKey (videoRequest prompt image) ;;
     operation <- pollUntilDone (Z.to_nat (MAX_POLLS + 2)) 0 operation ;;
     match op_videoUri operation with
     | Some videoUri =>
       if truthyString (Some videoUri) then ret (Some (videoUri ++ "&key=" ++ apiKey))
       else ret None
     | None => ret None
     end)
    (fun error =>
       emit (EvError error) ;;;
       throw (AppErr (normalizeError error))).

End Service.

End AiCore.

(** ** The second copy of the service, [src/unnamed/part_003] *)

Module Part003.
Import Js Errors Provider Runtime.
Local Open Scope runtime_scope.

Definition DEFAULT_RETRIES : Z := 2.

Definition MAX_POLLS : Z := 60.

Definition ZERO_CANDIDATES : string :=
  "Invalid Argument: The model returned no content. This can be due to a restrictive safety setting, a confusing prompt, or an internal error. Please try simplifying your prompt.".
Definition TIMEOUT : string :=
  "TIMEOUT: Video generation took too long.".

(** The guard "non-retryable errors" of this copy's [generate]. *)
Definition nonRetryable (normalized : AppError) : bool :=
  match normalized with
  | AuthenticationError _ => true
  | SafetyError _ => true
  | _ =>
    match apiStatusCode normalized with
    | Some statusCode => statusCode =? 400
    | None => false
    end
  end.

Definition parseResponse (response : GenerateContentResponse) : Thrown + AIResponse :=
  match (if truthyString (resp_blockReason response) then resp_blockReason response else None) with
  | Some blockReason => inl (AppErr (SafetyError ("Prompt blocked due to " ++ blockReason)))
  | None =>
    let candidate :=
      match resp_candidates response with
      | Some cs => hd_error cs
      | None => None
      end in
    match candidate with
    | None => inl (AppErr (ApiError ZERO_CANDIDATES 400))
    | Some candidate =>
      let abnormal :=
        match cand_finishReason candidate with
        | Some reason =>
          if truthyString (Some reason) && negb (reason =? "STOP")%string
             && negb (reason =? "MAX_TOKENS")%string
          then Some reason else None
        | None => None
        end in
      match abnormal with
      | Some reason =>
        if (reason =? "SAFETY")%string then
          inl (AppErr (SafetyError "Generation blocked by safety filters on the output."))
        else if (reason =? "RECITATION")%string then
          inl (AppErr (SafetyError "Generation blocked due to potential copyright recitation."))
        else
          inl (AppErr (ApiError
            ("Invalid Argument: Generation failed with reason '" ++ reason
             ++ "'. Try a simpler prompt.") 400))
      | None =>
        match AiCore.findImagePart candidate with
        | inl t => inl t
        | inr imagePart =>
          inr (mkAIResponse
                 (resp_text response)
                 (match AiCore.imageDataOf imagePart with
                  | Some data => Some ("data:image/png;base64," ++ data)
                  | None => None
                  end)
                 (cand_groundingChunks candidate)
                 (cand_finishReason candidate))
        end
      end
    end
  end.

Section Service.
(** [shared/utils/image.ts] and the default status code of the [ApiError]
    constructor ([new ApiError(message)]) are not among the sources. *)
Variable cleanBase64 : string -> string.
Variable getMimeType : string -> string.
Variable defaultStatusCode : Z.
Variable env : Env.

Definition normalizeError (error : Thrown) : AppError :=
  match error with
  | AppErr e => e
  | Raw r =>
    let rawMessage := AiCore.rawMessageOf r in
    let status := AiCore.statusOf r in
    let lowerMsg := toLowerCase rawMessage in
    if strictEq status 429 || includes lowerMsg "quota"
    then RateLimitError (Some "429: API quota exhausted or rate limit exceeded.")
    else if includes lowerMsg "api key not valid" || includes lowerMsg "invalid api key"
    then AuthenticationError "Invalid API Key: The provided API key is invalid or expired."
    else if includes lowerMsg "permission denied"
    then
      if includes lowerMsg "billing"
      then AuthenticationError "Billing not enabled for the associated Google Cloud project."
      else if includes lowerMsg "location" || includes lowerMsg "region"
      then AuthenticationError "Service not available in your region."
      else AuthenticationError "Permission Denied: Check project permissions."
    else if includes lowerMsg "safety"
    then SafetyError "Safety filters triggered by the prompt or image."
    else if strictEq status 404 || includes lowerMsg "not found"
    then ApiError ("Model " ++ showNumber status ++ ": The requested AI model is not available.")
                  defaultStatusCode
    else if (match status with Some s => 500 <=? s | None => false end)
            || includes lowerMsg "overloaded"
    then ApiError ("Server Error " ++ showNumber status
                   ++ ": AI engine is overloaded. Please retry.")
                  defaultStatusCode
    else if includes lowerMsg "fetch" || includes lowerMsg "network"
    then ApiError "Network Error: Unable to connect to Google AI. Check internet connection."
                  defaultStatusCode
    else if strictEq status 400 || includes lowerMsg "invalid argument"
    then
      if includes lowerMsg "image" then ApiError "Invalid Image format or size." 400
      else ApiError "Invalid Argument: The request was malformed. Check prompt or config." 400
    else ApiError rawMessage (AiCore.statusOr500 status)
  end.

Definition getApiKey : M string :=
  apiKey <- readApiKey env ;;
  match apiKey with
  | Some key =>
    if truthyString (Some key) then ret key
    else throw (AppErr (AuthenticationError "api_key_missing"))
  | None => throw (AppErr (AuthenticationError "api_key_missing"))
  end.

Definition buildParts (prompt : string) (images : list string) : list Part :=
  map (fun img => InlineDataPart (cleanBase64 img) (getMimeType img))
      (filter (fun img => truthyString (Some img)) images)
  ++ [TextPart (if truthyString (Some prompt) then prompt else "Analyze input assets.")].

Definition buildRequest (prompt : string) (images : list string) (config : AIRequestConfig)
  : ContentRequest :=
  mkContentRequest
    (model config)
    (buildParts prompt images)
    (mkGenerationConfig
       None
       (responseMimeType config)
       (match temperature config with Some t => t | None => (7 # 10)%Q end)
       (seed config)
       None
       (maxOutputTokens config)
       (match useSearch config with Some true => true | _ => false end)
       None)
    (if truthyString (systemInstruction config) then systemInstruction config else None).

Definition executeRequest (apiKey : string) (prompt : string) (images : list string)
    (config : AIRequestConfig) : M GenerateContentResponse :=
  generateContent env apiKey (buildRequest prompt images config).

(** The [try] block of the retry loop: resolve the key, run one request,
    parse the response. *)
Definition tryBlock (prompt : string) (images : list string) (config : AIRequestConfig)
  : M AIResponse :=
  apiKey <- getApiKey ;;
  response <- executeRequest apiKey prompt images config ;;
  AiCore.liftResult (parseResponse response).

Definition attemptOnce (prompt : string) (images : list string) (config : AIRequestConfig)
    (retries attempt : Z) : M (AIResponse + AppError) :=
  tryCatch
    (result <- tryBlock prompt images config ;;
     ret (inl result))
    (fun error =>
       let normalized := normalizeError error in
       if nonRetryable normalized then throw (AppErr normalized)
       else if attempt <? retries then
         rnd <- mathRandom env ;;
         let delay := (inject_Z (2 ^ attempt * 1000) + rnd * 500)%Q in
         emit (EvWarn (attempt + 1) normalized) ;;;
         sleep delay ;;;
         ret (inr normalized)
       else
         emit (EvError (AppErr normalized)) ;;;
         ret (inr normalized)).

Fixpoint generateFrom (fuel : nat) (prompt : string) (images : list string)
    (config : AIRequestConfig) (retries attempt : Z) (lastError : Thrown) : M AIResponse :=
  if attempt <=? retries then
    match fuel with
    | O => fun w => (OutOfFuel, w)
    | S fuel' =>
      r <- attemptOnce prompt images config retries attempt ;;
      match r with
      | inl response => ret response
      | inr normalized =>
        generateFrom fuel' prompt images config retries (attempt + 1) (AppErr normalized)
      end
    end
  else throw lastError.

Definition retriesOf (config : AIRequestConfig) : Z :=
  match maxRetries config with
  | Some n => n
  | None => DEFAULT_RETRIES
  end.

Definition generate (prompt : string) (images : list string) (config : AIRequestConfig)
  : M AIResponse :=
  let retries := retriesOf config in
  generateFrom (Z.to_nat (retries + 1)) prompt images config retries 0 (Raw undefinedValue).

Definition videoRequest (prompt image : string) : VideoRequest :=
  mkVideoRequest Veo31FastGeneratePreview prompt (cleanBase64 image) (getMimeType image)
                 None "720p" AR_16_9.

(** [for (let i = 0; i < MAX_POLLS; i++) { if (operation.done) return ...; sleep; re-fetch }
    throw TIMEOUT].  [fuel] bounds the iterations of the model;
    [generateVideo] supplies [MAX_POLLS], which the guard never lets run
    out. *)
Fixpoint pollLoop (fuel : nat) (apiKey : string) (i : Z) (operation : Operation)
  : M (option string) :=
  if i <? MAX_POLLS then
    match fuel with
    | O => fun w => (OutOfFuel, w)
    | S fuel' =>
      if op_done operation then
        match op_videoUri operation with
        | Some videoUri =>
          if truthyString (Some videoUri) then ret (Some (videoUri ++ "&key=" ++ apiKey))
          else ret None
        | None => ret None
        end
      else
        sleep (inject_Z 5000) ;;;
        operation' <- getVideosOperation env operation ;;
        pollLoop fuel' apiKey (i + 1) operation'
    end
  else throw (AppErr (ApiError TIMEOUT 408)).

Definition generateVideo (prompt image : string) : M (option string) :=
  tryCatch
    (apiKey <- getApiKey ;;
     operation <- generateVideos env apiKey (videoRequest prompt image) ;;
     pollLoop (Z.to_nat MAX_POLLS) apiKey 0 operation)
    (fun error =>
       emit (EvError error) ;;;
       throw (AppErr (normalizeError error))).

End Service.

End Part003.

(** ** The payload in the specification's words *)

Module Payload.
Import Provider.

Section WithImageHelpers.
Variable cleanBase64 : string -> string.
Variable getMimeType : string -> string.

(** The inline-data part of one image: its bytes plus its media type. *)
Definition inlinePart (img : string) : Part :=
  InlineDataPart (cleanBase64 img) (getMimeType img).

(** The content of the text part: the prompt, or the default text when
    the prompt is empty. *)
Definition textOf (prompt : string) : string :=
  if (prompt =? "")%string then "Analyze input assets." else prompt.

(** The payload as the specification words it: every supplied image, in
    order, then the text part. *)
Definition specifiedParts (prompt : string) (images : list string) : list Part :=
  (map inlinePart images ++ [TextPart (textOf prompt)])%list.

End WithImageHelpers.

End Payload.

(** ** Reading runs *)

Module Traces.
Import Errors Provider Runtime.

(** [2^attempt * 1000 + Math.random() * 500], for the random draw [rnd]. *)
Definition backoffDelay (attempt : Z) (rnd : Q) : Q :=
  (inject_Z (2 ^ attempt * 1000) + rnd * 500)%Q.

(** The world after the backoff of a failed attempt: one random draw, the
    warning and the sleep. *)
Definition afterBackoff (env : Env) (attempt : Z) (e : AppError) (w : World) : World :=
  record (EvSleep (backoffDelay attempt (env_random env (randomDraws w))))
    (record (EvWarn (attempt + 1) e)
       (mkWorld (keyReads w) (contentCalls w) (S (randomDraws w)) (pollCalls w) (log w))).

(** The world after [process.env.API_KEY] has been read. *)
Definition afterKey (w : World) : World :=
  mkWorld (S (keyReads w)) (contentCalls w) (randomDraws w) (pollCalls w)
          (log w ++ [EvReadKey]).

(** The world after the key has been read and the provider called with
    [request]. *)
Definition afterCall (key : string) (request : ContentRequest) (w : World) : World :=
  mkWorld (S (keyReads w)) (S (contentCalls w)) (randomDraws w) (pollCalls w)
          ((log w ++ [EvReadKey]) ++ [EvGenerateContent key request]).

(** A response with no candidate at all. *)
Definition zeroCandidates (response : GenerateContentResponse) : bool :=
  match resp_candidates response with
  | None => true
  | Some [] => true
  | Some (_ :: _) => false
  end.

(** What [generateVideo] hands back for a finished operation: the URI with
    ["&key="] and the key appended, or [null] when there is no URI. *)
Definition videoResult (apiKey : string) (operation : Operation) : option string :=
  match operation.(op_videoUri) with
  | Some uri => if (uri =? "")%string then None else Some (uri ++ "&key=" ++ apiKey)
  | None => None
  end.

(** The submitted video job never reports done, neither when it is created
    nor on any later fetch. *)
Definition neverDone (env : Env) : Prop :=
  (forall key req, exists op, env_generateVideos env key req = inr op /\ op_done op = false)
  /\ (forall k op, exists op',
         env_getVideosOperation env k op = inr op' /\ op_done op' = false).

(** [finishesAt env base op n last]: starting from operation [op], when
    [base] fetches have been made so far, the job first reports done after
    [n] more fetches, as operation [last]. *)
Inductive finishesAt (env : Env) : nat -> Operation -> nat -> Operation -> Prop :=
| finishes_now (base : nat) (op : Operation) :
    op_done op = true -> finishesAt env base op 0 op
| finishes_later (base : nat) (op next : Operation) (n : nat) (last : Operation) :
    op_done op = false ->
    env_getVideosOperation env base op = inr next ->
    finishesAt env (S base) next n last ->
    finishesAt env base op (S n) last.

(** [jobFinishes env w key req n last]: a call of [generateVideo] made in
    world [w] resolves the non-empty key [key], the provider accepts its
    job [req], and this job first reports done after [n] fetches, counted
    from the fetches made before the call, as operation [last]. *)
Definition jobFinishes (env : Env) (w : World) (key : string) (req : VideoRequest)
    (n : nat) (last : Operation) : Prop :=
  env_API_KEY env (keyReads w) = Some key /\
  key <> "" /\
  exists submitted,
    env_generateVideos env key req = inr submitted /\
    finishesAt env (pollCalls w) submitted n last.

(** [carriesKey key last v]: [v] is what the caller gets for the finished
    operation [last]: a result URI followed by ["&key="] and the key,
    which is not the bare URI, and [null] when the operation has no URI
    (or an empty one, which JavaScript takes as absent). *)
Definition carriesKey (key : string) (last : Operation) (v : option string) : Prop :=
  v = videoResult key last /\
  (forall uri, op_videoUri last = Some uri -> uri <> "" ->
               v = Some (uri ++ "&key=" ++ key) /\ v <> Some uri) /\
  (op_videoUri last = None -> v = None) /\
  (op_videoUri last = Some "" -> v = None).

(** Status codes the retry guard of [src/services/ai-core.ts] treats as
    client errors: 400 to 499, 429 excepted. *)
Definition clientErrorCode (code : Z) : bool :=
  (400 <=? code) && (code <? 500) && negb (code =? 429).

End Traces.

(** ** Concrete inputs used by the examples below *)

Module Scenarios.
Import Js Errors Provider Runtime.

(** Stand-ins for the two image helpers. *)
Definition sampleCleanBase64 (img : string) : string := img.
Definition sampleGetMimeType (_ : string) : string := "image/png".

Definition baseConfig (m : AIModel) (retries : option Z) : AIRequestConfig :=
  mkConfig m None None None None None None None retries None None.

Definition thinkingConfig (budget : Z) (maxTokens : option Z) : AIRequestConfig :=
  mkConfig Gemini3ProPreview None None (Some budget) maxTokens None None None None None None.

(** An environment that behaves the same way on every use. *)
Definition steadyEnv (key : option string) (content : RawError + GenerateContentResponse)
    (rnd : Q) (submitted polled : RawError + Operation) : Env :=
  mkEnv (fun _ => key) (fun _ _ _ => content) (fun _ => rnd)
        (fun _ _ => submitted) (fun _ _ => polled).

Definition pendingOperation : Operation := mkOperation false None.
Definition finishedOperation : Operation :=
  mkOperation true (Some "https://videos.example/clip.mp4?alt=media").

Definition rawWithStatus (message : string) (status : Z) : RawError :=
  mkRawError (Some message) (Some ("Error: " ++ message)) (Some status) None.

(** A 403 whose text also mentions the quota. *)
Definition billingQuota403 : RawError :=
  rawWithStatus "The billing quota of this project is used up" 403.

Definition billing403 : RawError :=
  rawWithStatus "This project has billing disabled" 403.

Definition notFound404 : RawError :=
  rawWithStatus "Requested entity does not exist" 404.

Definition unavailable503 : RawError :=
  rawWithStatus "The service is currently unavailable" 503.

Definition unauthorized401 : RawError :=
  rawWithStatus "Request had invalid credentials" 401.

Definition emptyResponse : GenerateContentResponse := mkResponse None (Some []) None.

Definition failingEnv (r : RawError) : Env :=
  steadyEnv (Some "SECRET") (inl r) (1 # 2)%Q (inr pendingOperation) (inr pendingOperation).

Definition emptyEnv : Env :=
  steadyEnv (Some "SECRET") (inr emptyResponse) (1 # 2)%Q
            (inr pendingOperation) (inr pendingOperation).

Definition noKeyEnv : Env :=
  steadyEnv None (inr emptyResponse) (1 # 2)%Q (inr pendingOperation) (inr pendingOperation).

Definition neverDoneEnv : Env := emptyEnv.

(** The job reports done on the [n]-th fetch and not before. *)
Definition doneAtFetchEnv (n : nat) : Env :=
  mkEnv (fun _ => Some "SECRET") (fun _ _ _ => inr emptyResponse) (fun _ => (1 # 2)%Q)
        (fun _ _ => inr pendingOperation)
        (fun k _ => if Nat.eqb (S k) n then inr finishedOperation else inr pendingOperation).

Definition doneAtOnceEnv : Env :=
  steadyEnv (Some "SECRET") (inr emptyResponse) (1 # 2)%Q
            (inr finishedOperation) (inr finishedOperation).

Definition hudConfig (retries : Z) : AIRequestConfig :=
  baseConfig Gemini25FlashImage (Some retries).

(** [generate("Add a sci-fi HUD", ["logo"], { model, maxRetries })] from a
    fresh world. *)
Definition runGenerate (env : Env) (retries : Z) : Outcome AIResponse * World :=
  AiCore.generate sampleCleanBase64 sampleGetMimeType env "Add a sci-fi HUD" ["logo"]
                  (hudConfig retries) initialWorld.

(** The same call on the second copy, whose [ApiError] constructor is taken
    to default to status 500. *)
Definition runGenerateCopy (env : Env) (retries : Z) : Outcome AIResponse * World :=
  Part003.generate sampleCleanBase64 sampleGetMimeType 500 env "Add a sci-fi HUD" ["logo"]
                   (hudConfig retries) initialWorld.

(** [generateVideo("Slow product reveal", "logo")] from a fresh world, in
    [src/services/ai-core.ts] and in the second copy. *)
Definition runVideo (env : Env) : Outcome (option string) * World :=
  AiCore.generateVideo sampleCleanBase64 sampleGetMimeType env "Slow product reveal" "logo"
                       initialWorld.

Definition runVideoCopy (env : Env) : Outcome (option string) * World :=
  Part003.generateVideo sampleCleanBase64 sampleGetMimeType 500 env "Slow product reveal"
                        "logo" initialWorld.

End Scenarios.

(** ** [src/features/merch/utils.ts]: the advice shown with an error *)

Module MerchUtils.
Import Js.

(** The texts [getErrorSuggestion] returns, in the order of the source. *)
Definition STORAGE_LIMIT : string :=
  "Storage Limit: The uploaded file exceeds the 5MB maximum. Action: Compress your image using a tool like TinyPNG or choose a smaller file.".
Definition FORMAT_ERROR : string :=
  "Format Error: The uploaded file type is not supported. Action: Please use standard JPG, PNG, or WEBP image files.".
Definition RENDERING_SECURITY : string :=
  "Rendering Security: Cross-origin resource blocked. Action: The source image URL is not accessible to the canvas engine. Please re-upload the logo locally.".
Definition SYSTEM_LIMITATION : string :=
  "System Limitation: Browser graphics memory exhausted. Action: Your device is running low on memory. Close other tabs or export at a lower quality.".
Definition EXPORT_FAILED : string :=
  "Export Failed: Encoding error. Action: Try switching the export format to JPG or reducing the quality slider slightly.".
Definition SAFETY_POLICY_FIGURES : string :=
  "Safety Policy: The AI model restricts generating photorealistic human figures in this context. Action: Remove words like 'model', 'man', 'woman', or 'wearing' from your style prompt. Focus on the product artifact itself.".
Definition SAFETY_POLICY_CONTENT : string :=
  "Safety Policy: The prompt or input image triggered safety filters. Action: Ensure your logo and style description do not contain suggestive, violent, or prohibited content.".
Definition SAFETY_FILTER : string :=
  "Safety Filter: The generation was blocked by AI safety protocols. Action: Simplify your 'Visual Direction' prompt to be more descriptive of lighting and texture, rather than specific subjects.".
Definition CONTENT_POLICY : string :=
  "Content Policy: Potential copyright overlap detected. Action: The AI detected that your logo or prompt might resemble protected intellectual property. Try using a more original design or generic description.".
Definition API_CAPACITY : string :=
  "API Capacity: Request limit reached. Action: The system is cooling down. Please wait 20-30 seconds before clicking 'Generate' again to reset your token bucket.".
Definition GEO_UNAVAILABLE : string :=
  "Geo-Restriction: Service Unavailable. Action: The AI model is not currently available in your region. Please check Google's supported locations.".
Definition SYSTEM_STATUS : string :=
  "System Status: Regional server capacity reached. Action: The AI engine is currently experiencing high traffic. Please retry your request in 1 minute.".
Definition ACCOUNT_CONFIG : string :=
  "Account Config: Billing not enabled. Action: The API key provided belongs to a Google Cloud Project without active billing. Please enable billing in the Google Cloud Console to use the Gemini 2.5/3.0 models.".
Definition AUTHENTICATION : string :=
  "Authentication: Invalid API Credentials. Action: Your API Key appears to be invalid or expired. Please check your environment variables or re-enter your key.".
Definition ASSET_TOO_LARGE : string :=
  "Asset Error: File size too large. Action: The uploaded logo exceeds the processing limit. Please resize it to under 2048x2048 pixels (or < 4MB) and try again.".
Definition ASSET_TOO_SMALL : string :=
  "Asset Error: File resolution too low. Action: The logo is too small for high-quality synthesis. Please upload a version at least 512x512 pixels.".
Definition ASSET_FORMAT : string :=
  "Asset Error: Unsupported image format. Action: The file encoding is not recognized. Please convert your logo to a standard PNG or JPG file.".
Definition REQUEST_ERROR : string :=
  "Request Error: Pipeline confusion. Action: Your 'Visual Direction' prompt might be too complex or conflicting. Try simplifying it to 1-2 keywords like 'Cinematic' or 'Studio Lighting'.".
Definition COMPOSITION_ERROR : string :=
  "Composition Error: Background blending failed. Action: The AI struggled to merge the logo with the scene. Try a simpler background or standalone generation.".
Definition DIAGNOSTIC : string :=
  "Diagnostic: Unknown synthesis pipeline interrupt. Action: Check your internet connection and ensure your logo file is a valid image. If the problem persists, try a different product category.".

(** The three checks inside rule 6 ("asset issues"): when none of them
    answers, the function goes on with rule 7. *)
Definition assetAdvice (msg : string) : option string :=
  if includes msg "large" || includes msg "size" then Some ASSET_TOO_LARGE
  else if includes msg "small" || includes msg "dimension" then Some ASSET_TOO_SMALL
  else if includes msg "format" || includes msg "mime" || includes msg "decode"
  then Some ASSET_FORMAT
  else None.

(** Rules 7 and 8, reached when no earlier rule returned. *)
Definition lateAdvice (msg : string) (hasBackground : bool) : string :=
  if includes msg "400" || includes msg "invalid argument" then REQUEST_ERROR
  else if hasBackground && (includes msg "blend" || includes msg "composite")
  then COMPOSITION_ERROR
  else DIAGNOSTIC.

Definition getErrorSuggestion (errorMsg : string) (hasBackground : bool) : string :=
  let msg := toLowerCase errorMsg in
  (* 0. Client-side upload validation *)
  if includes msg "limit" && (includes msg "size" || includes msg "mb") then STORAGE_LIMIT
  else if includes msg "not a valid image" || includes msg "type" then FORMAT_ERROR
  (* 0.1 Export and canvas rendering errors *)
  else if includes msg "texture_load" || includes msg "resource unreachable"
  then RENDERING_SECURITY
  else if includes msg "canvas_context" || includes msg "2d context" then SYSTEM_LIMITATION
  else if includes msg "export_failure" then EXPORT_FAILED
  (* 1. Safety filters *)
  else if includes msg "safety" || includes msg "blocked" || includes msg "candidate" then
    if includes msg "face" || includes msg "person" || includes msg "human"
       || includes msg "child"
    then SAFETY_POLICY_FIGURES
    else if includes msg "sexual" || includes msg "violent" || includes msg "harm"
            || includes msg "nude"
    then SAFETY_POLICY_CONTENT
    else SAFETY_FILTER
  (* 2. Copyright / recitation *)
  else if includes msg "recitation" || includes msg "copyright" then CONTENT_POLICY
  (* 3. Rate limits and quota *)
  else if includes msg "429" || includes msg "quota" || includes msg "exhausted"
  then API_CAPACITY
  (* 4. Server overload and region *)
  else if includes msg "location" || includes msg "region" || includes msg "country"
  then GEO_UNAVAILABLE
  else if existsb (fun code => includes msg (showNumber (Some code))) [500; 502; 503; 504]
          || includes msg "overloaded" || includes msg "busy" || includes msg "capacity"
  then SYSTEM_STATUS
  (* 5. Billing and authentication *)
  else if includes msg "billing" || includes msg "project" || includes msg "enable"
  then ACCOUNT_CONFIG
  else if includes msg "403" || includes msg "permission" || includes msg "valid key"
          || includes msg "api key"
  then AUTHENTICATION
  (* 6. Asset issues; 7. prompt complexity; 8. fallback *)
  else if includes msg "image" || includes msg "media" || includes msg "buffer" then
    match assetAdvice msg with
    | Some advice => advice
    | None => lateAdvice msg hasBackground
    end
  else lateAdvice msg hasBackground.

(** [errorSuggestion: error ? getErrorSuggestion(error, !!assets.bg) : null]
    of [src/features/merch/hooks/useMerchState.ts]: [error] is the
    [message] of the last failure, or [null]. *)
Definition errorSuggestion (error : option string) (bg : option string) : option string :=
  match error with
  | Some msg =>
    if truthyString (Some msg) then Some (getErrorSuggestion msg (truthyString bg)) else None
  | None => None
  end.

End MerchUtils.

(** ** [generateMarketingCopy] of [src/services/ai-core.ts] *)

Module Marketing.
Import Js Errors Provider Runtime.
Local Open Scope runtime_scope.

(** The characters a string literal cannot hold as they are. *)
Definition quote : string := String (ascii_of_nat 34) EmptyString.
Definition newline : string := String (ascii_of_nat 10) EmptyString.

(** The template literal [prompt]. *)
Definition marketingPrompt (productName : string) : string :=
  "Analyze this product image of " ++ quote ++ productName ++ quote ++
  " and generate optimized marketing copy for Shopify/Etsy." ++ newline ++
  "    Return valid JSON with keys: " ++ quote ++ "title" ++ quote ++
  " (SEO title, <80 chars), " ++ quote ++ "description" ++ quote ++
  " (engaging, ~100 words), " ++ quote ++ "tags" ++ quote ++ " (array of 5-7 strings)." ++
  newline ++ "    Focus on visual details, mood, and material quality inferred from the image.".

(** The config literal handed to [generate]: every other field is
    undefined, so the default number of retries applies. *)
Definition marketingConfig : AIRequestConfig :=
  mkConfig Gemini3FlashPreview None None None None None None (Some "application/json")
           None None (Some (7 # 10)%Q).

Section Service.
Variable cleanBase64 : string -> string.
Variable getMimeType : string -> string.
Variable env : Env.
(** [JSON.parse] and the values it yields are the runtime's: parsing
    either gives a value or throws a [SyntaxError]. *)
Variable MarketingCopyData : Type.
Variable JSON_parse : string -> RawError + MarketingCopyData.

(** [response.text || "{}"] *)
Definition textOrEmptyObject (response : AIResponse) : string :=
  match orString (ai_text response) (Some "{}") with
  | Some text => text
  | None => "{}"
  end.

Definition generateMarketingCopy (productName image : string) : M MarketingCopyData :=
  tryCatch
    (response <- AiCore.generate cleanBase64 getMimeType env (marketingPrompt productName)
                   [image] marketingConfig ;;
     match JSON_parse (textOrEmptyObject response) with
     | inl syntaxError => throw (Raw syntaxError)
     | inr data => ret data
     end)
    (fun e =>
       emit (EvError e) ;;;
       throw (AppErr (AiCore.normalizeError e))).

End Service.

End Marketing.

(** ** Reading whole runs *)

Module Runs.
Import Js Errors Provider Runtime Traces.

(** The delays of [k] consecutive backoffs, the first after attempt number
    [attempt] and with random draw number [draw]. *)
Fixpoint backoffSchedule (env : Env) (attempt : Z) (draw k : nat) : list Q :=
  match k with
  | O => []
  | S k' =>
    backoffDelay attempt (env_random env draw) :: backoffSchedule env (attempt + 1) (S draw) k'
  end.

(** The finish reasons [parseResponse] lets through: none, the empty string,
    ["STOP"] and ["MAX_TOKENS"]. *)
Definition normalFinish (reason : option string) : bool :=
  match reason with
  | None => true
  | Some r => (r =? "")%string || (r =? "STOP")%string || (r =? "MAX_TOKENS")%string
  end.

(** A part of a response that carries inline data. *)
Definition hasInlineData (p : ResponsePart) : bool :=
  match rp_inlineData p with
  | Some _ => true
  | None => false
  end.

(** What ends up in [result.image] for the inline data of a part. *)
Definition dataUriOf (d : InlineData) : option string :=
  match id_data d with
  | Some data => if (data =? "")%string then None else Some ("data:image/png;base64," ++ data)
  | None => None
  end.

(** [response.candidates?.[0]?.finishReason] *)
Definition firstFinishReason (response : GenerateContentResponse) : option string :=
  match resp_candidates response with
  | Some (c :: _) => cand_finishReason c
  | _ => None
  end.

(** A response the model or the provider refused for safety: a prompt
    block, or a first candidate that finished with ["SAFETY"] or
    ["RECITATION"]. *)
Definition safetyStop (response : GenerateContentResponse) : bool :=
  truthyString (resp_blockReason response)
  || match firstFinishReason response with
     | Some r => (r =? "SAFETY")%string || (r =? "RECITATION")%string
     | None => false
     end.

(** How many video jobs a log shows being submitted. *)
Fixpoint submissions (l : list Event) : nat :=
  match l with
  | [] => 0
  | EvGenerateVideos _ _ :: rest => S (submissions rest)
  | _ :: rest => submissions rest
  end.

(** [polled m w wf]: between the worlds [w] and [wf] lie [m] fetches of the
    job, each after a sleep of five seconds, and nothing else that the
    counters or the log of sleeps and submissions would show. *)
Definition polled (m : nat) (w wf : World) : Prop :=
  pollCalls wf = (pollCalls w + m)%nat /\
  sleeps (log wf) = (sleeps (log w) ++ repeat (inject_Z 5000) m)%list /\
  submissions (log wf) = submissions (log w) /\
  keyReads wf = keyReads w /\
  contentCalls wf = contentCalls w /\
  randomDraws wf = randomDraws w.


(** Modelled from the spec: [err.message] of an error of
    [shared/utils/errors.ts], the text the screens store and show, is the
    message the error was constructed with.  [rateLimitDefault] is the
    default message of [new RateLimitError()], declared in the absent
    file. *)
Definition messageOf (rateLimitDefault : string) (e : AppError) : string :=
  match e with
  | ApiError message _ => message
  | AuthenticationError message => message
  | SafetyError message => message
  | RateLimitError (Some message) => message
  | RateLimitError None => rateLimitDefault
  end.

(** A thrown value is a classified error. *)
Definition classified (t : Thrown) : bool :=
  match t with
  | AppErr _ => true
  | Raw _ => false
  end.

(** An outcome a caller of the service can see: a returned value or a
    classified error. *)
Definition settled {A} (o : Outcome A) : bool :=
  match o with
  | Returned _ => true
  | Threw t => classified t
  | OutOfFuel => false
  end.

End Runs.

(** ** More concrete inputs *)

Module MoreScenarios.
Import Js Errors Provider Runtime Scenarios.

(** A response with one candidate that stopped normally and carries one
    inline image after a text part. *)
Definition imageResponse : GenerateContentResponse :=
  mkResponse None
    (Some [mkCandidate (Some "STOP") None
             (Some (mkContent (Some [mkResponsePart None (Some "Here is the mockup");
                                     mkResponsePart (Some (mkInlineData (Some "iVBORw0KGgo")
                                                                        (Some "image/jpeg")))
                                                    None])))])
    (Some "Here is the mockup").

(** The provider fails [k] times with [r], then answers [response]. *)
Definition flakyEnv (k : nat) (r : RawError) (response : GenerateContentResponse) : Env :=
  mkEnv (fun _ => Some "SECRET")
        (fun n _ _ => if Nat.ltb n k then inl r else inr response)
        (fun _ => (1 # 2)%Q)
        (fun _ _ => inr pendingOperation)
        (fun _ _ => inr pendingOperation).

(** What [parseResponse] makes of [imageResponse]. *)
Definition imageResult : AIResponse :=
  mkAIResponse (Some "Here is the mockup") (Some "data:image/png;base64,iVBORw0KGgo") None
               (Some "STOP").

(** A prompt the provider refused. *)
Definition blockedResponse : GenerateContentResponse :=
  mkResponse (Some "PROHIBITED_CONTENT") None None.

(** A candidate that stopped for a reason the service has no rule for. *)
Definition cutOffResponse : GenerateContentResponse :=
  mkResponse None (Some [mkCandidate (Some "MALFORMED_FUNCTION_CALL") None None]) None.

(** The provider answers every request with [response]. *)
Definition answeringEnv (response : GenerateContentResponse) : Env :=
  steadyEnv (Some "SECRET") (inr response) (1 # 2)%Q
            (inr pendingOperation) (inr pendingOperation).

End MoreScenarios.

(** * Properties *)

(** ** Strings *)

Module JsFacts.
Import Js.

Lemma prefix_toLowerCase (p s : string) :
  prefix p s = true -> prefix (toLowerCase p) (toLowerCase s) = true.
Proof.
  revert s; induction p as [|a p IH]; intros s H.
  - destruct s; reflexivity.
  - destruct s as [|b s]; [discriminate|].
    simpl in *. destruct (ascii_dec a b) as [->|]; [|discriminate].
    destruct (ascii_dec (lowerAscii b) (lowerAscii b)); [auto|congruence].
Qed.

(** Lower-casing both sides preserves containment. *)
Lemma includes_toLowerCase (s sub : string) :
  includes s sub = true -> includes (toLowerCase s) (toLowerCase sub) = true.
Proof.
  induction s as [|c s IH]; cbn [includes toLowerCase]; intros H.
  - apply orb_true_iff in H as [H|H]; [|discriminate].
    apply prefix_toLowerCase in H. cbn [toLowerCase] in H. rewrite H. reflexivity.
  - apply orb_true_iff in H as [H|H].
    + apply prefix_toLowerCase in H. cbn [toLowerCase] in H. rewrite H. reflexivity.
    + rewrite (IH H). apply orb_true_r.
Qed.

Lemma append_length (a b : string) :
  String.length (a ++ b) = (String.length a + String.length b)%nat.
Proof. induction a; simpl; auto. Qed.

(** Appending a non-empty suffix changes a string. *)
Lemma append_nonempty_neq (a b : string) : b <> "" -> a ++ b <> a.
Proof.
  intros Hb Heq. apply (f_equal String.length) in Heq.
  rewrite append_length in Heq.
  destruct b; [congruence|]. simpl in Heq. lia.
Qed.

End JsFacts.

(** ** The error classifier *)

Module ClassifierProps.
Import Js Errors Provider Runtime AiCore Scenarios.

Example normalize_billing403 :
  normalizeError (Raw billing403) = AuthenticationError BILLING_REQUIRED.
Proof. vm_compute. reflexivity. Qed.

Example normalize_billingQuota403 :
  normalizeError (Raw billingQuota403) = RateLimitError None.
Proof. vm_compute. reflexivity. Qed.

Example normalize_notFound404 :
  normalizeError (Raw notFound404) = ApiError MODEL_UNAVAILABLE 404.
Proof. vm_compute. reflexivity. Qed.

Example normalize_unavailable503 :
  normalizeError (Raw unavailable503) = ApiError SYSTEM_OVERLOAD 503.
Proof. vm_compute. reflexivity. Qed.

Example normalize_undefined :
  normalizeError (Raw undefinedValue) = ApiError "GENAI_ERROR: Unknown error" 500.
Proof. vm_compute. reflexivity. Qed.

(** An already classified error goes through untouched. *)
Lemma normalizeError_AppErr (e : AppError) : normalizeError (AppErr e) = e.
Proof. reflexivity. Qed.

(** C6: the classifier is idempotent, [classify (classify x) = classify x],
    and an already classified error handed back to it is returned unchanged,
    with the same class, message and status code. *)
Theorem C6_normalizeError_idempotent :
  (forall x : Thrown,
      normalizeError (AppErr (normalizeError x)) = normalizeError x) /\
  (forall e : AppError,
      normalizeError (AppErr e) = e /\
      kindOf (normalizeError (AppErr e)) = kindOf e /\
      apiStatusCode (normalizeError (AppErr e)) = apiStatusCode e).
Proof.
  split.
  - intros x. apply normalizeError_AppErr.
  - intros e. rewrite normalizeError_AppErr. auto.
Qed.

(** The rule for status 403 once no earlier rule has fired. *)
Lemma normalizeError_403_billing (r : RawError) :
  statusOf r = Some 403 ->
  includes (toLowerCase (rawMessageOf r)) "billing" = true ->
  includes (toLowerCase (rawMessageOf r)) "429" = false ->
  includes (toLowerCase (rawMessageOf r)) "quota" = false ->
  includes (toLowerCase (rawMessageOf r)) "exhausted" = false ->
  includes (toLowerCase (rawMessageOf r)) "api key" = false ->
  includes (toLowerCase (rawMessageOf r)) "unauthenticated" = false ->
  normalizeError (Raw r) = AuthenticationError BILLING_REQUIRED.
Proof.
  intros Hs Hb H1 H2 H3 H4 H5. unfold normalizeError.
  rewrite Hs, Hb, H1, H2, H3, H4, H5. reflexivity.
Qed.

(** C7, as the code has it: a raw failure with status 403 whose message
    contains "billing" is classified as the billing-specific
    [AuthenticationError], provided no earlier rule fires, that is, the
    lower-cased message mentions none of "429", "quota", "exhausted",
    "api key" and "unauthenticated".  The message is ASCII text, on which
    the classifier's lower-casing is the one of [toLowerCase]. *)
Theorem C7_billing_403 (r : RawError) :
  isAscii (rawMessageOf r) = true ->
  statusOf r = Some 403 ->
  includes (rawMessageOf r) "billing" = true ->
  (forall earlier,
      In earlier ["429"; "quota"; "exhausted"; "api key"; "unauthenticated"] ->
      includes (toLowerCase (rawMessageOf r)) earlier = false) ->
  normalizeError (Raw r) = AuthenticationError BILLING_REQUIRED /\
  kindOf (normalizeError (Raw r)) = AuthenticationFailed /\
  normalizeError (Raw r) <> AuthenticationError ACCESS_DENIED.
Proof.
  intros _ Hs Hb Hearlier.
  assert (Hn : normalizeError (Raw r) = AuthenticationError BILLING_REQUIRED).
  { apply normalizeError_403_billing; trivial.
    - apply (JsFacts.includes_toLowerCase _ "billing"). exact Hb.
    - apply Hearlier; simpl; auto.
    - apply Hearlier; simpl; auto.
    - apply Hearlier; simpl; auto.
    - apply Hearlier; simpl; auto.
    - apply Hearlier; simpl; auto 6. }
  rewrite Hn. repeat split. discriminate.
Qed.

Lemma C7_billing_403_witness :
  isAscii (rawMessageOf billing403) = true /\
  statusOf billing403 = Some 403 /\
  includes (rawMessageOf billing403) "billing" = true /\
  normalizeError (Raw billing403) = AuthenticationError BILLING_REQUIRED.
Proof.
  split; [vm_compute; reflexivity|].
  split; [reflexivity|]. split; [vm_compute; reflexivity|].
  apply (C7_billing_403 billing403).
  - vm_compute; reflexivity.
  - reflexivity.
  - vm_compute; reflexivity.
  - intros earlier Hin. simpl in Hin.
    repeat (destruct Hin as [<-|Hin]; [vm_compute; reflexivity|]). contradiction.
Defined.

(** C7 as stated fails: a 403 whose message, ASCII text, contains
    "billing" and also mentions the quota is classified by the first rule,
    as a rate limit. *)
Lemma C7_counterexample :
  isAscii (rawMessageOf billingQuota403) = true /\
  statusOf billingQuota403 = Some 403 /\
  includes (rawMessageOf billingQuota403) "billing" = true /\
  includes (toLowerCase (rawMessageOf billingQuota403)) "billing" = true /\
  normalizeError (Raw billingQuota403) = RateLimitError None /\
  kindOf (normalizeError (Raw billingQuota403)) <> AuthenticationFailed.
Proof.
  repeat split; try (vm_compute; reflexivity).
  vm_compute. discriminate.
Qed.

End ClassifierProps.

(** ** The request executor *)

Module ExecutorProps.
Import Js Errors Provider Runtime Payload Scenarios.

Lemma truthyString_nonempty (s : string) :
  truthyString (Some s) = negb (s =? "")%string.
Proof. destruct s; reflexivity. Qed.

Lemma filter_all {A} (keep : A -> bool) (l : list A) :
  Forall (fun x => keep x = true) l -> filter keep l = l.
Proof.
  induction 1 as [|x l Hx _ IH]; simpl; [reflexivity|].
  rewrite Hx, IH. reflexivity.
Qed.

Section WithImageHelpers.
Variable cleanBase64 : string -> string.
Variable getMimeType : string -> string.

Lemma buildParts_eq (prompt : string) (images : list string) :
  AiCore.buildParts cleanBase64 getMimeType prompt images
  = specifiedParts cleanBase64 getMimeType prompt (filter (fun img => negb (img =? "")%string) images).
Proof.
  unfold AiCore.buildParts, Payload.specifiedParts, Payload.textOf. f_equal.
  - f_equal. apply filter_ext. intros img. apply truthyString_nonempty.
  - destruct prompt; reflexivity.
Qed.

Lemma buildParts_copy (prompt : string) (images : list string) :
  Part003.buildParts cleanBase64 getMimeType prompt images
  = AiCore.buildParts cleanBase64 getMimeType prompt images.
Proof. reflexivity. Qed.

(** What one call of the executor does to the world: exactly one
    provider call, carrying the assembled request. *)
Lemma executeRequest_log (env : Env) (apiKey prompt : string) (images : list string)
    (config : AIRequestConfig) (w : World) :
  log (snd (AiCore.executeRequest cleanBase64 getMimeType env apiKey prompt images config w))
  = (log w ++ [EvGenerateContent apiKey
                 (AiCore.buildRequest cleanBase64 getMimeType prompt images config)])%list.
Proof.
  unfold AiCore.executeRequest, bind, generateContent.
  destruct (env_generateContent env (contentCalls w) apiKey _) as [r|resp]; simpl.
  - reflexivity.
  - destruct (AiCore.parseResponse resp); reflexivity.
Qed.

Lemma executeRequest_copy_log (env : Env) (apiKey prompt : string) (images : list string)
    (config : AIRequestConfig) (w : World) :
  log (snd (Part003.executeRequest cleanBase64 getMimeType env apiKey prompt images config w))
  = (log w ++ [EvGenerateContent apiKey
                 (Part003.buildRequest cleanBase64 getMimeType prompt images config)])%list.
Proof.
  unfold Part003.executeRequest, generateContent.
  destruct (env_generateContent env (contentCalls w) apiKey _); reflexivity.
Qed.

(** C1: when [thinkingBudget] is set, the request the executor assembles
    carries [max maxOutputTokens (thinkingBudget + 1024)] as its output
    token budget when [maxOutputTokens] is set (a positive integer, so not
    zero), and [thinkingBudget + 2048] when it is unset (or zero, which
    JavaScript takes as unset); budget 1000 gives 3048 with no
    [maxOutputTokens] and 2024 with [maxOutputTokens = 500].  The budgets
    are integers that JavaScript numbers add exactly ([exactInteger]): the
    thinking budget, the largest sum formed from it, and [maxOutputTokens].
    The assembled request is the one handed to the provider: the last
    conjunct is [executeRequest_log]. *)
Theorem C1_effective_max_output_tokens (env : Env) (apiKey prompt : string)
    (images : list string) (config : AIRequestConfig) (budget : Z) (w : World) :
  thinkingBudget config = Some budget ->
  exactInteger budget ->
  exactInteger (budget + 2048) ->
  (forall m, maxOutputTokens config = Some m -> exactInteger m) ->
  let sent := req_config (AiCore.buildRequest cleanBase64 getMimeType prompt images config) in
  (forall m, maxOutputTokens config = Some m -> m <> 0 ->
             gc_maxOutputTokens sent = Some (Z.max m (budget + 1024)) /\
             exactInteger (Z.max m (budget + 1024))) /\
  (maxOutputTokens config = None -> gc_maxOutputTokens sent = Some (budget + 2048)) /\
  (maxOutputTokens config = Some 0 -> gc_maxOutputTokens sent = Some (budget + 2048)) /\
  (budget = 1000 -> maxOutputTokens config = None -> gc_maxOutputTokens sent = Some 3048) /\
  (budget = 1000 -> maxOutputTokens config = Some 500 ->
   gc_maxOutputTokens sent = Some 2024) /\
  gc_thinkingConfig sent = Some budget /\
  log (snd (AiCore.executeRequest cleanBase64 getMimeType env apiKey prompt images config w))
  = (log w ++ [EvGenerateContent apiKey
                 (AiCore.buildRequest cleanBase64 getMimeType prompt images config)])%list.
Proof.
  intros Hb Hexact Hsum Hmax sent. subst sent. cbn [AiCore.buildRequest req_config
    AiCore.buildGenerationConfig gc_maxOutputTokens gc_thinkingConfig].
  unfold AiCore.effectiveMaxOutputTokens. rewrite Hb.
  split; [|split; [|split; [|split; [|split; [|split]]]]].
  - intros m Hm Hnz. specialize (Hmax m Hm). rewrite Hm. unfold truthyNumber.
    destruct (Z.eqb_spec m 0); [contradiction|]. split; [reflexivity|].
    unfold exactInteger in *. lia.
  - intros Hm. rewrite Hm. reflexivity.
  - intros Hm. rewrite Hm. reflexivity.
  - intros -> Hm. rewrite Hm. reflexivity.
  - intros -> Hm. rewrite Hm. reflexivity.
  - reflexivity.
  - apply executeRequest_log.
Qed.

(** When no supplied image is the empty string, the payload is the one
    the specification describes. *)
Lemma buildParts_all_nonempty (prompt : string) (images : list string) :
  Forall (fun img => (img =? "")%string = false) images ->
  AiCore.buildParts cleanBase64 getMimeType prompt images
  = specifiedParts cleanBase64 getMimeType prompt images.
Proof.
  intros Hall. rewrite buildParts_eq, filter_all; [reflexivity|].
  eapply Forall_impl; [|exact Hall]. intros img Himg; simpl in Himg. rewrite Himg.
  reflexivity.
Qed.

(** C9, as the code has it: the payload holds one inline-data part per
    non-empty supplied image, in the order supplied, followed by exactly
    one text part with the prompt, or "Analyze input assets." for the
    empty prompt; empty image strings are dropped.  Both copies of the
    service build the same parts, and the provider call carries them. *)
Theorem C9_payload_parts (env : Env) (apiKey prompt : string) (images : list string)
    (config : AIRequestConfig) (w : World) :
  let kept := filter (fun img => negb (img =? "")%string) images in
  let parts := specifiedParts cleanBase64 getMimeType prompt kept in
  req_parts (AiCore.buildRequest cleanBase64 getMimeType prompt images config) = parts /\
  req_parts (Part003.buildRequest cleanBase64 getMimeType prompt images config) = parts /\
  length parts = S (length kept) /\
  (exists inlined, parts = (inlined ++ [TextPart (textOf prompt)])%list /\
                   inlined = map (inlinePart cleanBase64 getMimeType) kept) /\
  (exists req,
      log (snd (AiCore.executeRequest cleanBase64 getMimeType env apiKey prompt images
                  config w))
      = (log w ++ [EvGenerateContent apiKey req])%list /\ req_parts req = parts) /\
  (exists req,
      log (snd (Part003.executeRequest cleanBase64 getMimeType env apiKey prompt images
                  config w))
      = (log w ++ [EvGenerateContent apiKey req])%list /\ req_parts req = parts).
Proof.
  intros kept parts. subst kept parts.
  assert (Hmain := buildParts_eq prompt images).
  repeat split.
  - exact Hmain.
  - cbn [Part003.buildRequest req_parts]. rewrite buildParts_copy. exact Hmain.
  - unfold Payload.specifiedParts. rewrite length_app, length_map. simpl. lia.
  - eexists. split; reflexivity.
  - eexists. split; [apply executeRequest_log|exact Hmain].
  - eexists. split; [apply executeRequest_copy_log|].
    cbn [Part003.buildRequest req_parts]. rewrite buildParts_copy. exact Hmain.
Qed.

End WithImageHelpers.

Lemma C1_effective_max_output_tokens_witness :
  thinkingBudget (thinkingConfig 1000 (Some 500)) = Some 1000 /\
  exactInteger 1000 /\
  exactInteger (1000 + 2048) /\
  gc_maxOutputTokens
    (req_config (AiCore.buildRequest sampleCleanBase64 sampleGetMimeType
                   "Explain the design" [] (thinkingConfig 1000 (Some 500))))
  = Some 2024.
Proof.
  assert (H1000 : exactInteger 1000) by (unfold exactInteger; lia).
  assert (H3048 : exactInteger (1000 + 2048)) by (unfold exactInteger; lia).
  split; [reflexivity|]. split; [exact H1000|]. split; [exact H3048|].
  destruct (C1_effective_max_output_tokens sampleCleanBase64 sampleGetMimeType emptyEnv
              "SECRET" "Explain the design" [] (thinkingConfig 1000 (Some 500)) 1000
              initialWorld eq_refl H1000 H3048)
    as (_ & _ & _ & _ & H & _).
  - intros m [= <-]. unfold exactInteger. lia.
  - apply H; reflexivity.
Defined.

Example thinking_1000_unset :
  gc_maxOutputTokens
    (req_config (AiCore.buildRequest sampleCleanBase64 sampleGetMimeType
                   "Explain the design" [] (thinkingConfig 1000 None)))
  = Some 3048.
Proof. reflexivity. Qed.

(** C9 as stated fails: an empty string among the supplied images gets no
    inline-data part; one supplied image, yet the payload is the text part
    alone. *)
Lemma C9_counterexample :
  req_parts (AiCore.buildRequest sampleCleanBase64 sampleGetMimeType "Add a sci-fi HUD" [""]
               (baseConfig Gemini25FlashImage None))
  = [TextPart "Add a sci-fi HUD"] /\
  req_parts (Part003.buildRequest sampleCleanBase64 sampleGetMimeType "Add a sci-fi HUD" [""]
               (baseConfig Gemini25FlashImage None))
  = [TextPart "Add a sci-fi HUD"] /\
  req_parts (AiCore.buildRequest sampleCleanBase64 sampleGetMimeType "Add a sci-fi HUD" [""]
               (baseConfig Gemini25FlashImage None))
  <> Payload.specifiedParts sampleCleanBase64 sampleGetMimeType "Add a sci-fi HUD" [""].
Proof.
  repeat split; try reflexivity. discriminate.
Qed.

End ExecutorProps.

(** ** The retry orchestrator *)

Module OrchestratorProps.
Import Js Errors Provider Runtime Traces Scenarios.
Import AiCore.

Lemma sleeps_app (l1 l2 : list Event) : sleeps (l1 ++ l2) = (sleeps l1 ++ sleeps l2)%list.
Proof.
  induction l1 as [|ev l1 IH]; simpl; [reflexivity|].
  destruct ev; simpl; rewrite IH; reflexivity.
Qed.

Section WithService.
Variable cleanBase64 : string -> string.
Variable getMimeType : string -> string.
Variable env : Env.
Variable prompt : string.
Variable images : list string.
Variable config : AIRequestConfig.

(** One run of the [try] block, spelled out. *)
Lemma tryBlock_run (w : World) :
  tryBlock cleanBase64 getMimeType env prompt images config w =
  match env_API_KEY env (keyReads w) with
  | Some key =>
    if truthyString (Some key) then
      match env_generateContent env (contentCalls w) key
             (buildRequest cleanBase64 getMimeType prompt images config) with
      | inl r => (Threw (Raw r), afterCall key (buildRequest cleanBase64 getMimeType prompt images config) w)
      | inr response =>
        match parseResponse response with
        | inl t => (Threw t, afterCall key (buildRequest cleanBase64 getMimeType prompt images config) w)
        | inr result => (Returned result, afterCall key (buildRequest cleanBase64 getMimeType prompt images config) w)
        end
      end
    else (Threw (AppErr (AuthenticationError API_KEY_MISSING)), afterKey w)
  | None => (Threw (AppErr (AuthenticationError API_KEY_MISSING)), afterKey w)
  end.
Proof.
  unfold tryBlock, getApiKey, executeRequest, bind, readApiKey.
  destruct (env_API_KEY env (keyReads w)) as [key|]; [|reflexivity].
  destruct (truthyString (Some key)); [|reflexivity].
  unfold ret, generateContent, record, afterCall.
  cbn [keyReads contentCalls randomDraws pollCalls log].
  destruct (env_generateContent env (contentCalls w) key
           (buildRequest cleanBase64 getMimeType prompt images config)) as [r|response];
    [reflexivity|].
  unfold liftResult. destruct (parseResponse response); reflexivity.
Qed.

(** The [try] block reads the key once, calls the provider at most once,
    draws no random number and does not sleep. *)
Lemma tryBlock_effect (w : World) :
  let w1 := snd (tryBlock cleanBase64 getMimeType env prompt images config w) in
  keyReads w1 = S (keyReads w) /\
  (contentCalls w <= contentCalls w1 <= S (contentCalls w))%nat /\
  randomDraws w1 = randomDraws w /\
  pollCalls w1 = pollCalls w /\
  sleeps (log w1) = sleeps (log w) /\
  fst (tryBlock cleanBase64 getMimeType env prompt images config w) <> OutOfFuel.
Proof.
  rewrite tryBlock_run.
  destruct (env_API_KEY env (keyReads w)) as [key|].
  2:{ cbn. rewrite sleeps_app. cbn. rewrite app_nil_r. repeat split; try lia; discriminate. }
  destruct (truthyString (Some key)).
  2:{ cbn. rewrite sleeps_app. cbn. rewrite app_nil_r. repeat split; try lia; discriminate. }
  destruct (env_generateContent env (contentCalls w) key
           (buildRequest cleanBase64 getMimeType prompt images config)) as [r|response].
  { cbn. rewrite !sleeps_app. cbn. rewrite !app_nil_r. repeat split; try lia; discriminate. }
  destruct (parseResponse response);
    cbn; rewrite !sleeps_app; cbn; rewrite !app_nil_r; repeat split; try lia; discriminate.
Qed.

(** With a usable key, the [try] block calls the provider exactly once. *)
Lemma tryBlock_calls_provider (w : World) :
  truthyString (env_API_KEY env (keyReads w)) = true ->
  contentCalls (snd (tryBlock cleanBase64 getMimeType env prompt images config w))
  = S (contentCalls w).
Proof.
  intros Hkey. rewrite tryBlock_run.
  destruct (env_API_KEY env (keyReads w)) as [key|]; [|discriminate].
  rewrite Hkey.
  destruct (env_generateContent env (contentCalls w) key
           (buildRequest cleanBase64 getMimeType prompt images config)) as [r|response];
    [reflexivity|].
  destruct (parseResponse response); reflexivity.
Qed.

(** Without a usable key the [try] block throws before any provider call. *)
Lemma tryBlock_missing_key (w : World) :
  truthyString (env_API_KEY env (keyReads w)) = false ->
  tryBlock cleanBase64 getMimeType env prompt images config w
  = (Threw (AppErr (AuthenticationError API_KEY_MISSING)), afterKey w).
Proof.
  intros Hkey. rewrite tryBlock_run.
  destruct (env_API_KEY env (keyReads w)) as [key|]; [|reflexivity].
  rewrite Hkey. reflexivity.
Qed.

Variable retries : Z.

(** A failed attempt: raise at once, back off, or fall through. *)
Lemma attemptOnce_threw (attempt : Z) (w w1 : World) (t : Thrown) :
  tryBlock cleanBase64 getMimeType env prompt images config w = (Threw t, w1) ->
  attemptOnce cleanBase64 getMimeType env prompt images config retries attempt w =
  if nonTransient (normalizeError t) then (Threw (AppErr (normalizeError t)), w1)
  else if attempt <? retries
       then (Returned (inr (normalizeError t)), afterBackoff env attempt (normalizeError t) w1)
       else (Returned (inr (normalizeError t)), w1).
Proof.
  intros Hrun. unfold attemptOnce, tryCatch, bind at 1. rewrite Hrun.
  destruct (nonTransient (normalizeError t)); [reflexivity|].
  destruct (attempt <? retries); reflexivity.
Qed.

Lemma attemptOnce_returned (attempt : Z) (w w1 : World) (result : AIResponse) :
  tryBlock cleanBase64 getMimeType env prompt images config w = (Returned result, w1) ->
  attemptOnce cleanBase64 getMimeType env prompt images config retries attempt w
  = (Returned (inl result), w1).
Proof.
  intros Hrun. unfold attemptOnce, tryCatch, bind at 1. rewrite Hrun. reflexivity.
Qed.

(** Every iteration reads the key exactly once, and never runs out of fuel. *)
Lemma attemptOnce_effect (attempt : Z) (w : World) :
  let run := attemptOnce cleanBase64 getMimeType env prompt images config retries attempt w in
  keyReads (snd run) = S (keyReads w) /\ fst run <> OutOfFuel.
Proof.
  destruct (tryBlock_effect w) as (Hk & _ & _ & _ & _ & Hfuel).
  destruct (tryBlock cleanBase64 getMimeType env prompt images config w) as [[a|t|] w1] eqn:Hrun;
    cbn [fst snd] in *.
  - rewrite (attemptOnce_returned attempt _ _ _ Hrun). split; [exact Hk|discriminate].
  - rewrite (attemptOnce_threw attempt _ _ _ Hrun).
    destruct (nonTransient (normalizeError t)); [split; [exact Hk|discriminate]|].
    destruct (attempt <? retries); split; try exact Hk; discriminate.
  - contradiction.
Qed.

(** One turn of the loop. *)
Lemma generateFrom_step (fuel : nat) (attempt : Z) (lastError : Thrown) (w : World) :
  attempt <= retries ->
  generateFrom cleanBase64 getMimeType env (S fuel) prompt images config retries attempt
               lastError w =
  match attemptOnce cleanBase64 getMimeType env prompt images config retries attempt w with
  | (Returned (inl response), w') => (Returned response, w')
  | (Returned (inr normalized), w') =>
    generateFrom cleanBase64 getMimeType env fuel prompt images config retries (attempt + 1)
                 (AppErr normalized) w'
  | (Threw t, w') => (Threw t, w')
  | (OutOfFuel, w') => (OutOfFuel, w')
  end.
Proof.
  intros Hle. cbn [generateFrom].
  destruct (Z.leb_spec attempt retries); [|lia].
  unfold bind.
  destruct (attemptOnce cleanBase64 getMimeType env prompt images config retries attempt w)
    as [[[response|normalized]|t|] w']; reflexivity.
Qed.

Lemma generateFrom_done (fuel : nat) (attempt : Z) (lastError : Thrown) (w : World) :
  retries < attempt ->
  generateFrom cleanBase64 getMimeType env fuel prompt images config retries attempt
               lastError w = (Threw lastError, w).
Proof.
  intros Hlt. destruct fuel; cbn [generateFrom];
    destruct (Z.leb_spec attempt retries); try lia; reflexivity.
Qed.

End WithService.

Section Loop.
Variable cleanBase64 : string -> string.
Variable getMimeType : string -> string.
Variable env : Env.
Variable prompt : string.
Variable images : list string.
Variable config : AIRequestConfig.
Variable retries : Z.

(** The loop makes at most [fuel] attempts. *)
Lemma generateFrom_attempts (fuel : nat) :
  forall (attempt : Z) (lastError : Thrown) (w : World),
    let wf := snd (generateFrom cleanBase64 getMimeType env fuel prompt images config
                     retries attempt lastError w) in
    (keyReads w <= keyReads wf <= keyReads w + fuel)%nat.
Proof.
  induction fuel as [|fuel IH]; intros attempt lastError w.
  - cbn. destruct (attempt <=? retries); cbn; lia.
  - destruct (Z.leb_spec attempt retries) as [Hle|Hgt].
    + cbv zeta. rewrite generateFrom_step by exact Hle.
      destruct (attemptOnce_effect cleanBase64 getMimeType env prompt images config retries
                  attempt w) as [Hk _].
      destruct (attemptOnce cleanBase64 getMimeType env prompt images config retries attempt w)
        as [[[response|normalized]|t|] w']; cbn [fst snd] in *; try lia.
      specialize (IH (attempt + 1) (AppErr normalized) w'). cbv zeta in IH. lia.
    + cbv zeta. rewrite generateFrom_done by exact Hgt. cbn. lia.
Qed.

(** An attempt is made as soon as the guard of the loop holds. *)
Lemma generateFrom_first_attempt (fuel : nat) (attempt : Z) (lastError : Thrown) (w : World) :
  attempt <= retries ->
  (S (keyReads w)
   <= keyReads (snd (generateFrom cleanBase64 getMimeType env (S fuel) prompt images config
                       retries attempt lastError w)))%nat.
Proof.
  intros Hle. rewrite generateFrom_step by exact Hle.
  destruct (attemptOnce_effect cleanBase64 getMimeType env prompt images config retries
              attempt w) as [Hk _].
  destruct (attemptOnce cleanBase64 getMimeType env prompt images config retries attempt w)
    as [[[response|normalized]|t|] w']; cbn [fst snd] in *; try lia.
  pose proof (generateFrom_attempts fuel (attempt + 1) (AppErr normalized) w') as H.
  cbv zeta in H. lia.
Qed.

(** The fuel [generate] supplies is never used up: the loop always ends
    by returning or by throwing. *)
Lemma generateFrom_total (fuel : nat) :
  forall (attempt : Z) (lastError : Thrown) (w : World),
    (Z.to_nat (retries + 1 - attempt) <= fuel)%nat ->
    fst (generateFrom cleanBase64 getMimeType env fuel prompt images config retries attempt
           lastError w) <> OutOfFuel.
Proof.
  induction fuel as [|fuel IH]; intros attempt lastError w Hfuel.
  - rewrite generateFrom_done by lia. discriminate.
  - destruct (Z.leb_spec attempt retries) as [Hle|Hgt].
    + rewrite generateFrom_step by exact Hle.
      destruct (attemptOnce_effect cleanBase64 getMimeType env prompt images config retries
                  attempt w) as [_ Hout].
      destruct (attemptOnce cleanBase64 getMimeType env prompt images config retries attempt w)
        as [[[response|normalized]|t|] w']; cbn [fst snd] in *;
        try discriminate; try contradiction.
      apply IH. lia.
    + rewrite generateFrom_done by exact Hgt. discriminate.
Qed.

Variable P : AppError -> Prop.

(** Every attempt fails with a transient error satisfying [P], after one
    provider call. *)
Hypothesis always_transient :
  forall w, exists t w1,
    tryBlock cleanBase64 getMimeType env prompt images config w = (Threw t, w1) /\
    nonTransient (normalizeError t) = false /\
    P (normalizeError t) /\
    contentCalls w1 = S (contentCalls w).

(** Then the loop uses every attempt it has, sleeps between consecutive
    attempts and raises the last error. *)
Lemma generateFrom_exhausts (n : nat) :
  forall (attempt : Z) (lastError : Thrown) (w : World),
    attempt + Z.of_nat n = retries ->
    exists e wf,
      generateFrom cleanBase64 getMimeType env (S n) prompt images config retries attempt
                   lastError w = (Threw (AppErr e), wf) /\
      P e /\
      keyReads wf = (keyReads w + S n)%nat /\
      contentCalls wf = (contentCalls w + S n)%nat /\
      randomDraws wf = (randomDraws w + n)%nat /\
      length (sleeps (log wf)) = (length (sleeps (log w)) + n)%nat.
Proof.
  induction n as [|n IH]; intros attempt lastError w Hn.
  - destruct (always_transient w) as (t & w1 & Hrun & Htr & HP & Hcalls).
    pose proof (tryBlock_effect cleanBase64 getMimeType env prompt images config w) as Heff.
    rewrite Hrun in Heff. cbn [fst snd] in Heff. destruct Heff as (Hk & _ & Hr & _ & Hs & _).
    rewrite generateFrom_step by lia.
    rewrite (attemptOnce_threw _ _ _ _ _ _ _ _ _ _ _ Hrun), Htr.
    destruct (Z.ltb_spec attempt retries); [lia|].
    rewrite generateFrom_done by lia.
    exists (normalizeError t), w1. rewrite Hs. repeat split; try lia. exact HP.
  - destruct (always_transient w) as (t & w1 & Hrun & Htr & HP & Hcalls).
    pose proof (tryBlock_effect cleanBase64 getMimeType env prompt images config w) as Heff.
    rewrite Hrun in Heff. cbn [fst snd] in Heff. destruct Heff as (Hk & _ & Hr & _ & Hs & _).
    rewrite generateFrom_step by lia.
    rewrite (attemptOnce_threw _ _ _ _ _ _ _ _ _ _ _ Hrun), Htr.
    destruct (Z.ltb_spec attempt retries); [|lia].
    destruct (IH (attempt + 1) (AppErr (normalizeError t))
                 (afterBackoff env attempt (normalizeError t) w1))
      as (e & wf & Hgen & HPe & Hk' & Hc' & Hr' & Hs'); [lia|].
    exists e, wf. rewrite Hgen.
    cbn [afterBackoff record keyReads contentCalls randomDraws log] in Hk', Hc', Hr', Hs'.
    rewrite !sleeps_app in Hs'. cbn in Hs'. rewrite app_nil_r, length_app, Hs in Hs'.
    cbn in Hs'. repeat split; try lia. exact HPe.
Qed.

End Loop.

(** The guard of [generate], kind by kind. *)
Lemma nonTransient_by_kind (e : AppError) :
  match kindOf e with
  | RateLimited | ServerOverloaded | NetworkUnreachable => nonTransient e = false
  | AuthenticationFailed | SafetyBlocked | InvalidRequest | ModelUnavailable =>
    nonTransient e = true
  | Unknown => forall code, apiStatusCode e = Some code -> nonTransient e = clientErrorCode code
  end.
Proof.
  destruct e as [m code|m|m|m]; cbn [kindOf]; try reflexivity.
  destruct (Z.eqb_spec code 404) as [->|]; [reflexivity|].
  destruct (Z.eqb_spec code 503) as [->|]; [reflexivity|].
  destruct (Z.eqb_spec code 0) as [->|]; [reflexivity|].
  destruct (Z.eqb_spec code 400) as [->|]; [reflexivity|].
  intros code' [= <-]. reflexivity.
Qed.

(** The guard of the second copy: authentication, safety, or status 400. *)
Lemma nonRetryable_iff (e : AppError) :
  Part003.nonRetryable e = true <->
  (exists m, e = AuthenticationError m) \/ (exists m, e = SafetyError m) \/
  (exists m, e = ApiError m 400).
Proof.
  destruct e as [m code|m|m|m]; cbn.
  - split.
    + intros H. apply Z.eqb_eq in H. subst. right; right. eauto.
    + intros [[m' H]|[[m' H]|[m' H]]]; inversion H. reflexivity.
  - split; eauto.
  - split; eauto.
  - split; [discriminate|]. intros [[m' H]|[[m' H]|[m' H]]]; discriminate.
Qed.

Section RetryPolicy.
Variable cleanBase64 : string -> string.
Variable getMimeType : string -> string.
Variable env : Env.
Variable prompt : string.
Variable images : list string.
Variable config : AIRequestConfig.

(** [generate] never runs out of fuel: it returns a result or throws. *)
Lemma generate_total (w : World) :
  fst (generate cleanBase64 getMimeType env prompt images config w) <> OutOfFuel.
Proof.
  unfold generate. apply generateFrom_total. replace (retriesOf config + 1 - 0)
    with (retriesOf config + 1) by lia. lia.
Qed.

(** A failure that the guard lets through, with retries left, is followed
    by the backoff and by another attempt. *)
Lemma loop_transient (fuel : nat) (attempt : Z) (lastError : Thrown) (w w1 : World)
    (t : Thrown) :
  attempt < retriesOf config ->
  (Z.to_nat (retriesOf config - attempt) <= fuel)%nat ->
  tryBlock cleanBase64 getMimeType env prompt images config w = (Threw t, w1) ->
  nonTransient (normalizeError t) = false ->
  let run := generateFrom cleanBase64 getMimeType env (S fuel) prompt images config
                          (retriesOf config) attempt lastError w in
  run = generateFrom cleanBase64 getMimeType env fuel prompt images config (retriesOf config)
                     (attempt + 1) (AppErr (normalizeError t))
                     (afterBackoff env attempt (normalizeError t) w1) /\
  (keyReads w + 2 <= keyReads (snd run))%nat.
Proof.
  intros Hlt Hfuel Hrun Htr run.
  assert (Hgen : run = generateFrom cleanBase64 getMimeType env fuel prompt images config
                         (retriesOf config) (attempt + 1) (AppErr (normalizeError t))
                         (afterBackoff env attempt (normalizeError t) w1)).
  { subst run. rewrite generateFrom_step by lia.
    rewrite (attemptOnce_threw _ _ _ _ _ _ _ _ _ _ _ Hrun), Htr.
    destruct (Z.ltb_spec attempt (retriesOf config)); [reflexivity|lia]. }
  split; [exact Hgen|]. rewrite Hgen.
  pose proof (tryBlock_effect cleanBase64 getMimeType env prompt images config w) as Heff.
  rewrite Hrun in Heff. cbn [fst snd] in Heff. destruct Heff as (Hk & _).
  destruct fuel as [|fuel]; [lia|].
  assert (Hle : attempt + 1 <= retriesOf config) by lia.
  pose proof (generateFrom_first_attempt cleanBase64 getMimeType env prompt images config
                (retriesOf config) fuel (attempt + 1) (AppErr (normalizeError t))
                (afterBackoff env attempt (normalizeError t) w1) Hle) as Hfirst.
  cbn [afterBackoff record keyReads] in Hfirst. lia.
Qed.

(** A failure that the guard stops is raised at once, at any attempt. *)
Lemma loop_nonTransient (fuel : nat) (attempt : Z) (lastError : Thrown) (w w1 : World)
    (t : Thrown) :
  attempt <= retriesOf config ->
  tryBlock cleanBase64 getMimeType env prompt images config w = (Threw t, w1) ->
  nonTransient (normalizeError t) = true ->
  generateFrom cleanBase64 getMimeType env (S fuel) prompt images config (retriesOf config)
               attempt lastError w
  = (Threw (AppErr (normalizeError t)), w1).
Proof.
  intros Hle Hrun Hnt. rewrite generateFrom_step by lia.
  rewrite (attemptOnce_threw _ _ _ _ _ _ _ _ _ _ _ Hrun), Hnt. reflexivity.
Qed.

(** [generate] is the loop started at attempt 0. *)
Lemma generate_unfold :
  0 <= retriesOf config ->
  generate cleanBase64 getMimeType env prompt images config
  = generateFrom cleanBase64 getMimeType env (S (Z.to_nat (retriesOf config))) prompt images
                 config (retriesOf config) 0 (Raw undefinedValue).
Proof.
  intros Hretries. unfold generate.
  replace (Z.to_nat (retriesOf config + 1)) with (S (Z.to_nat (retriesOf config))) by lia.
  reflexivity.
Qed.

(** A first failure that the guard stops is raised at once. *)
Lemma generate_first_nonTransient (w w1 : World) (t : Thrown) :
  0 <= retriesOf config ->
  tryBlock cleanBase64 getMimeType env prompt images config w = (Threw t, w1) ->
  nonTransient (normalizeError t) = true ->
  generate cleanBase64 getMimeType env prompt images config w
  = (Threw (AppErr (normalizeError t)), w1).
Proof.
  intros Hretries Hrun Hnt. unfold generate.
  replace (Z.to_nat (retriesOf config + 1)) with (S (Z.to_nat (retriesOf config))) by lia.
  rewrite generateFrom_step by lia.
  rewrite (attemptOnce_threw _ _ _ _ _ _ _ _ _ _ _ Hrun), Hnt. reflexivity.
Qed.

(** C2, as the code has it: when an attempt of [generate] fails and
    retries remain, the loop backs off and goes on to another attempt for
    [RateLimited], [ServerOverloaded] and [NetworkUnreachable], and for
    [Unknown] unless its status code is a client error (400 to 499, 429
    excepted); it raises at once, without retry, for
    [AuthenticationFailed], [SafetyBlocked], [InvalidRequest], and also for
    [ModelUnavailable] (status 404) and for [Unknown] with a client-error
    code.  [generate] is this loop started at attempt 0, and never makes
    more than [maxRetries + 1] attempts.  The guard of the second copy stops
    authentication and safety errors and status 400 only. *)
Theorem C2_retry_policy (fuel : nat) (attempt : Z) (lastError : Thrown) (w w1 : World)
    (t : Thrown) :
  0 <= attempt < retriesOf config ->
  (Z.to_nat (retriesOf config - attempt) <= fuel)%nat ->
  tryBlock cleanBase64 getMimeType env prompt images config w = (Threw t, w1) ->
  let e := normalizeError t in
  let retries := retriesOf config in
  let run := generateFrom cleanBase64 getMimeType env (S fuel) prompt images config retries
                          attempt lastError w in
  let raisedAtOnce := run = (Threw (AppErr e), w1) in
  let retried :=
    run = generateFrom cleanBase64 getMimeType env fuel prompt images config retries
                       (attempt + 1) (AppErr e) (afterBackoff env attempt e w1) /\
    (keyReads w + 2 <= keyReads (snd run))%nat in
  (In (kindOf e) [RateLimited; ServerOverloaded; NetworkUnreachable] -> retried) /\
  (In (kindOf e) [AuthenticationFailed; SafetyBlocked; InvalidRequest; ModelUnavailable] ->
   raisedAtOnce) /\
  (kindOf e = Unknown ->
   forall code, apiStatusCode e = Some code ->
                if clientErrorCode code then raisedAtOnce else retried) /\
  generate cleanBase64 getMimeType env prompt images config
  = generateFrom cleanBase64 getMimeType env (S (Z.to_nat retries)) prompt images config
                 retries 0 (Raw undefinedValue) /\
  (forall w0,
      (keyReads (snd (generate cleanBase64 getMimeType env prompt images config w0))
       <= keyReads w0 + Z.to_nat (retries + 1))%nat) /\
  (forall e', Part003.nonRetryable e' = true <->
              (exists m, e' = AuthenticationError m) \/ (exists m, e' = SafetyError m) \/
              (exists m, e' = ApiError m 400)).
Proof.
  intros Hattempt Hfuel Hrun e retries run raisedAtOnce retried.
  pose proof (nonTransient_by_kind e) as Hkind.
  assert (Hretried : nonTransient e = false -> retried).
  { intros Htr. apply loop_transient; try assumption. lia. }
  assert (Hraised : nonTransient e = true -> raisedAtOnce).
  { intros Hnt. apply loop_nonTransient; try assumption. lia. }
  split; [|split; [|split; [|split; [|split]]]].
  - intros Hin. apply Hretried. cbn in Hin.
    destruct Hin as [H|[H|[H|[]]]]; rewrite <- H in Hkind; exact Hkind.
  - intros Hin. apply Hraised. cbn in Hin.
    destruct Hin as [H|[H|[H|[H|[]]]]]; rewrite <- H in Hkind; exact Hkind.
  - intros Hunknown code Hcode. rewrite Hunknown in Hkind.
    specialize (Hkind code Hcode).
    destruct (clientErrorCode code); [apply Hraised|apply Hretried]; exact Hkind.
  - apply generate_unfold. lia.
  - intros w0. apply generateFrom_attempts.
  - apply nonRetryable_iff.
Qed.

(** C3: if the first attempt fails with an error classified as
    [AuthenticationFailed], [generate] performs exactly that one attempt
    and raises the error at once, without backoff sleep, whatever
    [maxRetries] is; a missing credential is such a failure, raised
    before any provider call. *)
Theorem C3_authentication_short_circuit (w : World) :
  0 <= retriesOf config ->
  (forall t w1,
      tryBlock cleanBase64 getMimeType env prompt images config w = (Threw t, w1) ->
      kindOf (normalizeError t) = AuthenticationFailed ->
      generate cleanBase64 getMimeType env prompt images config w
      = (Threw (AppErr (normalizeError t)), w1) /\
      keyReads w1 = S (keyReads w) /\
      (contentCalls w1 <= S (contentCalls w))%nat /\
      randomDraws w1 = randomDraws w /\
      sleeps (log w1) = sleeps (log w)) /\
  (truthyString (env_API_KEY env (keyReads w)) = false ->
   generate cleanBase64 getMimeType env prompt images config w
   = (Threw (AppErr (AuthenticationError API_KEY_MISSING)), afterKey w) /\
   kindOf (AuthenticationError API_KEY_MISSING) = AuthenticationFailed /\
   keyReads (afterKey w) = S (keyReads w) /\
   contentCalls (afterKey w) = contentCalls w /\
   sleeps (log (afterKey w)) = sleeps (log w)).
Proof.
  intros Hretries. split.
  - intros t w1 Hrun Hkind.
    pose proof (nonTransient_by_kind (normalizeError t)) as Hguard.
    rewrite Hkind in Hguard.
    pose proof (tryBlock_effect cleanBase64 getMimeType env prompt images config w) as Heff.
    rewrite Hrun in Heff. cbn [fst snd] in Heff.
    destruct Heff as (Hk & [_ Hc] & Hr & _ & Hs & _).
    split; [|auto].
    apply generate_first_nonTransient; assumption.
  - intros Hkey.
    pose proof (tryBlock_missing_key cleanBase64 getMimeType env prompt images config w Hkey)
      as Hrun.
    split; [|split; [reflexivity|split; [reflexivity|split; [reflexivity|]]]].
    + apply (generate_first_nonTransient w _ _ Hretries Hrun). reflexivity.
    + cbn [afterKey log]. rewrite sleeps_app. cbn. apply app_nil_r.
Qed.

(** With a usable key and a provider that always fails with a server
    overload, every attempt is a transient failure after one call. *)
Lemma overloaded_attempt (w : World) :
  (forall k, truthyString (env_API_KEY env k) = true) ->
  (forall k key req, exists r,
        env_generateContent env k key req = inl r /\
        kindOf (normalizeError (Raw r)) = ServerOverloaded) ->
  exists key r,
    env_generateContent env (contentCalls w) key
      (buildRequest cleanBase64 getMimeType prompt images config) = inl r /\
    kindOf (normalizeError (Raw r)) = ServerOverloaded /\
    nonTransient (normalizeError (Raw r)) = false /\
    tryBlock cleanBase64 getMimeType env prompt images config w
    = (Threw (Raw r),
       afterCall key (buildRequest cleanBase64 getMimeType prompt images config) w).
Proof.
  intros Hkey Hfail. specialize (Hkey (keyReads w)).
  rewrite tryBlock_run.
  destruct (env_API_KEY env (keyReads w)) as [key|]; [|discriminate].
  rewrite Hkey.
  destruct (Hfail (contentCalls w) key
              (buildRequest cleanBase64 getMimeType prompt images config))
    as (r & Hr & Hkind).
  exists key, r. rewrite Hr. repeat split; try assumption.
  pose proof (nonTransient_by_kind (normalizeError (Raw r))) as Hguard.
  rewrite Hkind in Hguard. exact Hguard.
Qed.

(** C4: with [maxRetries = 2], when every attempt fails and every
    failure classifies as [ServerOverloaded], [generate] performs exactly
    three attempts, sleeps [2^attempt * 1000] ms plus a jitter in
    [0, 500) between consecutive attempts, and then raises the third,
    last [ServerOverloaded] error. *)
Theorem C4_server_overload_three_attempts (w : World) :
  maxRetries config = Some 2 ->
  (forall k, truthyString (env_API_KEY env k) = true) ->
  (forall k key req, exists r,
        env_generateContent env k key req = inl r /\
        kindOf (normalizeError (Raw r)) = ServerOverloaded) ->
  (forall k, (0 <= env_random env k < 1)%Q) ->
  exists (e : AppError) (wf : World) (j0 j1 : Q),
    generate cleanBase64 getMimeType env prompt images config w = (Threw (AppErr e), wf) /\
    kindOf e = ServerOverloaded /\
    keyReads wf = (keyReads w + 3)%nat /\
    contentCalls wf = (contentCalls w + 3)%nat /\
    sleeps (log wf)
    = (sleeps (log w) ++ [(inject_Z 1000 + j0)%Q; (inject_Z 2000 + j1)%Q])%list /\
    (0 <= j0 < 500)%Q /\ (0 <= j1 < 500)%Q /\
    (exists k0 k1 k2 e0 e1 d0 d1 r2,
        let req := buildRequest cleanBase64 getMimeType prompt images config in
        log wf = (log w ++ [EvReadKey; EvGenerateContent k0 req; EvWarn 1 e0; EvSleep d0;
                            EvReadKey; EvGenerateContent k1 req; EvWarn 2 e1; EvSleep d1;
                            EvReadKey; EvGenerateContent k2 req])%list /\
        env_generateContent env (contentCalls w + 2)%nat k2 req = inl r2 /\
        e = normalizeError (Raw r2)).
Proof.
  intros Hcfg Hkey Hfail Hrnd.
  assert (Hretries : retriesOf config = 2) by (unfold retriesOf; rewrite Hcfg; reflexivity).
  destruct (overloaded_attempt w Hkey Hfail) as (k0 & r0 & _ & _ & Ht0 & Hrun0).
  set (w1 := afterCall k0 (buildRequest cleanBase64 getMimeType prompt images config) w)
    in Hrun0.
  set (w2 := afterBackoff env 0 (normalizeError (Raw r0)) w1).
  destruct (overloaded_attempt w2 Hkey Hfail) as (k1 & r1 & _ & _ & Ht1 & Hrun1).
  set (w3 := afterCall k1 (buildRequest cleanBase64 getMimeType prompt images config) w2)
    in Hrun1.
  set (w4 := afterBackoff env 1 (normalizeError (Raw r1)) w3).
  destruct (overloaded_attempt w4 Hkey Hfail) as (k2 & r2 & Hr2 & Hk2 & Ht2 & Hrun2).
  set (w5 := afterCall k2 (buildRequest cleanBase64 getMimeType prompt images config) w4)
    in Hrun2.
  exists (normalizeError (Raw r2)), w5,
    (env_random env (randomDraws w) * 500)%Q,
    (env_random env (S (randomDraws w)) * 500)%Q.
  split; [|split; [exact Hk2|split; [|split; [|split; [|split; [|split]]]]]].
  - unfold generate. rewrite Hretries. change (Z.to_nat (2 + 1)) with 3%nat.
    rewrite generateFrom_step by lia.
    rewrite (attemptOnce_threw _ _ _ _ _ _ _ _ _ _ _ Hrun0), Ht0.
    change (0 <? 2) with true. cbv iota. fold w2.
    rewrite generateFrom_step by lia.
    rewrite (attemptOnce_threw _ _ _ _ _ _ _ _ _ _ _ Hrun1), Ht1.
    change (0 + 1 <? 2) with true. cbv iota. fold w4.
    rewrite generateFrom_step by lia.
    rewrite (attemptOnce_threw _ _ _ _ _ _ _ _ _ _ _ Hrun2), Ht2.
    change (0 + 1 + 1 <? 2) with false. cbv iota.
    apply generateFrom_done. lia.
  - cbn. lia.
  - cbn. lia.
  - cbn. rewrite !sleeps_app. cbn. rewrite !app_nil_r, <- !app_assoc. reflexivity.
  - specialize (Hrnd (randomDraws w)). destruct Hrnd. split; lra.
  - specialize (Hrnd (S (randomDraws w))). destruct Hrnd. split; lra.
  - exists k0, k1, k2, (normalizeError (Raw r0)), (normalizeError (Raw r1)).
    eexists _, _, r2. cbv zeta. split; [|split; [|reflexivity]].
    + cbn. rewrite <- !app_assoc. reflexivity.
    + replace (contentCalls w + 2)%nat with (contentCalls w4) by (cbn; lia). exact Hr2.
Qed.

Lemma parseResponse_zero_candidates (response : GenerateContentResponse) :
  truthyString (resp_blockReason response) = false ->
  zeroCandidates response = true ->
  AiCore.parseResponse response = inl (AppErr (ApiError ZERO_CANDIDATES 500)) /\
  Part003.parseResponse response = inl (AppErr (ApiError Part003.ZERO_CANDIDATES 400)).
Proof.
  intros Hblock Hzero. unfold AiCore.parseResponse, Part003.parseResponse, zeroCandidates in *.
  rewrite Hblock.
  destruct (resp_candidates response) as [[|c cs]|]; try discriminate; split; reflexivity.
Qed.

(** In [src/services/ai-core.ts] an attempt that ends in a response
    without candidates is a transient failure. *)
Lemma zero_candidates_attempt (w : World) :
  (forall k, truthyString (env_API_KEY env k) = true) ->
  (forall k key req, exists response,
        env_generateContent env k key req = inr response /\
        truthyString (resp_blockReason response) = false /\
        zeroCandidates response = true) ->
  exists t w1,
    tryBlock cleanBase64 getMimeType env prompt images config w = (Threw t, w1) /\
    nonTransient (normalizeError t) = false /\
    normalizeError t = ApiError ZERO_CANDIDATES 500 /\
    contentCalls w1 = S (contentCalls w).
Proof.
  intros Hkey Hresp. specialize (Hkey (keyReads w)).
  rewrite tryBlock_run.
  destruct (env_API_KEY env (keyReads w)) as [key|]; [|discriminate].
  rewrite Hkey.
  destruct (Hresp (contentCalls w) key
              (buildRequest cleanBase64 getMimeType prompt images config))
    as (response & Hr & Hblock & Hzero).
  rewrite Hr. destruct (parseResponse_zero_candidates response Hblock Hzero) as [Hparse _].
  rewrite Hparse. eexists _, _. repeat split.
Qed.

(** In the second copy the same response stops [generate] at once. *)
Lemma zero_candidates_copy (defaultStatusCode : Z) (w : World) :
  0 <= Part003.retriesOf config ->
  (forall k, truthyString (env_API_KEY env k) = true) ->
  (forall k key req, exists response,
        env_generateContent env k key req = inr response /\
        truthyString (resp_blockReason response) = false /\
        zeroCandidates response = true) ->
  exists key,
    Part003.generate cleanBase64 getMimeType defaultStatusCode env prompt images config w
    = (Threw (AppErr (ApiError Part003.ZERO_CANDIDATES 400)),
       afterCall key (Part003.buildRequest cleanBase64 getMimeType prompt images config) w).
Proof.
  intros Hretries Hkey Hresp. specialize (Hkey (keyReads w)).
  destruct (env_API_KEY env (keyReads w)) as [key|] eqn:Hread; [|discriminate].
  destruct (Hresp (contentCalls w) key
              (Part003.buildRequest cleanBase64 getMimeType prompt images config))
    as (response & Hr & Hblock & Hzero).
  destruct (parseResponse_zero_candidates response Hblock Hzero) as [_ Hparse].
  exists key. unfold Part003.generate.
  replace (Z.to_nat (Part003.retriesOf config + 1))
    with (S (Z.to_nat (Part003.retriesOf config))) by lia.
  cbn [Part003.generateFrom].
  destruct (Z.leb_spec 0 (Part003.retriesOf config)); [|lia].
  unfold bind at 1, Part003.attemptOnce, tryCatch, bind at 1, Part003.tryBlock, bind at 1,
    Part003.getApiKey, bind at 1, readApiKey.
  rewrite Hread, Hkey. unfold ret at 1, bind at 1, Part003.executeRequest, generateContent.
  cbn [keyReads contentCalls randomDraws pollCalls log record].
  rewrite Hr, Hparse. reflexivity.
Qed.

(** C5, as the code has it: in [src/services/ai-core.ts] a response with
    zero candidates raises an [ApiError] with status 500, which
    [generate] treats like a server overload: it is retried with backoff
    until [maxRetries] is used up and only then raised.  In the second
    copy of the service the error carries status 400 and [generate]
    raises it on the first occurrence, after one attempt and no sleep. *)
Theorem C5_zero_candidates (defaultStatusCode n : Z) (w : World) :
  maxRetries config = Some n ->
  0 <= n ->
  (forall k, truthyString (env_API_KEY env k) = true) ->
  (forall k key req, exists response,
        env_generateContent env k key req = inr response /\
        truthyString (resp_blockReason response) = false /\
        zeroCandidates response = true) ->
  (exists wf,
      AiCore.generate cleanBase64 getMimeType env prompt images config w
      = (Threw (AppErr (ApiError ZERO_CANDIDATES 500)), wf) /\
      nonTransient (ApiError ZERO_CANDIDATES 500) = false /\
      keyReads wf = (keyReads w + Z.to_nat (n + 1))%nat /\
      contentCalls wf = (contentCalls w + Z.to_nat (n + 1))%nat /\
      length (sleeps (log wf)) = (length (sleeps (log w)) + Z.to_nat n)%nat) /\
  (exists wf,
      Part003.generate cleanBase64 getMimeType defaultStatusCode env prompt images config w
      = (Threw (AppErr (ApiError Part003.ZERO_CANDIDATES 400)), wf) /\
      Part003.nonRetryable (ApiError Part003.ZERO_CANDIDATES 400) = true /\
      keyReads wf = S (keyReads w) /\
      contentCalls wf = S (contentCalls w) /\
      sleeps (log wf) = sleeps (log w)).
Proof.
  intros Hcfg Hn Hkey Hresp. split.
  - assert (Hretries : retriesOf config = n) by (unfold retriesOf; rewrite Hcfg; reflexivity).
    destruct (generateFrom_exhausts cleanBase64 getMimeType env prompt images config n
                (fun e => e = ApiError ZERO_CANDIDATES 500)
                (fun w' => zero_candidates_attempt w' Hkey Hresp)
                (Z.to_nat n) 0 (Raw undefinedValue) w)
      as (e & wf & Hgen & -> & Hk & Hc & _ & Hs); [lia|].
    exists wf. unfold AiCore.generate. rewrite Hretries.
    replace (Z.to_nat (n + 1)) with (S (Z.to_nat n)) by lia.
    rewrite Hgen. repeat split; assumption.
  - assert (Hretries : 0 <= Part003.retriesOf config)
      by (unfold Part003.retriesOf; rewrite Hcfg; exact Hn).
    destruct (zero_candidates_copy defaultStatusCode w Hretries Hkey Hresp) as [key Hgen].
    eexists. split; [exact Hgen|]. cbn [afterCall keyReads contentCalls log].
    rewrite !sleeps_app. cbn. rewrite !app_nil_r. repeat split.
Qed.

End RetryPolicy.

(** *** Runs on concrete environments *)

Example overload_run_retries_2 :
  fst (runGenerate (failingEnv unavailable503) 2) = Threw (AppErr (ApiError SYSTEM_OVERLOAD 503))
  /\ contentCalls (snd (runGenerate (failingEnv unavailable503) 2)) = 3%nat
  /\ map Qred (sleeps (log (snd (runGenerate (failingEnv unavailable503) 2))))
     = [inject_Z 1250; inject_Z 2250].
Proof. vm_compute. repeat split. Qed.

(** The second copy does retry a 404, as long as its [ApiError] default
    status is not 400. *)
Example not_found_copy_retries_2 :
  contentCalls (snd (runGenerateCopy (failingEnv notFound404) 2)) = 3%nat /\
  length (sleeps (log (snd (runGenerateCopy (failingEnv notFound404) 2)))) = 2%nat.
Proof. vm_compute. repeat split. Qed.

Lemma C2_retry_policy_witness :
  0 <= 0 < retriesOf (hudConfig 2) /\
  (keyReads initialWorld + 2
   <= keyReads (snd (runGenerate (failingEnv unavailable503) 2)))%nat.
Proof.
  assert (H1 : 0 <= 0 < retriesOf (hudConfig 2)) by (vm_compute; split; congruence).
  split; [exact H1|].
  assert (H2 : (Z.to_nat (retriesOf (hudConfig 2) - 0) <= 2)%nat) by (vm_compute; lia).
  destruct (C2_retry_policy sampleCleanBase64 sampleGetMimeType (failingEnv unavailable503)
              "Add a sci-fi HUD" ["logo"] (hudConfig 2) 2 0 (Raw undefinedValue) initialWorld
              (afterCall "SECRET"
                 (buildRequest sampleCleanBase64 sampleGetMimeType "Add a sci-fi HUD" ["logo"]
                    (hudConfig 2)) initialWorld)
              (Raw unavailable503) H1 H2 eq_refl) as (Hretried & _).
  apply Hretried. vm_compute. auto.
Defined.

(** C2 as stated fails: a failure classified as [ModelUnavailable] is not
    retried.  With [maxRetries = 2] and a provider that answers 404,
    [generate] makes one call, does not sleep and raises at once. *)
Lemma C2_counterexample :
  kindOf (normalizeError (Raw notFound404)) = ModelUnavailable /\
  retriesOf (hudConfig 2) = 2 /\
  fst (runGenerate (failingEnv notFound404) 2)
  = Threw (AppErr (ApiError MODEL_UNAVAILABLE 404)) /\
  keyReads (snd (runGenerate (failingEnv notFound404) 2)) = 1%nat /\
  contentCalls (snd (runGenerate (failingEnv notFound404) 2)) = 1%nat /\
  sleeps (log (snd (runGenerate (failingEnv notFound404) 2))) = [].
Proof. vm_compute. repeat split. Qed.

Lemma C3_authentication_short_circuit_witness :
  0 <= retriesOf (hudConfig 5) /\
  kindOf (normalizeError (Raw unauthorized401)) = AuthenticationFailed /\
  fst (runGenerate (failingEnv unauthorized401) 5)
  = Threw (AppErr (AuthenticationError INVALID_API_KEY)) /\
  fst (runGenerate noKeyEnv 5) = Threw (AppErr (AuthenticationError API_KEY_MISSING)).
Proof.
  assert (H0 : 0 <= retriesOf (hudConfig 5)) by (vm_compute; discriminate).
  assert (Hk : kindOf (normalizeError (Raw unauthorized401)) = AuthenticationFailed)
    by (vm_compute; reflexivity).
  split; [exact H0|]. split; [exact Hk|]. split.
  - destruct (C3_authentication_short_circuit sampleCleanBase64 sampleGetMimeType
                (failingEnv unauthorized401) "Add a sci-fi HUD" ["logo"] (hudConfig 5)
                initialWorld H0) as [Hfirst _].
    destruct (Hfirst (Raw unauthorized401)
                (afterCall "SECRET"
                   (buildRequest sampleCleanBase64 sampleGetMimeType "Add a sci-fi HUD" ["logo"]
                      (hudConfig 5)) initialWorld)
                eq_refl Hk) as [Hgen _].
    unfold runGenerate. rewrite Hgen. vm_compute. reflexivity.
  - destruct (C3_authentication_short_circuit sampleCleanBase64 sampleGetMimeType
                noKeyEnv "Add a sci-fi HUD" ["logo"] (hudConfig 5)
                initialWorld H0) as [_ Hmissing].
    destruct (Hmissing eq_refl) as [Hgen _].
    unfold runGenerate. rewrite Hgen. reflexivity.
Defined.

Lemma C4_server_overload_three_attempts_witness :
  maxRetries (hudConfig 2) = Some 2 /\
  exists (e : AppError) (wf : World),
    runGenerate (failingEnv unavailable503) 2 = (Threw (AppErr e), wf) /\
    kindOf e = ServerOverloaded /\
    contentCalls wf = 3%nat /\
    length (sleeps (log wf)) = 2%nat.
Proof.
  split; [reflexivity|].
  destruct (C4_server_overload_three_attempts sampleCleanBase64 sampleGetMimeType
              (failingEnv unavailable503) "Add a sci-fi HUD" ["logo"] (hudConfig 2)
              initialWorld eq_refl)
    as (e & wf & j0 & j1 & Hgen & Hkind & _ & Hcalls & Hsleeps & _).
  - intros k. reflexivity.
  - intros k key req. exists unavailable503. split; [reflexivity|vm_compute; reflexivity].
  - intros k. cbn. split; [discriminate|reflexivity].
  - exists e, wf. split; [exact Hgen|]. split; [exact Hkind|]. split; [exact Hcalls|].
    rewrite Hsleeps. reflexivity.
Defined.

Lemma C5_zero_candidates_witness :
  maxRetries (hudConfig 2) = Some 2 /\
  (exists wf,
      runGenerate emptyEnv 2 = (Threw (AppErr (ApiError ZERO_CANDIDATES 500)), wf) /\
      contentCalls wf = 3%nat) /\
  (exists wf,
      Part003.generate sampleCleanBase64 sampleGetMimeType 500 emptyEnv "Add a sci-fi HUD"
                       ["logo"] (hudConfig 2) initialWorld
      = (Threw (AppErr (ApiError Part003.ZERO_CANDIDATES 400)), wf) /\
      contentCalls wf = 1%nat).
Proof.
  split; [reflexivity|].
  destruct (C5_zero_candidates sampleCleanBase64 sampleGetMimeType emptyEnv
              "Add a sci-fi HUD" ["logo"] (hudConfig 2) 500 2 initialWorld eq_refl)
    as [(wf & Hgen & _ & _ & Hcalls & _) (wf' & Hgen' & _ & _ & Hcalls' & _)].
  - lia.
  - intros k. reflexivity.
  - intros k key req. exists emptyResponse. repeat split.
  - split; [exists wf|exists wf']; split; assumption.
Defined.

(** C5 as stated fails for [src/services/ai-core.ts]: with [maxRetries = 2]
    and a provider that always answers with zero candidates, [generate]
    calls the provider three times and sleeps twice before raising, just
    as it does for a server overload. *)
Lemma C5_counterexample :
  zeroCandidates emptyResponse = true /\
  fst (runGenerate emptyEnv 2) = Threw (AppErr (ApiError ZERO_CANDIDATES 500)) /\
  contentCalls (snd (runGenerate emptyEnv 2)) = 3%nat /\
  map Qred (sleeps (log (snd (runGenerate emptyEnv 2)))) = [inject_Z 1250; inject_Z 2250] /\
  contentCalls (snd (runGenerate (failingEnv unavailable503) 2)) = 3%nat /\
  map Qred (sleeps (log (snd (runGenerate (failingEnv unavailable503) 2))))
  = [inject_Z 1250; inject_Z 2250].
Proof. vm_compute. repeat split. Qed.

End OrchestratorProps.

(** ** The video job poller *)

Module PollerProps.
Import Js Errors Provider Runtime Traces Scenarios.
Import OrchestratorProps.

Section WithService.
Variable cleanBase64 : string -> string.
Variable getMimeType : string -> string.
Variable env : Env.

(** The [while] loop of [src/services/ai-core.ts] on a job that never
    finishes: [m] more polls are due when [polls + m = MAX_POLLS + 1]. *)
Lemma pollUntilDone_never_done (m : nat) :
  forall (fuel : nat) (polls : Z) (op : Operation) (w : World),
    neverDone env ->
    op_done op = false ->
    0 <= polls ->
    polls + Z.of_nat m = AiCore.MAX_POLLS + 1 ->
    (m < fuel)%nat ->
    exists wf,
      AiCore.pollUntilDone env fuel polls op w
      = (Threw (AppErr (ApiError AiCore.TIMEOUT 408)), wf) /\
      pollCalls wf = (pollCalls w + m)%nat /\
      keyReads wf = keyReads w /\
      sleeps (log wf) = (sleeps (log w) ++ repeat (inject_Z 5000) m)%list.
Proof.
  unfold AiCore.MAX_POLLS.
  induction m as [|m IH]; intros fuel polls op w Hnever Hop Hpolls Hm Hfuel.
  - destruct fuel as [|fuel]; [lia|].
    cbn [AiCore.pollUntilDone]. rewrite Hop. unfold AiCore.MAX_POLLS.
    destruct (Z.ltb_spec 60 polls); [|lia].
    exists w. cbn. rewrite app_nil_r. repeat split; lia.
  - destruct fuel as [|fuel]; [lia|].
    cbn [AiCore.pollUntilDone]. rewrite Hop. unfold AiCore.MAX_POLLS.
    destruct (Z.ltb_spec 60 polls); [lia|].
    unfold bind at 1, sleep, emit. unfold bind at 1, getVideosOperation.
    cbn [record keyReads contentCalls randomDraws pollCalls log].
    destruct Hnever as [Hsubmit Hpoll].
    destruct (Hpoll (pollCalls w) op) as (op' & Hget & Hop').
    rewrite Hget.
    edestruct (IH fuel (polls + 1) op') as (wf & Hrun & Hp & Hk & Hs);
      [split; eassumption|exact Hop'|lia|lia|lia|].
    exists wf. split; [exact Hrun|].
    cbn [record pollCalls keyReads log] in Hp, Hk, Hs.
    rewrite !sleeps_app in Hs. cbn in Hs. rewrite app_nil_r, <- app_assoc in Hs.
    repeat split; try lia. rewrite Hs. reflexivity.
Qed.

(** The [for] loop of the second copy on a job that never finishes. *)
Lemma pollLoop_never_done (m : nat) :
  forall (fuel : nat) (key : string) (i : Z) (op : Operation) (w : World),
    neverDone env ->
    op_done op = false ->
    0 <= i ->
    i + Z.of_nat m = Part003.MAX_POLLS ->
    (m <= fuel)%nat ->
    exists wf,
      Part003.pollLoop env fuel key i op w
      = (Threw (AppErr (ApiError Part003.TIMEOUT 408)), wf) /\
      pollCalls wf = (pollCalls w + m)%nat /\
      keyReads wf = keyReads w /\
      sleeps (log wf) = (sleeps (log w) ++ repeat (inject_Z 5000) m)%list.
Proof.
  unfold Part003.MAX_POLLS.
  induction m as [|m IH]; intros fuel key i op w Hnever Hop Hi Hm Hfuel.
  - exists w. split.
    + destruct fuel; cbn [Part003.pollLoop]; unfold Part003.MAX_POLLS;
        destruct (Z.ltb_spec i 60); try lia; reflexivity.
    + cbn. rewrite app_nil_r. repeat split; lia.
  - destruct fuel as [|fuel]; [lia|].
    cbn [Part003.pollLoop]. unfold Part003.MAX_POLLS.
    destruct (Z.ltb_spec i 60); [|lia]. rewrite Hop.
    unfold bind at 1, sleep, emit. unfold bind at 1, getVideosOperation.
    cbn [record keyReads contentCalls randomDraws pollCalls log].
    destruct Hnever as [Hsubmit Hpoll].
    destruct (Hpoll (pollCalls w) op) as (op' & Hget & Hop').
    rewrite Hget.
    edestruct (IH fuel key (i + 1) op') as (wf & Hrun & Hp & Hk & Hs);
      [split; eassumption|exact Hop'|lia|lia|lia|].
    exists wf. split; [exact Hrun|].
    cbn [record pollCalls keyReads log] in Hp, Hk, Hs.
    rewrite !sleeps_app in Hs. cbn in Hs. rewrite app_nil_r, <- app_assoc in Hs.
    repeat split; try lia. rewrite Hs. reflexivity.
Qed.

Lemma getApiKey_run (w : World) :
  AiCore.getApiKey env w =
  match env_API_KEY env (keyReads w) with
  | Some key =>
    if truthyString (Some key) then (Returned key, afterKey w)
    else (Threw (AppErr (AuthenticationError AiCore.API_KEY_MISSING)), afterKey w)
  | None => (Threw (AppErr (AuthenticationError AiCore.API_KEY_MISSING)), afterKey w)
  end.
Proof.
  unfold AiCore.getApiKey, bind, readApiKey.
  destruct (env_API_KEY env (keyReads w)) as [key|]; [|reflexivity].
  destruct (truthyString (Some key)); reflexivity.
Qed.

Lemma getApiKey_copy_run (w : World) :
  Part003.getApiKey env w =
  match env_API_KEY env (keyReads w) with
  | Some key =>
    if truthyString (Some key) then (Returned key, afterKey w)
    else (Threw (AppErr (AuthenticationError "api_key_missing")), afterKey w)
  | None => (Threw (AppErr (AuthenticationError "api_key_missing")), afterKey w)
  end.
Proof.
  unfold Part003.getApiKey, bind, readApiKey.
  destruct (env_API_KEY env (keyReads w)) as [key|]; [|reflexivity].
  destruct (truthyString (Some key)); reflexivity.
Qed.

(** C8, as the code runs: when the job never reports done, the polling
    loop of [src/services/ai-core.ts] sleeps 5000 ms and polls 61 times
    before it raises the timeout error, one poll more than [MAX_POLLS];
    the loop of the second copy polls exactly 60 times.  Both terminate
    with the timeout error. *)
Theorem C8_polls_before_timeout (defaultStatusCode : Z) (prompt image : string) (w : World) :
  truthyString (env_API_KEY env (keyReads w)) = true ->
  neverDone env ->
  (exists wf,
      AiCore.generateVideo cleanBase64 getMimeType env prompt image w
      = (Threw (AppErr (ApiError AiCore.TIMEOUT 408)), wf) /\
      pollCalls wf = (pollCalls w + 61)%nat /\
      sleeps (log wf) = (sleeps (log w) ++ repeat (inject_Z 5000) 61)%list) /\
  (exists wf,
      Part003.generateVideo cleanBase64 getMimeType defaultStatusCode env prompt image w
      = (Threw (AppErr (ApiError Part003.TIMEOUT 408)), wf) /\
      pollCalls wf = (pollCalls w + 60)%nat /\
      sleeps (log wf) = (sleeps (log w) ++ repeat (inject_Z 5000) 60)%list).
Proof.
  intros Hkey Hnever. pose proof Hnever as [Hsubmit _].
  destruct (env_API_KEY env (keyReads w)) as [key|] eqn:Hread; [|discriminate].
  split.
  - unfold AiCore.generateVideo, tryCatch. unfold bind at 1.
    rewrite getApiKey_run, Hread, Hkey. unfold bind at 1, generateVideos.
    destruct (Hsubmit key (AiCore.videoRequest cleanBase64 getMimeType prompt image))
      as (op & Hop & Hpending).
    rewrite Hop. unfold bind at 1.
    edestruct (pollUntilDone_never_done 61 (Z.to_nat (AiCore.MAX_POLLS + 2)) 0 op)
      as (wf & Hrun & Hp & _ & Hs);
      [exact Hnever|exact Hpending|lia|reflexivity|vm_compute; lia|].
    rewrite Hrun. unfold bind, emit. cbn [AiCore.normalizeError throw].
    eexists. split; [reflexivity|].
    cbn [record pollCalls log afterKey] in *.
    rewrite !sleeps_app in *. cbn in Hs. rewrite !app_nil_r in Hs. cbn.
    rewrite app_nil_r. split; [exact Hp|exact Hs].
  - unfold Part003.generateVideo, tryCatch. unfold bind at 1.
    rewrite getApiKey_copy_run, Hread, Hkey. unfold bind at 1, generateVideos.
    destruct (Hsubmit key (Part003.videoRequest cleanBase64 getMimeType prompt image))
      as (op & Hop & Hpending).
    rewrite Hop.
    edestruct (pollLoop_never_done 60 (Z.to_nat Part003.MAX_POLLS) key 0 op)
      as (wf & Hrun & Hp & _ & Hs);
      [exact Hnever|exact Hpending|lia|reflexivity|vm_compute; lia|].
    rewrite Hrun. unfold bind, emit. cbn [Part003.normalizeError throw].
    eexists. split; [reflexivity|].
    cbn [record pollCalls log afterKey] in *.
    rewrite !sleeps_app in *. cbn in Hs. rewrite !app_nil_r in Hs. cbn.
    rewrite app_nil_r. split; [exact Hp|exact Hs].
Qed.

(** A [bind] that returns went through a returning first step. *)
Lemma bind_returned {A B} (c : M A) (k : A -> M B) (w wf : World) (b : B) :
  bind c k w = (Returned b, wf) ->
  exists a w1, c w = (Returned a, w1) /\ k a w1 = (Returned b, wf).
Proof.
  unfold bind. destruct (c w) as [[a|t|] w1]; intros H; try discriminate. eauto.
Qed.




(** What the caller gets for a finished operation. *)
Lemma videoResult_cases (apiKey : string) (op : Operation) :
  (forall uri, op_videoUri op = Some uri -> uri <> "" ->
               videoResult apiKey op = Some (uri ++ "&key=" ++ apiKey) /\
               videoResult apiKey op <> Some uri) /\
  (op_videoUri op = None -> videoResult apiKey op = None).
Proof.
  unfold videoResult. split.
  - intros uri -> Huri. destruct (String.eqb_spec uri ""); [contradiction|].
    split; [reflexivity|]. intros [= Heq].
    apply (JsFacts.append_nonempty_neq uri ("&key=" ++ apiKey)); [discriminate|exact Heq].
  - intros ->. reflexivity.
Qed.

(** The key [generateVideo] resolved, when it got as far as returning. *)
Lemma resolved_key (w w1 : World) (key : string) :
  (AiCore.getApiKey env w = (Returned key, w1) \/
   Part003.getApiKey env w = (Returned key, w1)) ->
  env_API_KEY env (keyReads w) = Some key /\ key <> "" /\ w1 = afterKey w.
Proof.
  rewrite getApiKey_run, getApiKey_copy_run.
  destruct (env_API_KEY env (keyReads w)) as [k|]; [|intros [H|H]; discriminate].
  destruct k as [|c k]; cbn; [intros [H|H]; discriminate|].
  intros [H|H]; injection H as <- <-; repeat split; discriminate.
Qed.

(** A job that reports done after [n] fetches is handed back by the
    [while] loop as long as the loop still fetches, that is for
    [polls + n <= MAX_POLLS + 1]. *)
Lemma pollUntilDone_finishes (n : nat) :
  forall (fuel : nat) (polls : Z) (op last : Operation) (w : World),
    finishesAt env (pollCalls w) op n last ->
    polls + Z.of_nat n <= AiCore.MAX_POLLS + 1 ->
    (n <= fuel)%nat ->
    exists wf,
      AiCore.pollUntilDone env fuel polls op w = (Returned last, wf) /\
      pollCalls wf = (pollCalls w + n)%nat.
Proof.
  unfold AiCore.MAX_POLLS.
  induction n as [|n IH]; intros fuel polls op last w Hfin Hpolls Hfuel.
  - inversion Hfin as [base op0 Hdone|]; subst.
    exists w. split; [|lia].
    destruct fuel; cbn [AiCore.pollUntilDone]; rewrite Hdone; reflexivity.
  - inversion Hfin as [|base op0 next n0 last0 Hpending Hget Hrest]; subst.
    destruct fuel as [|fuel]; [lia|].
    cbn [AiCore.pollUntilDone]. rewrite Hpending. unfold AiCore.MAX_POLLS.
    destruct (Z.ltb_spec 60 polls); [lia|].
    unfold bind at 1, sleep, emit. unfold bind at 1, getVideosOperation.
    cbn [record keyReads contentCalls randomDraws pollCalls log].
    rewrite Hget.
    edestruct (IH fuel (polls + 1) next last) as (wf & Hrun & Hp);
      [|lia|lia|exists wf; split; [exact Hrun|]].
    + cbn [record pollCalls]. exact Hrest.
    + cbn [record pollCalls] in Hp. lia.
Qed.

(** The [for] loop of the second copy hands the job back only when it
    reports done before the last fetch: for [i + n < MAX_POLLS]. *)
Lemma pollLoop_finishes (n : nat) :
  forall (fuel : nat) (key : string) (i : Z) (op last : Operation) (w : World),
    finishesAt env (pollCalls w) op n last ->
    i + Z.of_nat n < Part003.MAX_POLLS ->
    (n < fuel)%nat ->
    exists wf,
      Part003.pollLoop env fuel key i op w = (Returned (videoResult key last), wf) /\
      pollCalls wf = (pollCalls w + n)%nat.
Proof.
  unfold Part003.MAX_POLLS.
  induction n as [|n IH]; intros fuel key i op last w Hfin Hi Hfuel.
  - inversion Hfin as [base op0 Hdone|]; subst.
    destruct fuel as [|fuel]; [lia|].
    cbn [Part003.pollLoop]. unfold Part003.MAX_POLLS.
    destruct (Z.ltb_spec i 60); [|lia]. rewrite Hdone. unfold videoResult.
    destruct (op_videoUri last) as [uri|]; [|exists w; split; [reflexivity|lia]].
    rewrite ExecutorProps.truthyString_nonempty.
    destruct (uri =? "")%string; exists w; split; try reflexivity; lia.
  - inversion Hfin as [|base op0 next n0 last0 Hpending Hget Hrest]; subst.
    destruct fuel as [|fuel]; [lia|].
    cbn [Part003.pollLoop]. unfold Part003.MAX_POLLS.
    destruct (Z.ltb_spec i 60); [|lia]. rewrite Hpending.
    unfold bind at 1, sleep, emit. unfold bind at 1, getVideosOperation.
    cbn [record keyReads contentCalls randomDraws pollCalls log].
    rewrite Hget.
    edestruct (IH fuel key (i + 1) next last) as (wf & Hrun & Hp);
      [|lia|lia|exists wf; split; [exact Hrun|]].
    + cbn [record pollCalls]. exact Hrest.
    + cbn [record pollCalls] in Hp. lia.
Qed.

(** In [src/services/ai-core.ts] a job that reports done at submission or
    after any of the fetches the loop makes (up to the 61st) is handed to
    the caller: the URI with the key appended, or [null]. *)
Lemma generateVideo_finishes (prompt image key : string) (submitted last : Operation)
    (n : nat) (w : World) :
  env_API_KEY env (keyReads w) = Some key ->
  key <> "" ->
  env_generateVideos env key (AiCore.videoRequest cleanBase64 getMimeType prompt image)
  = inr submitted ->
  finishesAt env (pollCalls w) submitted n last ->
  (n <= 61)%nat ->
  exists wf,
    AiCore.generateVideo cleanBase64 getMimeType env prompt image w
    = (Returned (videoResult key last), wf) /\
    pollCalls wf = (pollCalls w + n)%nat.
Proof.
  intros Hread Hkey Hsubmit Hfin Hn.
  unfold AiCore.generateVideo, tryCatch. unfold bind at 1.
  rewrite getApiKey_run, Hread.
  destruct key as [|c key]; [contradiction|]. cbn [truthyString].
  unfold bind at 1, generateVideos. rewrite Hsubmit. unfold bind at 1.
  edestruct (pollUntilDone_finishes n (Z.to_nat (AiCore.MAX_POLLS + 2)) 0 submitted last
               (record (EvGenerateVideos (String c key)
                          (AiCore.videoRequest cleanBase64 getMimeType prompt image))
                       (afterKey w)))
    as (wf & Hrun & Hp); [| |vm_compute; lia|].
  - cbn [record afterKey pollCalls]. exact Hfin.
  - unfold AiCore.MAX_POLLS. lia.
  - rewrite Hrun. cbn [record afterKey pollCalls] in Hp.
    exists wf. split; [|exact Hp]. unfold videoResult.
    destruct (op_videoUri last) as [[|u uri]|]; reflexivity.
Qed.

(** The second copy does the same for a job that reports done at
    submission or after one of the first 59 fetches. *)
Lemma generateVideo_copy_finishes (defaultStatusCode : Z) (prompt image key : string)
    (submitted last : Operation) (n : nat) (w : World) :
  env_API_KEY env (keyReads w) = Some key ->
  key <> "" ->
  env_generateVideos env key (Part003.videoRequest cleanBase64 getMimeType prompt image)
  = inr submitted ->
  finishesAt env (pollCalls w) submitted n last ->
  (n <= 59)%nat ->
  exists wf,
    Part003.generateVideo cleanBase64 getMimeType defaultStatusCode env prompt image w
    = (Returned (videoResult key last), wf) /\
    pollCalls wf = (pollCalls w + n)%nat.
Proof.
  intros Hread Hkey Hsubmit Hfin Hn.
  unfold Part003.generateVideo, tryCatch. unfold bind at 1.
  rewrite getApiKey_copy_run, Hread.
  destruct key as [|c key]; [contradiction|]. cbn [truthyString].
  unfold bind at 1, generateVideos. rewrite Hsubmit.
  edestruct (pollLoop_finishes n (Z.to_nat Part003.MAX_POLLS) (String c key) 0 submitted last
               (record (EvGenerateVideos (String c key)
                          (Part003.videoRequest cleanBase64 getMimeType prompt image))
                       (afterKey w)))
    as (wf & Hrun & Hp); [| |vm_compute; lia|].
  - cbn [record afterKey pollCalls]. exact Hfin.
  - unfold Part003.MAX_POLLS. lia.
  - rewrite Hrun. cbn [record afterKey pollCalls] in Hp.
    exists wf. split; [reflexivity|exact Hp].
Qed.

(** A finished job ends on an operation that reports done. *)
Lemma finishesAt_done (base n : nat) (op last : Operation) :
  finishesAt env base op n last -> op_done last = true.
Proof. induction 1; assumption. Qed.

(** When the [while] loop returns, the job it was given finished after as
    many fetches as the loop made, within the fetches the bound allows. *)
Lemma pollUntilDone_returned_chain (fuel : nat) :
  forall (polls : Z) (op op' : Operation) (w w' : World),
    AiCore.pollUntilDone env fuel polls op w = (Returned op', w') ->
    exists n : nat,
      finishesAt env (pollCalls w) op n op' /\
      pollCalls w' = (pollCalls w + n)%nat /\
      (n = 0%nat \/ polls + Z.of_nat n <= AiCore.MAX_POLLS + 1).
Proof.
  induction fuel as [|fuel IH]; intros polls op op' w w' Hrun.
  - cbn [AiCore.pollUntilDone] in Hrun. destruct (op_done op) eqn:Hdone; [|discriminate].
    injection Hrun as <- <-. exists 0%nat.
    split; [apply finishes_now; exact Hdone|]. split; [lia|left; reflexivity].
  - cbn [AiCore.pollUntilDone] in Hrun. destruct (op_done op) eqn:Hdone.
    + injection Hrun as <- <-. exists 0%nat.
      split; [apply finishes_now; exact Hdone|]. split; [lia|left; reflexivity].
    + destruct (Z.ltb_spec AiCore.MAX_POLLS polls) as [|Hle]; [discriminate|].
      unfold bind at 1, sleep, emit in Hrun. unfold bind at 1, getVideosOperation in Hrun.
      cbn [record keyReads contentCalls randomDraws pollCalls log] in Hrun.
      destruct (env_getVideosOperation env (pollCalls w) op) as [r|op1] eqn:Hget;
        [discriminate|].
      apply IH in Hrun. cbn [record pollCalls] in Hrun.
      destruct Hrun as (n & Hfin & Hp & Hbound).
      exists (S n). split; [exact (finishes_later env _ _ _ _ _ Hdone Hget Hfin)|].
      split; [lia|]. right. lia.
Qed.

(** The same for the [for] loop of the second copy, which looks at the
    job only while [i < MAX_POLLS]. *)
Lemma pollLoop_returned_chain (fuel : nat) :
  forall (key : string) (i : Z) (op : Operation) (v : option string) (w w' : World),
    Part003.pollLoop env fuel key i op w = (Returned v, w') ->
    exists (n : nat) (last : Operation),
      finishesAt env (pollCalls w) op n last /\
      v = videoResult key last /\
      pollCalls w' = (pollCalls w + n)%nat /\
      i + Z.of_nat n < Part003.MAX_POLLS.
Proof.
  induction fuel as [|fuel IH]; intros key i op v w w' Hrun.
  - cbn [Part003.pollLoop] in Hrun. destruct (i <? Part003.MAX_POLLS); discriminate.
  - cbn [Part003.pollLoop] in Hrun.
    destruct (Z.ltb_spec i Part003.MAX_POLLS) as [Hlt|]; [|discriminate].
    destruct (op_done op) eqn:Hdone.
    + exists 0%nat, op. split; [apply finishes_now; exact Hdone|].
      unfold videoResult.
      destruct (op_videoUri op) as [uri|];
        [|injection Hrun as <- <-; repeat split; lia].
      rewrite ExecutorProps.truthyString_nonempty in Hrun.
      destruct (uri =? "")%string; injection Hrun as <- <-; repeat split; lia.
    + unfold bind at 1, sleep, emit in Hrun. unfold bind at 1, getVideosOperation in Hrun.
      cbn [record keyReads contentCalls randomDraws pollCalls log] in Hrun.
      destruct (env_getVideosOperation env (pollCalls w) op) as [r|op1] eqn:Hget;
        [discriminate|].
      apply IH in Hrun. cbn [record pollCalls] in Hrun.
      destruct Hrun as (n & last & Hfin & Hv & Hp & Hbound).
      exists (S n), last.
      split; [exact (finishes_later env _ _ _ _ _ Hdone Hget Hfin)|].
      split; [exact Hv|]. split; lia.
Qed.

(** What the caller gets for a finished operation, in the words of C10. *)
Lemma carriesKey_videoResult (key : string) (last : Operation) :
  carriesKey key last (videoResult key last).
Proof.
  destruct (videoResult_cases key last) as [Huri Hnone].
  split; [reflexivity|]. split; [exact Huri|]. split; [exact Hnone|].
  intros Hempty. unfold videoResult. rewrite Hempty. reflexivity.
Qed.

(** C10: a call of [generateVideo] completes exactly when its own job
    finishes within the fetches the loop looks at: 61 in
    [src/services/ai-core.ts], 59 in the second copy.  It then hands back
    the last operation of that job with the key this call resolved: for a
    result URI the URI followed by ["&key="] and the key, which is never
    the bare URI, and [null] when the operation carries no URI.  The first
    two conjuncts say that such a job is handed back
    ([generateVideo_finishes], [generateVideo_copy_finishes]), the last two
    that nothing else is ever returned. *)
Theorem C10_video_uri_carries_key (defaultStatusCode : Z) (prompt image : string)
    (w : World) :
  (forall key n last,
      jobFinishes env w key (AiCore.videoRequest cleanBase64 getMimeType prompt image)
                  n last ->
      (n <= 61)%nat ->
      exists v wf,
        AiCore.generateVideo cleanBase64 getMimeType env prompt image w = (Returned v, wf) /\
        pollCalls wf = (pollCalls w + n)%nat /\
        carriesKey key last v) /\
  (forall key n last,
      jobFinishes env w key (Part003.videoRequest cleanBase64 getMimeType prompt image)
                  n last ->
      (n <= 59)%nat ->
      exists v wf,
        Part003.generateVideo cleanBase64 getMimeType defaultStatusCode env prompt image w
        = (Returned v, wf) /\
        pollCalls wf = (pollCalls w + n)%nat /\
        carriesKey key last v) /\
  (forall v wf,
      AiCore.generateVideo cleanBase64 getMimeType env prompt image w = (Returned v, wf) ->
      exists key n last,
        jobFinishes env w key (AiCore.videoRequest cleanBase64 getMimeType prompt image)
                    n last /\
        (n <= 61)%nat /\
        op_done last = true /\
        pollCalls wf = (pollCalls w + n)%nat /\
        carriesKey key last v) /\
  (forall v wf,
      Part003.generateVideo cleanBase64 getMimeType defaultStatusCode env prompt image w
      = (Returned v, wf) ->
      exists key n last,
        jobFinishes env w key (Part003.videoRequest cleanBase64 getMimeType prompt image)
                    n last /\
        (n <= 59)%nat /\
        op_done last = true /\
        pollCalls wf = (pollCalls w + n)%nat /\
        carriesKey key last v).
Proof.
  split; [|split; [|split]].
  - intros key n last (Hread & Hne & submitted & Hsubmit & Hfin) Hn.
    destruct (generateVideo_finishes prompt image key submitted last n w
                Hread Hne Hsubmit Hfin Hn) as (wf & Hrun & Hp).
    exists (videoResult key last), wf.
    split; [exact Hrun|]. split; [exact Hp|apply carriesKey_videoResult].
  - intros key n last (Hread & Hne & submitted & Hsubmit & Hfin) Hn.
    destruct (generateVideo_copy_finishes defaultStatusCode prompt image key submitted last n w
                Hread Hne Hsubmit Hfin Hn) as (wf & Hrun & Hp).
    exists (videoResult key last), wf.
    split; [exact Hrun|]. split; [exact Hp|apply carriesKey_videoResult].
  - intros v wf Hrun. unfold AiCore.generateVideo, tryCatch in Hrun.
    match type of Hrun with
    | context [match ?body w with _ => _ end] =>
      destruct (body w) as [[v'|t|] w'] eqn:Hbody; try discriminate
    end.
    injection Hrun as -> ->.
    apply bind_returned in Hbody as (key & w1 & Hkey & Hbody).
    destruct (resolved_key w w1 key (or_introl Hkey)) as (Hread & Hne & ->).
    apply bind_returned in Hbody as (op & w2 & Hsubmit & Hbody).
    apply bind_returned in Hbody as (op' & w3 & Hpoll & Hbody).
    unfold generateVideos in Hsubmit.
    destruct (env_generateVideos env key _) as [r|op0] eqn:Hs; [discriminate|].
    injection Hsubmit as -> <-.
    apply pollUntilDone_returned_chain in Hpoll as (n & Hfin & Hp & Hbound).
    cbn [record afterKey pollCalls] in Hfin, Hp.
    assert (Hv : v = videoResult key op' /\ wf = w3).
    { unfold videoResult. destruct (op_videoUri op') as [uri|];
        [|injection Hbody as <- <-; split; reflexivity].
      rewrite ExecutorProps.truthyString_nonempty in Hbody.
      destruct (uri =? "")%string; injection Hbody as <- <-; split; reflexivity. }
    destruct Hv as [-> ->].
    exists key, n, op'. split; [|split; [|split; [|split]]].
    + split; [exact Hread|]. split; [exact Hne|]. exists op. split; [exact Hs|exact Hfin].
    + unfold AiCore.MAX_POLLS in Hbound. lia.
    + exact (finishesAt_done _ _ _ _ Hfin).
    + exact Hp.
    + apply carriesKey_videoResult.
  - intros v wf Hrun. unfold Part003.generateVideo, tryCatch in Hrun.
    match type of Hrun with
    | context [match ?body w with _ => _ end] =>
      destruct (body w) as [[v'|t|] w'] eqn:Hbody; try discriminate
    end.
    injection Hrun as -> ->.
    apply bind_returned in Hbody as (key & w1 & Hkey & Hbody).
    destruct (resolved_key w w1 key (or_intror Hkey)) as (Hread & Hne & ->).
    apply bind_returned in Hbody as (op & w2 & Hsubmit & Hbody).
    unfold generateVideos in Hsubmit.
    destruct (env_generateVideos env key _) as [r|op0] eqn:Hs; [discriminate|].
    injection Hsubmit as -> <-.
    apply pollLoop_returned_chain in Hbody as (n & last & Hfin & -> & Hp & Hbound).
    cbn [record afterKey pollCalls] in Hfin, Hp.
    exists key, n, last. split; [|split; [|split; [|split]]].
    + split; [exact Hread|]. split; [exact Hne|]. exists op. split; [exact Hs|exact Hfin].
    + unfold Part003.MAX_POLLS in Hbound. lia.
    + exact (finishesAt_done _ _ _ _ Hfin).
    + exact Hp.
    + apply carriesKey_videoResult.
Qed.

End WithService.

Example video_polls_main :
  fst (runVideo neverDoneEnv) = Threw (AppErr (ApiError AiCore.TIMEOUT 408)) /\
  pollCalls (snd (runVideo neverDoneEnv)) = 61%nat /\
  length (sleeps (log (snd (runVideo neverDoneEnv)))) = 61%nat.
Proof. vm_compute. repeat split. Qed.

Example video_polls_copy :
  fst (runVideoCopy neverDoneEnv) = Threw (AppErr (ApiError Part003.TIMEOUT 408)) /\
  pollCalls (snd (runVideoCopy neverDoneEnv)) = 60%nat /\
  length (sleeps (log (snd (runVideoCopy neverDoneEnv)))) = 60%nat.
Proof. vm_compute. repeat split. Qed.

(** A job that reports done on the 60th or the 61st fetch is still handed
    back by [src/services/ai-core.ts]; the second copy makes the 60th fetch
    but never looks at its result. *)
Example video_done_at_fetch_60 :
  fst (runVideo (doneAtFetchEnv 60))
  = Returned (Some "https://videos.example/clip.mp4?alt=media&key=SECRET") /\
  fst (runVideo (doneAtFetchEnv 61))
  = Returned (Some "https://videos.example/clip.mp4?alt=media&key=SECRET") /\
  fst (runVideo (doneAtFetchEnv 62)) = Threw (AppErr (ApiError AiCore.TIMEOUT 408)) /\
  fst (runVideoCopy (doneAtFetchEnv 59))
  = Returned (Some "https://videos.example/clip.mp4?alt=media&key=SECRET") /\
  fst (runVideoCopy (doneAtFetchEnv 60)) = Threw (AppErr (ApiError Part003.TIMEOUT 408)).
Proof. vm_compute. repeat split. Qed.

Lemma C8_polls_before_timeout_witness :
  truthyString (env_API_KEY neverDoneEnv (keyReads initialWorld)) = true /\
  (exists wf,
      runVideo neverDoneEnv = (Threw (AppErr (ApiError AiCore.TIMEOUT 408)), wf) /\
      pollCalls wf = 61%nat) /\
  (exists wf,
      runVideoCopy neverDoneEnv = (Threw (AppErr (ApiError Part003.TIMEOUT 408)), wf) /\
      pollCalls wf = 60%nat).
Proof.
  split; [reflexivity|].
  destruct (C8_polls_before_timeout sampleCleanBase64 sampleGetMimeType neverDoneEnv 500
              "Slow product reveal" "logo" initialWorld eq_refl)
    as [(wf & Hrun & Hp & _) (wf' & Hrun' & Hp' & _)].
  - split.
    + intros key req. exists pendingOperation. split; reflexivity.
    + intros k op. exists pendingOperation. split; reflexivity.
  - split; [exists wf|exists wf']; split; assumption.
Defined.

Lemma C10_video_uri_carries_key_witness :
  jobFinishes (doneAtFetchEnv 3) initialWorld "SECRET"
    (AiCore.videoRequest sampleCleanBase64 sampleGetMimeType "Slow product reveal" "logo")
    3 finishedOperation /\
  (exists wf,
      AiCore.generateVideo sampleCleanBase64 sampleGetMimeType (doneAtFetchEnv 3)
        "Slow product reveal" "logo" initialWorld
      = (Returned (Some "https://videos.example/clip.mp4?alt=media&key=SECRET"), wf) /\
      pollCalls wf = 3%nat) /\
  (exists wf,
      Part003.generateVideo sampleCleanBase64 sampleGetMimeType 500 (doneAtFetchEnv 3)
        "Slow product reveal" "logo" initialWorld
      = (Returned (Some "https://videos.example/clip.mp4?alt=media&key=SECRET"), wf) /\
      pollCalls wf = 3%nat).
Proof.
  assert (Hchain : finishesAt (doneAtFetchEnv 3) (pollCalls initialWorld) pendingOperation 3
                     finishedOperation).
  { apply finishes_later with (next := pendingOperation); [reflexivity|reflexivity|].
    apply finishes_later with (next := pendingOperation); [reflexivity|reflexivity|].
    apply finishes_later with (next := finishedOperation); [reflexivity|reflexivity|].
    apply finishes_now. reflexivity. }
  assert (Hkey : "SECRET" <> "") by discriminate.
  assert (Hjob : forall req,
             jobFinishes (doneAtFetchEnv 3) initialWorld "SECRET" req 3 finishedOperation).
  { intros req. split; [reflexivity|]. split; [exact Hkey|].
    exists pendingOperation. split; [reflexivity|exact Hchain]. }
  assert (H61 : (3 <= 61)%nat) by lia.
  assert (H59 : (3 <= 59)%nat) by lia.
  destruct (C10_video_uri_carries_key sampleCleanBase64 sampleGetMimeType (doneAtFetchEnv 3)
              500 "Slow product reveal" "logo" initialWorld) as (Hmain & Hcopy & _ & _).
  split; [apply Hjob|]. split.
  - destruct (Hmain "SECRET" 3%nat finishedOperation (Hjob _) H61)
      as (v & wf & Hrun & Hp & Hv & _).
    exists wf. split; [|exact Hp]. rewrite Hrun, Hv. reflexivity.
  - destruct (Hcopy "SECRET" 3%nat finishedOperation (Hjob _) H59)
      as (v & wf & Hrun & Hp & Hv & _).
    exists wf. split; [|exact Hp]. rewrite Hrun, Hv. reflexivity.
Defined.

End PollerProps.

(** * Further properties of the service *)

(** ** The retry loop on every run *)

Module LoopProps.
Import Js Errors Provider Runtime Traces Runs Scenarios MoreScenarios.
Import AiCore OrchestratorProps.

Section WithService.
Variable cleanBase64 : string -> string.
Variable getMimeType : string -> string.
Variable env : Env.
Variable prompt : string.
Variable images : list string.
Variable config : AIRequestConfig.
Variable retries : Z.

(** One iteration, by the outcome of its [try] block. *)
Lemma attemptOnce_cases (attempt : Z) (w : World) :
  attemptOnce cleanBase64 getMimeType env prompt images config retries attempt w =
  match tryBlock cleanBase64 getMimeType env prompt images config w with
  | (Returned result, w1) => (Returned (inl result), w1)
  | (Threw t, w1) =>
    if nonTransient (normalizeError t) then (Threw (AppErr (normalizeError t)), w1)
    else if attempt <? retries
         then (Returned (inr (normalizeError t)), afterBackoff env attempt (normalizeError t) w1)
         else (Returned (inr (normalizeError t)), w1)
  | (OutOfFuel, w1) => (OutOfFuel, w1)
  end.
Proof.
  destruct (tryBlock cleanBase64 getMimeType env prompt images config w) as [[a|t|] w1] eqn:Hrun.
  - apply attemptOnce_returned. exact Hrun.
  - apply attemptOnce_threw. exact Hrun.
  - pose proof (tryBlock_effect cleanBase64 getMimeType env prompt images config w) as H.
    rewrite Hrun in H. cbn in H. destruct H as (_ & _ & _ & _ & _ & H). contradiction.
Qed.

(** What every run of the loop keeps: the sleeps are the backoff schedule
    of the attempts that failed with retries left, every attempt reads the
    key once and calls the provider at most once, and what is thrown is
    classified unless no attempt was made. *)
Lemma generateFrom_invariant (fuel : nat) :
  forall (attempt : Z) (lastError : Thrown) (w : World),
    (Z.to_nat (retries + 1 - attempt) <= fuel)%nat ->
    exists k : nat,
      let run := generateFrom cleanBase64 getMimeType env fuel prompt images config retries
                              attempt lastError w in
      sleeps (log (snd run))
      = (sleeps (log w) ++ backoffSchedule env attempt (randomDraws w) k)%list /\
      randomDraws (snd run) = (randomDraws w + k)%nat /\
      (attempt <= retries -> attempt + Z.of_nat k <= retries) /\
      keyReads (snd run) = (keyReads w + (if (attempt <=? retries)%Z then S k else 0))%nat /\
      (contentCalls w <= contentCalls (snd run))%nat /\
      (contentCalls (snd run) - contentCalls w <= keyReads (snd run) - keyReads w)%nat /\
      pollCalls (snd run) = pollCalls w /\
      match fst run with
      | Returned _ => attempt <= retries
      | Threw t => (classified t = true /\ attempt <= retries) \/
                   (t = lastError /\ snd run = w /\ retries < attempt)
      | OutOfFuel => False
      end.
Proof.
  induction fuel as [|fuel IH]; intros attempt lastError w Hfuel.
  - exists 0%nat. rewrite generateFrom_done by lia.
    destruct (Z.leb_spec attempt retries); [lia|].
    cbn. rewrite app_nil_r. repeat split; try lia. right. repeat split. lia.
  - destruct (Z.leb_spec attempt retries) as [Hle|Hgt].
    2:{ exists 0%nat. rewrite generateFrom_done by lia.
        cbn. rewrite app_nil_r. repeat split; try lia. right. repeat split. lia. }
    rewrite generateFrom_step by exact Hle. rewrite attemptOnce_cases.
    pose proof (tryBlock_effect cleanBase64 getMimeType env prompt images config w) as Heff.
    destruct (tryBlock cleanBase64 getMimeType env prompt images config w) as [[a|t|] w1];
      cbn [fst snd] in Heff; destruct Heff as (Hk & [Hc1 Hc2] & Hr & Hp & Hs & Hout).
    + exists 0%nat. cbn. rewrite app_nil_r. repeat split; try lia; try exact Hs.
    + destruct (nonTransient (normalizeError t)).
      { exists 0%nat. cbn. rewrite app_nil_r. repeat split; try lia; try exact Hs.
        all: left; split; [reflexivity|exact Hle]. }
      destruct (Z.ltb_spec attempt retries) as [Hlt|Hge].
      * destruct (IH (attempt + 1) (AppErr (normalizeError t))
                     (afterBackoff env attempt (normalizeError t) w1)) as [k Hinv]; [lia|].
        cbv zeta in Hinv.
        destruct Hinv as (Hs' & Hr' & Hbound & Hk' & Hc' & Hck' & Hp' & Hout').
        destruct (Z.leb_spec (attempt + 1) retries); [|lia].
        cbn [afterBackoff record keyReads contentCalls randomDraws pollCalls log] in *.
        exists (S k). cbv zeta.
        rewrite !sleeps_app in Hs'. cbn [sleeps app] in Hs'. rewrite app_nil_r in Hs'.
        split; [|repeat split; try lia].
        { rewrite Hs', Hs, Hr, <- app_assoc. reflexivity. }
        destruct (fst (generateFrom cleanBase64 getMimeType env fuel prompt images config
                         retries (attempt + 1) (AppErr (normalizeError t)) _)) as [a|t'|];
          [exact Hle| |exact Hout'].
        destruct Hout' as [[Hcl _]|(_ & _ & Hbad)]; [left; split; assumption|lia].
      * exists 0%nat. rewrite generateFrom_done by lia.
        cbn. rewrite app_nil_r. repeat split; try lia; try exact Hs.
        all: left; split; [reflexivity|exact Hle].
    + contradiction.
Qed.

(** Each backoff of a schedule lies between [2^attempt * 1000] and
    [2^attempt * 1000 + 500] ms, the upper bound excluded. *)
Lemma backoffSchedule_bounds :
  (forall n, (0 <= env_random env n < 1)%Q) ->
  forall (k : nat) (attempt : Z) (draw i : nat) (d : Q),
    nth_error (backoffSchedule env attempt draw k) i = Some d ->
    (inject_Z (2 ^ (attempt + Z.of_nat i) * 1000) <= d
     < inject_Z (2 ^ (attempt + Z.of_nat i) * 1000) + 500)%Q.
Proof.
  intros Hrnd. induction k as [|k IH]; intros attempt draw i d Hnth.
  - destruct i; discriminate.
  - destruct i as [|i]; cbn [backoffSchedule nth_error] in Hnth.
    + injection Hnth as <-. unfold backoffDelay.
      replace (attempt + Z.of_nat 0) with attempt by lia.
      destruct (Hrnd draw). split; lra.
    + apply IH in Hnth.
      replace (attempt + Z.of_nat (S i)) with (attempt + 1 + Z.of_nat i) by lia.
      exact Hnth.
Qed.

Lemma backoffSchedule_length (k : nat) :
  forall (attempt : Z) (draw : nat), length (backoffSchedule env attempt draw k) = k.
Proof. induction k as [|k IH]; intros; cbn; [reflexivity|]. rewrite IH. reflexivity. Qed.

(** The loop recovers from [k] transient failures when the next attempt
    succeeds and enough retries are left. *)
Lemma generateFrom_recovers (k : nat) :
  forall (fuel : nat) (attempt : Z) (lastError : Thrown) (w : World) (result : AIResponse),
    attempt + Z.of_nat k <= retries ->
    (k < fuel)%nat ->
    (forall i, (i <= k)%nat -> truthyString (env_API_KEY env (keyReads w + i)) = true) ->
    (forall i key, (i < k)%nat ->
       env_API_KEY env (keyReads w + i) = Some key ->
       exists r,
         env_generateContent env (contentCalls w + i) key
           (buildRequest cleanBase64 getMimeType prompt images config) = inl r /\
         nonTransient (normalizeError (Raw r)) = false) ->
    (forall key,
       env_API_KEY env (keyReads w + k) = Some key ->
       exists response,
         env_generateContent env (contentCalls w + k) key
           (buildRequest cleanBase64 getMimeType prompt images config) = inr response /\
         parseResponse response = inr result) ->
    exists wf,
      generateFrom cleanBase64 getMimeType env fuel prompt images config retries attempt
                   lastError w = (Returned result, wf) /\
      keyReads wf = (keyReads w + S k)%nat /\
      contentCalls wf = (contentCalls w + S k)%nat /\
      sleeps (log wf) = (sleeps (log w) ++ backoffSchedule env attempt (randomDraws w) k)%list.
Proof.
  induction k as [|k IH]; intros fuel attempt lastError w result Hle Hfuel Hkeys Hfail Hok.
  - destruct fuel as [|fuel]; [lia|].
    rewrite generateFrom_step by lia. rewrite attemptOnce_cases, tryBlock_run.
    specialize (Hkeys 0%nat (Nat.le_refl 0)). rewrite Nat.add_0_r in Hkeys, Hok.
    destruct (env_API_KEY env (keyReads w)) as [key|]; [|discriminate].
    rewrite Hkeys. destruct (Hok key eq_refl) as (response & Hresp & Hparse).
    rewrite Nat.add_0_r in Hresp. rewrite Hresp, Hparse.
    eexists. split; [reflexivity|]. cbn. rewrite !sleeps_app. cbn. rewrite !app_nil_r.
    repeat split; lia.
  - destruct fuel as [|fuel]; [lia|].
    rewrite generateFrom_step by lia. rewrite attemptOnce_cases, tryBlock_run.
    pose proof (Hkeys 0%nat (Nat.le_0_l _)) as Hkey0. rewrite Nat.add_0_r in Hkey0.
    destruct (env_API_KEY env (keyReads w)) as [key|] eqn:Hread; [|discriminate].
    rewrite Hkey0.
    destruct (Hfail 0%nat key (Nat.lt_0_succ k)) as (r & Hr & Htr);
      [rewrite Nat.add_0_r; exact Hread|].
    rewrite Nat.add_0_r in Hr. rewrite Hr, Htr.
    destruct (Z.ltb_spec attempt retries); [|lia].
    set (w' := afterBackoff env attempt (normalizeError (Raw r))
                 (afterCall key (buildRequest cleanBase64 getMimeType prompt images config) w)).
    destruct (IH fuel (attempt + 1) (AppErr (normalizeError (Raw r))) w' result)
      as (wf & Hrun & Hk & Hc & Hs).
    + lia.
    + lia.
    + intros i Hi.
      replace (keyReads w' + i)%nat with (keyReads w + S i)%nat by (cbn; lia).
      apply Hkeys. lia.
    + intros i key' Hi.
      replace (keyReads w' + i)%nat with (keyReads w + S i)%nat by (cbn; lia).
      replace (contentCalls w' + i)%nat with (contentCalls w + S i)%nat by (cbn; lia).
      apply Hfail. lia.
    + intros key'.
      replace (keyReads w' + k)%nat with (keyReads w + S k)%nat by (cbn; lia).
      replace (contentCalls w' + k)%nat with (contentCalls w + S k)%nat by (cbn; lia).
      apply Hok.
    + exists wf. split; [exact Hrun|].
      cbn [w' afterBackoff afterCall record keyReads contentCalls randomDraws log] in Hk, Hc, Hs.
      rewrite !sleeps_app in Hs. cbn [sleeps app] in Hs. rewrite !app_nil_r in Hs.
      repeat split; try lia. rewrite Hs, <- app_assoc. reflexivity.
Qed.

End WithService.

Section OnGenerate.
Variable cleanBase64 : string -> string.
Variable getMimeType : string -> string.
Variable env : Env.
Variable prompt : string.
Variable images : list string.
Variable config : AIRequestConfig.

(** X1: on every run with a non-negative [maxRetries], [generate] sleeps
    at most [maxRetries] times, the sleeps are the backoffs number 0, 1, ...
    in this order, each between [2^i * 1000] and [2^i * 1000 + 500] ms,
    it reads the key once per attempt, one attempt more than it sleeps, and
    calls the provider at most once per attempt.  It never polls. *)
Theorem generate_backoff_schedule (w : World) :
  0 <= retriesOf config ->
  (forall n, (0 <= env_random env n < 1)%Q) ->
  exists k : nat,
    let wf := snd (generate cleanBase64 getMimeType env prompt images config w) in
    (k <= Z.to_nat (retriesOf config))%nat /\
    sleeps (log wf) = (sleeps (log w) ++ backoffSchedule env 0 (randomDraws w) k)%list /\
    length (sleeps (log wf)) = (length (sleeps (log w)) + k)%nat /\
    keyReads wf = (keyReads w + S k)%nat /\
    (contentCalls w <= contentCalls wf <= contentCalls w + S k)%nat /\
    pollCalls wf = pollCalls w /\
    (forall i d, nth_error (backoffSchedule env 0 (randomDraws w) k) i = Some d ->
                 (inject_Z (2 ^ Z.of_nat i * 1000) <= d
                  < inject_Z (2 ^ Z.of_nat i * 1000) + 500)%Q).
Proof.
  intros Hretries Hrnd.
  destruct (generateFrom_invariant cleanBase64 getMimeType env prompt images config
              (retriesOf config) (Z.to_nat (retriesOf config + 1)) 0 (Raw undefinedValue) w)
    as [k Hinv]; [lia|].
  cbv zeta in Hinv. fold (generate cleanBase64 getMimeType env prompt images config) in Hinv.
  destruct Hinv as (Hs & Hr & Hbound & Hk & Hc & Hck & Hp & _).
  destruct (Z.leb_spec 0 (retriesOf config)); [|lia].
  exists k. cbv zeta. specialize (Hbound Hretries).
  split; [lia|]. split; [exact Hs|]. split.
  { rewrite Hs, length_app, backoffSchedule_length. reflexivity. }
  split; [exact Hk|]. split; [lia|]. split; [exact Hp|].
  intros i d Hnth. apply (backoffSchedule_bounds env Hrnd) in Hnth. exact Hnth.
Qed.

(** X2: with a non-negative [maxRetries] every run of [generate] ends
    with a result or a classified error, after at least one attempt; with
    a negative [maxRetries] it makes no attempt at all and throws
    [undefined], which is not a classified error. *)
Theorem generate_settles (w : World) :
  let run := generate cleanBase64 getMimeType env prompt images config w in
  if 0 <=? retriesOf config
  then settled (fst run) = true /\ (keyReads w < keyReads (snd run))%nat
  else run = (Threw (Raw undefinedValue), w) /\ settled (fst run) = false.
Proof.
  cbv zeta. destruct (Z.leb_spec 0 (retriesOf config)) as [Hle|Hlt].
  - destruct (generateFrom_invariant cleanBase64 getMimeType env prompt images config
                (retriesOf config) (Z.to_nat (retriesOf config + 1)) 0 (Raw undefinedValue) w)
      as [k Hinv]; [lia|].
    cbv zeta in Hinv. fold (generate cleanBase64 getMimeType env prompt images config) in Hinv.
    destruct Hinv as (_ & _ & _ & Hk & _ & _ & _ & Hout).
    destruct (Z.leb_spec 0 (retriesOf config)); [|lia].
    split; [|lia].
    destruct (fst (generate cleanBase64 getMimeType env prompt images config w)) as [a|t|];
      [reflexivity| |contradiction].
    destruct Hout as [[Hcl _]|(_ & _ & Hbad)]; [exact Hcl|lia].
  - unfold generate. rewrite generateFrom_done by lia. split; reflexivity.
Qed.

(** X3: when the first [k] calls fail with errors the guard lets through
    and the next call returns a response that parses, [generate] returns
    that result after [k + 1] attempts and the [k] backoffs in between,
    provided [k <= maxRetries].  Every attempt uses the key read at that
    attempt. *)
Theorem generate_recovers (k : nat) (w : World) (result : AIResponse) :
  Z.of_nat k <= retriesOf config ->
  (forall i, (i <= k)%nat -> truthyString (env_API_KEY env (keyReads w + i)) = true) ->
  (forall i key, (i < k)%nat ->
     env_API_KEY env (keyReads w + i) = Some key ->
     exists r,
       env_generateContent env (contentCalls w + i) key
         (buildRequest cleanBase64 getMimeType prompt images config) = inl r /\
       nonTransient (normalizeError (Raw r)) = false) ->
  (forall key,
     env_API_KEY env (keyReads w + k) = Some key ->
     exists response,
       env_generateContent env (contentCalls w + k) key
         (buildRequest cleanBase64 getMimeType prompt images config) = inr response /\
       parseResponse response = inr result) ->
  exists wf,
    generate cleanBase64 getMimeType env prompt images config w = (Returned result, wf) /\
    keyReads wf = (keyReads w + S k)%nat /\
    contentCalls wf = (contentCalls w + S k)%nat /\
    sleeps (log wf) = (sleeps (log w) ++ backoffSchedule env 0 (randomDraws w) k)%list.
Proof.
  intros Hk Hkeys Hfail Hok. unfold generate.
  apply generateFrom_recovers; try assumption; lia.
Qed.

End OnGenerate.

Lemma generate_backoff_schedule_witness :
  0 <= retriesOf (hudConfig 2) /\
  exists k : nat,
    (k <= 2)%nat /\
    sleeps (log (snd (runGenerate (failingEnv unavailable503) 2)))
    = backoffSchedule (failingEnv unavailable503) 0 0 k /\
    keyReads (snd (runGenerate (failingEnv unavailable503) 2)) = S k.
Proof.
  split; [vm_compute; discriminate|].
  destruct (generate_backoff_schedule sampleCleanBase64 sampleGetMimeType
              (failingEnv unavailable503) "Add a sci-fi HUD" ["logo"] (hudConfig 2)
              initialWorld) as (k & Hk & Hs & _ & Hkeys & _).
  - vm_compute. discriminate.
  - intros n. cbn. split; [discriminate|reflexivity].
  - exists k. split; [exact Hk|]. split; [exact Hs|exact Hkeys].
Defined.

Lemma generate_recovers_witness :
  Z.of_nat 2 <= retriesOf (hudConfig 3) /\
  exists wf,
    runGenerate (flakyEnv 2 unavailable503 imageResponse) 3 = (Returned imageResult, wf) /\
    contentCalls wf = 3%nat /\
    length (sleeps (log wf)) = 2%nat.
Proof.
  split; [vm_compute; discriminate|].
  destruct (generate_recovers sampleCleanBase64 sampleGetMimeType
              (flakyEnv 2 unavailable503 imageResponse) "Add a sci-fi HUD" ["logo"]
              (hudConfig 3) 2 initialWorld imageResult)
    as (wf & Hrun & _ & Hcalls & Hsleeps).
  - vm_compute. discriminate.
  - intros i _. reflexivity.
  - intros i key Hi _. exists unavailable503. split; [|vm_compute; reflexivity].
    destruct i as [|[|i]]; [reflexivity|reflexivity|lia].
  - intros key _. exists imageResponse. split; [reflexivity|vm_compute; reflexivity].
  - exists wf. split; [exact Hrun|]. split; [exact Hcalls|].
    rewrite Hsleeps. reflexivity.
Defined.

End LoopProps.

(** ** The response normalizer *)

Module ResponseProps.
Import Js Errors Provider Runtime Traces Runs Scenarios MoreScenarios.

(** The first candidate of a response, [response.candidates?.[0]]. *)
Lemma first_candidate (response : GenerateContentResponse) :
  match resp_candidates response with
  | Some cs => hd_error cs
  | None => None
  end
  = match resp_candidates response with
    | Some (c :: _) => Some c
    | _ => None
    end.
Proof. destruct (resp_candidates response) as [[|c cs]|]; reflexivity. Qed.

Lemma imageDataOf_found (parts : list ResponsePart) :
  match AiCore.imageDataOf (find hasInlineData parts) with
  | Some data => Some ("data:image/png;base64," ++ data)
  | None => None
  end
  = match find hasInlineData parts with
    | Some p => match rp_inlineData p with
                | Some d => dataUriOf d
                | None => None
                end
    | None => None
    end.
Proof.
  unfold AiCore.imageDataOf, dataUriOf.
  destruct (find hasInlineData parts) as [p|]; [|reflexivity].
  destruct (rp_inlineData p) as [d|]; [|reflexivity].
  destruct (id_data d) as [[|ch data]|]; reflexivity.
Qed.

(** The abnormal finish reason the normalizer acts on, if any. *)
Lemma abnormal_reason (reason : option string) :
  match reason with
  | Some r =>
    if truthyString (Some r) && negb (r =? "STOP")%string && negb (r =? "MAX_TOKENS")%string
    then Some r else None
  | None => None
  end
  = if normalFinish reason then None else reason.
Proof.
  destruct reason as [r|]; [|reflexivity]. unfold normalFinish.
  destruct r as [|ch r]; [reflexivity|].
  change (truthyString (Some (String ch r))) with true.
  change (String ch r =? "")%string with false.
  destruct (String ch r =? "STOP")%string; [reflexivity|].
  destruct (String ch r =? "MAX_TOKENS")%string; reflexivity.
Qed.

(** X4: the two copies of [parseResponse] accept exactly the same
    responses and build the same result from them.  A result is returned
    only when there is no prompt block, there is a first candidate, and its
    finish reason is absent, empty, ["STOP"] or ["MAX_TOKENS"]; it then
    carries the response text, that candidate's finish reason and grounding
    chunks, and the image of the candidate's first inline-data part. *)
Theorem parseResponse_returns (response : GenerateContentResponse) (result : AIResponse) :
  (AiCore.parseResponse response = inr result <->
   Part003.parseResponse response = inr result) /\
  (AiCore.parseResponse response = inr result ->
   truthyString (resp_blockReason response) = false /\
   exists c cs,
     resp_candidates response = Some (c :: cs) /\
     normalFinish (cand_finishReason c) = true /\
     ai_text result = resp_text response /\
     ai_finishReason result = cand_finishReason c /\
     ai_groundingSources result = cand_groundingChunks c /\
     ai_image result
     = match cand_content c with
       | Some content =>
         match content_parts content with
         | Some parts =>
           match find hasInlineData parts with
           | Some p => match rp_inlineData p with
                       | Some d => dataUriOf d
                       | None => None
                       end
           | None => None
           end
         | None => None
         end
       | None => None
       end).
Proof.
  unfold AiCore.parseResponse, Part003.parseResponse.
  rewrite first_candidate.
  destruct (truthyString (resp_blockReason response)) eqn:Hblock.
  { destruct (resp_blockReason response) as [reason|]; [|discriminate].
    split; [split; discriminate|discriminate]. }
  destruct (resp_candidates response) as [[|c cs]|].
  1,3: split; [split; discriminate|discriminate].
  rewrite abnormal_reason.
  destruct (normalFinish (cand_finishReason c)) eqn:Hfinish.
  - unfold AiCore.findImagePart.
    destruct (cand_content c) as [content|] eqn:Hcontent.
    + destruct (content_parts content) as [parts|] eqn:Hparts.
      * fold hasInlineData. rewrite imageDataOf_found.
        split; [reflexivity|]. intros [= <-]. split; [reflexivity|].
        exists c, cs. rewrite Hcontent, Hparts. repeat split. exact Hfinish.
      * split; [split; discriminate|discriminate].
    + split; [reflexivity|]. intros [= <-]. split; [reflexivity|].
      exists c, cs. rewrite Hcontent. repeat split. exact Hfinish.
  - destruct (cand_finishReason c) as [reason|]; [|discriminate].
    destruct (reason =? "SAFETY")%string; [split; [split; discriminate|discriminate]|].
    destruct (reason =? "RECITATION")%string; [split; [split; discriminate|discriminate]|].
    destruct (reason =? "OTHER")%string; split; try split; discriminate.
Qed.

Lemma parseResponse_returns_witness :
  AiCore.parseResponse imageResponse
  = inr (mkAIResponse (Some "Here is the mockup")
                      (Some "data:image/png;base64,iVBORw0KGgo") None (Some "STOP")) /\
  Part003.parseResponse imageResponse
  = inr (mkAIResponse (Some "Here is the mockup")
                      (Some "data:image/png;base64,iVBORw0KGgo") None (Some "STOP")).
Proof.
  assert (H : AiCore.parseResponse imageResponse
              = inr (mkAIResponse (Some "Here is the mockup")
                       (Some "data:image/png;base64,iVBORw0KGgo") None (Some "STOP")))
    by reflexivity.
  split; [exact H|].
  destruct (parseResponse_returns imageResponse
              (mkAIResponse (Some "Here is the mockup")
                 (Some "data:image/png;base64,iVBORw0KGgo") None (Some "STOP"))) as [[Hto _] _].
  apply Hto. exact H.
Defined.

(** X5: the image of a result comes from the first part that carries
    inline data and from no other: its data prefixed with
    ["data:image/png;base64,"] whatever media type the part declares, and no
    image at all when that part's data is missing or empty, even if a later
    part has data. *)
Theorem image_from_first_inline_part (response : GenerateContentResponse)
    (result : AIResponse) (c : Candidate) (cs : list Candidate)
    (before after : list ResponsePart) (p : ResponsePart) (d : InlineData) :
  resp_candidates response = Some (c :: cs) ->
  cand_content c = Some (mkContent (Some (before ++ p :: after)%list)) ->
  forallb (fun q => negb (hasInlineData q)) before = true ->
  rp_inlineData p = Some d ->
  (AiCore.parseResponse response = inr result \/
   Part003.parseResponse response = inr result) ->
  ai_image result = dataUriOf d /\
  (forall data, id_data d = Some data -> data <> "" ->
                ai_image result = Some ("data:image/png;base64," ++ data)) /\
  (id_data d = None \/ id_data d = Some "" -> ai_image result = None).
Proof.
  intros Hcands Hcontent Hbefore Hp Hparse.
  assert (Hmain : AiCore.parseResponse response = inr result).
  { destruct Hparse as [H|H]; [exact H|]. apply parseResponse_returns. exact H. }
  destruct (parseResponse_returns response result) as [_ Hshape].
  destruct (Hshape Hmain) as (_ & c' & cs' & Hc' & _ & _ & _ & _ & Himage).
  rewrite Hcands in Hc'. injection Hc' as <- <-.
  rewrite Hcontent in Himage. cbn [content_parts] in Himage.
  assert (Hfind : find hasInlineData (before ++ p :: after)%list = Some p).
  { clear - Hbefore Hp. induction before as [|q before IH]; cbn in *.
    - unfold hasInlineData. rewrite Hp. reflexivity.
    - apply andb_true_iff in Hbefore as [Hq Hrest].
      destruct (hasInlineData q); [discriminate|]. apply IH. exact Hrest. }
  rewrite Hfind, Hp in Himage.
  split; [exact Himage|]. rewrite Himage. unfold dataUriOf. split.
  - intros data -> Hne. destruct (String.eqb_spec data ""); [contradiction|reflexivity].
  - intros [->| ->]; reflexivity.
Qed.

Lemma image_from_first_inline_part_witness :
  ai_image (mkAIResponse (Some "Here is the mockup")
                         (Some "data:image/png;base64,iVBORw0KGgo") None (Some "STOP"))
  = dataUriOf (mkInlineData (Some "iVBORw0KGgo") (Some "image/jpeg")).
Proof.
  refine (proj1 (image_from_first_inline_part imageResponse _ _ [] 
                   [mkResponsePart None (Some "Here is the mockup")] []
                   (mkResponsePart (Some (mkInlineData (Some "iVBORw0KGgo")
                                                       (Some "image/jpeg"))) None)
                   _ eq_refl eq_refl eq_refl eq_refl (or_introl eq_refl))).
Defined.

End ResponseProps.

(** ** The retry loop of the second copy *)

Module CopyLoopProps.
Import Js Errors Provider Runtime Traces Runs Scenarios.
Import OrchestratorProps.

Section WithService.
Variable cleanBase64 : string -> string.
Variable getMimeType : string -> string.
Variable defaultStatusCode : Z.
Variable env : Env.
Variable prompt : string.
Variable images : list string.
Variable config : AIRequestConfig.

Lemma tryBlock_copy_run (w : World) :
  Part003.tryBlock cleanBase64 getMimeType env prompt images config w =
  match env_API_KEY env (keyReads w) with
  | Some key =>
    if truthyString (Some key) then
      match env_generateContent env (contentCalls w) key
              (Part003.buildRequest cleanBase64 getMimeType prompt images config) with
      | inl r =>
        (Threw (Raw r),
         afterCall key (Part003.buildRequest cleanBase64 getMimeType prompt images config) w)
      | inr response =>
        match Part003.parseResponse response with
        | inl t =>
          (Threw t,
           afterCall key (Part003.buildRequest cleanBase64 getMimeType prompt images config) w)
        | inr result =>
          (Returned result,
           afterCall key (Part003.buildRequest cleanBase64 getMimeType prompt images config) w)
        end
      end
    else (Threw (AppErr (AuthenticationError "api_key_missing")), afterKey w)
  | None => (Threw (AppErr (AuthenticationError "api_key_missing")), afterKey w)
  end.
Proof.
  unfold Part003.tryBlock, Part003.getApiKey, Part003.executeRequest, bind, readApiKey.
  destruct (env_API_KEY env (keyReads w)) as [key|]; [|reflexivity].
  destruct (truthyString (Some key)); [|reflexivity].
  unfold ret, generateContent, record, afterCall.
  cbn [keyReads contentCalls randomDraws pollCalls log].
  destruct (env_generateContent env (contentCalls w) key
              (Part003.buildRequest cleanBase64 getMimeType prompt images config))
    as [r|response]; [reflexivity|].
  unfold AiCore.liftResult. destruct (Part003.parseResponse response); reflexivity.
Qed.

(** A first failure that the guard of the second copy stops is raised at
    once. *)
Lemma generate_copy_first_nonRetryable (w w1 : World) (t : Thrown) :
  0 <= Part003.retriesOf config ->
  Part003.tryBlock cleanBase64 getMimeType env prompt images config w = (Threw t, w1) ->
  Part003.nonRetryable (Part003.normalizeError defaultStatusCode t) = true ->
  Part003.generate cleanBase64 getMimeType defaultStatusCode env prompt images config w
  = (Threw (AppErr (Part003.normalizeError defaultStatusCode t)), w1).
Proof.
  intros Hretries Hrun Hstop. unfold Part003.generate.
  replace (Z.to_nat (Part003.retriesOf config + 1))
    with (S (Z.to_nat (Part003.retriesOf config))) by lia.
  cbn [Part003.generateFrom].
  destruct (Z.leb_spec 0 (Part003.retriesOf config)); [|lia].
  unfold bind at 1, Part003.attemptOnce, tryCatch, bind at 1.
  rewrite Hrun, Hstop. reflexivity.
Qed.

(** A first failure that it lets through, with a retry left, is followed by
    the backoff and the rest of the loop. *)
Lemma generate_copy_first_retryable (w w1 : World) (t : Thrown) :
  1 <= Part003.retriesOf config ->
  Part003.tryBlock cleanBase64 getMimeType env prompt images config w = (Threw t, w1) ->
  Part003.nonRetryable (Part003.normalizeError defaultStatusCode t) = false ->
  Part003.generate cleanBase64 getMimeType defaultStatusCode env prompt images config w
  = Part003.generateFrom cleanBase64 getMimeType defaultStatusCode env
      (Z.to_nat (Part003.retriesOf config)) prompt images config (Part003.retriesOf config) 1
      (AppErr (Part003.normalizeError defaultStatusCode t))
      (afterBackoff env 0 (Part003.normalizeError defaultStatusCode t) w1).
Proof.
  intros Hretries Hrun Hgo. unfold Part003.generate.
  replace (Z.to_nat (Part003.retriesOf config + 1))
    with (S (Z.to_nat (Part003.retriesOf config))) by lia.
  cbn [Part003.generateFrom].
  destruct (Z.leb_spec 0 (Part003.retriesOf config)); [|lia].
  unfold bind at 1, Part003.attemptOnce, tryCatch, bind at 1.
  rewrite Hrun, Hgo.
  destruct (Z.ltb_spec 0 (Part003.retriesOf config)); [reflexivity|lia].
Qed.

End WithService.

End CopyLoopProps.

(** ** Refused and abnormal responses under retry *)

Module ResponsePolicyProps.
Import Js Errors Provider Runtime Traces Runs Scenarios MoreScenarios.
Import OrchestratorProps ResponseProps CopyLoopProps.

(** A safety stop is a [SafetyError] in both copies; a prompt block wins
    over whatever the candidates say. *)
Lemma parseResponse_safetyStop (response : GenerateContentResponse) :
  safetyStop response = true ->
  exists m1 m2,
    AiCore.parseResponse response = inl (AppErr (SafetyError m1)) /\
    Part003.parseResponse response = inl (AppErr (SafetyError m2)) /\
    (forall reason, resp_blockReason response = Some reason -> reason <> "" ->
                    m1 = "PROMPT_BLOCKED: " ++ reason /\
                    m2 = "Prompt blocked due to " ++ reason).
Proof.
  unfold safetyStop, firstFinishReason, AiCore.parseResponse, Part003.parseResponse.
  rewrite first_candidate.
  destruct (truthyString (resp_blockReason response)) eqn:Hblock.
  - intros _. destruct (resp_blockReason response) as [reason|]; [|discriminate].
    eexists _, _. split; [reflexivity|]. split; [reflexivity|].
    intros reason' [= <-] _. split; reflexivity.
  - cbn [orb]. intros Hfinish.
    assert (Hnone : forall reason, resp_blockReason response = Some reason -> reason = "").
    { intros reason Hr. rewrite Hr in Hblock. destruct reason; [reflexivity|discriminate]. }
    destruct (resp_candidates response) as [[|c cs]|]; try discriminate.
    rewrite abnormal_reason.
    destruct (cand_finishReason c) as [r|]; [|discriminate].
    apply orb_true_iff in Hfinish as [H|H]; apply String.eqb_eq in H; subst r; cbn.
    + eexists _, _. split; [reflexivity|]. split; [reflexivity|].
      intros reason Hr Hne. apply Hnone in Hr. contradiction.
    + eexists _, _. split; [reflexivity|]. split; [reflexivity|].
      intros reason Hr Hne. apply Hnone in Hr. contradiction.
Qed.

(** Any other abnormal finish reason is an [ApiError]: status 500 in
    [src/services/ai-core.ts], status 400 in the second copy. *)
Lemma parseResponse_abnormal (response : GenerateContentResponse) (r : string) :
  truthyString (resp_blockReason response) = false ->
  firstFinishReason response = Some r ->
  normalFinish (Some r) = false ->
  (r =? "SAFETY")%string = false ->
  (r =? "RECITATION")%string = false ->
  AiCore.parseResponse response
  = inl (AppErr (ApiError (if (r =? "OTHER")%string
                           then "GENERATION_FAILED: Unknown model error occurred."
                           else "GENERATION_STOPPED: " ++ r) 500)) /\
  Part003.parseResponse response
  = inl (AppErr (ApiError ("Invalid Argument: Generation failed with reason '" ++ r
                           ++ "'. Try a simpler prompt.") 400)).
Proof.
  unfold firstFinishReason, AiCore.parseResponse, Part003.parseResponse.
  rewrite first_candidate. intros Hblock Hr Hfinish Hsafety Hrecitation. rewrite Hblock.
  destruct (resp_candidates response) as [[|c cs]|]; try discriminate.
  rewrite abnormal_reason, Hr, Hfinish, Hsafety, Hrecitation.
  split; [|reflexivity]. destruct (r =? "OTHER")%string; reflexivity.
Qed.

Section WithService.
Variable cleanBase64 : string -> string.
Variable getMimeType : string -> string.
Variable defaultStatusCode : Z.
Variable env : Env.
Variable prompt : string.
Variable images : list string.
Variable config : AIRequestConfig.

(** X6: a response refused for safety stops [generate] at the first
    occurrence in both copies: one attempt, one provider call, no sleep,
    and a [SafetyError] for the caller.  This covers a prompt block, which
    wins over the candidates (even over their absence), and a first
    candidate that finished with ["SAFETY"] or ["RECITATION"]. *)
Theorem safety_stop_is_terminal (n : Z) (w : World) (key : string)
    (response : GenerateContentResponse) :
  maxRetries config = Some n ->
  0 <= n ->
  env_API_KEY env (keyReads w) = Some key ->
  key <> "" ->
  (forall req, env_generateContent env (contentCalls w) key req = inr response) ->
  safetyStop response = true ->
  exists m1 m2,
    AiCore.generate cleanBase64 getMimeType env prompt images config w
    = (Threw (AppErr (SafetyError m1)),
       afterCall key (AiCore.buildRequest cleanBase64 getMimeType prompt images config) w) /\
    Part003.generate cleanBase64 getMimeType defaultStatusCode env prompt images config w
    = (Threw (AppErr (SafetyError m2)),
       afterCall key (Part003.buildRequest cleanBase64 getMimeType prompt images config) w) /\
    (forall reason, resp_blockReason response = Some reason -> reason <> "" ->
                    m1 = "PROMPT_BLOCKED: " ++ reason /\
                    m2 = "Prompt blocked due to " ++ reason).
Proof.
  intros Hcfg Hn Hread Hkey Hresp Hstop.
  destruct (parseResponse_safetyStop response Hstop) as (m1 & m2 & Hp1 & Hp2 & Hblock).
  assert (Htruthy : truthyString (Some key) = true) by (destruct key; [contradiction|reflexivity]).
  exists m1, m2. split; [|split; [|exact Hblock]].
  - apply (generate_first_nonTransient cleanBase64 getMimeType env prompt images config w _
             (AppErr (SafetyError m1))).
    + unfold AiCore.retriesOf. rewrite Hcfg. exact Hn.
    + rewrite tryBlock_run, Hread, Htruthy, Hresp, Hp1. reflexivity.
    + reflexivity.
  - apply (generate_copy_first_nonRetryable cleanBase64 getMimeType defaultStatusCode env prompt
             images config w _ (AppErr (SafetyError m2))).
    + unfold Part003.retriesOf. rewrite Hcfg. exact Hn.
    + rewrite tryBlock_copy_run, Hread, Htruthy, Hresp, Hp2. reflexivity.
    + reflexivity.
Qed.

(** X7: a first candidate that finished abnormally for another reason
    than safety or recitation is treated differently by the two copies.
    [src/services/ai-core.ts] raises an [ApiError] with status 500, which
    the loop retries after the backoff; the second copy raises an
    [ApiError] with status 400 naming the reason, at once. *)
Theorem abnormal_finish_policy (n : Z) (w : World) (key r : string)
    (response : GenerateContentResponse) :
  maxRetries config = Some n ->
  1 <= n ->
  env_API_KEY env (keyReads w) = Some key ->
  key <> "" ->
  (forall req, env_generateContent env (contentCalls w) key req = inr response) ->
  truthyString (resp_blockReason response) = false ->
  firstFinishReason response = Some r ->
  ~ In r ["SAFETY"; "RECITATION"; "STOP"; "MAX_TOKENS"; ""] ->
  let e := ApiError (if (r =? "OTHER")%string
                     then "GENERATION_FAILED: Unknown model error occurred."
                     else "GENERATION_STOPPED: " ++ r) 500 in
  let w1 := afterCall key (AiCore.buildRequest cleanBase64 getMimeType prompt images config) w in
  AiCore.generate cleanBase64 getMimeType env prompt images config w
  = AiCore.generateFrom cleanBase64 getMimeType env (Z.to_nat n) prompt images config n 1
      (AppErr e) (afterBackoff env 0 e w1) /\
  (keyReads w + 2
   <= keyReads (snd (AiCore.generate cleanBase64 getMimeType env prompt images config w)))%nat /\
  Part003.generate cleanBase64 getMimeType defaultStatusCode env prompt images config w
  = (Threw (AppErr (ApiError ("Invalid Argument: Generation failed with reason '" ++ r
                              ++ "'. Try a simpler prompt.") 400)),
     afterCall key (Part003.buildRequest cleanBase64 getMimeType prompt images config) w).
Proof.
  intros Hcfg Hn Hread Hkey Hresp Hblock Hr Hnot e w1.
  assert (Hne : forall s, In s ["SAFETY"; "RECITATION"; "STOP"; "MAX_TOKENS"; ""] ->
                          (r =? s)%string = false).
  { intros s Hin. apply String.eqb_neq. intros ->. apply Hnot. exact Hin. }
  assert (Hfinish : normalFinish (Some r) = false).
  { unfold normalFinish. rewrite !Hne by (cbn; auto 6). reflexivity. }
  destruct (parseResponse_abnormal response r Hblock Hr Hfinish) as [Hp1 Hp2];
    try (apply Hne; cbn; auto).
  assert (Htruthy : truthyString (Some key) = true) by (destruct key; [contradiction|reflexivity]).
  assert (Hretries : AiCore.retriesOf config = n) by (unfold AiCore.retriesOf; rewrite Hcfg; reflexivity).
  assert (Hrun : AiCore.tryBlock cleanBase64 getMimeType env prompt images config w
                 = (Threw (AppErr e), w1)).
  { rewrite tryBlock_run, Hread, Htruthy, Hresp, Hp1. reflexivity. }
  pose proof (loop_transient cleanBase64 getMimeType env prompt images config (Z.to_nat n) 0
                (Raw undefinedValue) w w1 (AppErr e)) as Hloop.
  rewrite Hretries in Hloop. cbv zeta in Hloop.
  assert (Hgen : AiCore.generate cleanBase64 getMimeType env prompt images config w
                 = AiCore.generateFrom cleanBase64 getMimeType env (S (Z.to_nat n)) prompt images
                     config n 0 (Raw undefinedValue) w).
  { rewrite generate_unfold by lia. rewrite Hretries. reflexivity. }
  rewrite Hgen.
  destruct Hloop as [Hstep Hreads]; [lia|lia|exact Hrun|reflexivity|].
  split; [exact Hstep|]. split; [exact Hreads|].
  apply (generate_copy_first_nonRetryable cleanBase64 getMimeType defaultStatusCode env prompt
           images config w _ (AppErr _)).
  - unfold Part003.retriesOf. rewrite Hcfg. lia.
  - rewrite tryBlock_copy_run, Hread, Htruthy, Hresp, Hp2. reflexivity.
  - reflexivity.
Qed.

End WithService.

Lemma safety_stop_is_terminal_witness :
  safetyStop blockedResponse = true /\
  exists wf,
    runGenerate (answeringEnv blockedResponse) 3
    = (Threw (AppErr (SafetyError "PROMPT_BLOCKED: PROHIBITED_CONTENT")), wf) /\
    contentCalls wf = 1%nat.
Proof.
  split; [reflexivity|].
  destruct (safety_stop_is_terminal sampleCleanBase64 sampleGetMimeType 500
              (answeringEnv blockedResponse) "Add a sci-fi HUD" ["logo"] (hudConfig 3)
              3 initialWorld "SECRET" blockedResponse eq_refl)
    as (m1 & m2 & Hrun & _ & Hblock).
  - vm_compute. discriminate.
  - reflexivity.
  - discriminate.
  - intros req. reflexivity.
  - reflexivity.
  - destruct (Hblock "PROHIBITED_CONTENT" eq_refl) as [Hm1 _]; [discriminate|].
    eexists. split; [unfold runGenerate; rewrite Hrun, Hm1; reflexivity|reflexivity].
Defined.

Lemma abnormal_finish_policy_witness :
  ~ In "MALFORMED_FUNCTION_CALL" ["SAFETY"; "RECITATION"; "STOP"; "MAX_TOKENS"; ""] /\
  (2 <= keyReads (snd (runGenerate (answeringEnv cutOffResponse) 2)))%nat /\
  fst (runGenerateCopy (answeringEnv cutOffResponse) 2)
  = Threw (AppErr (ApiError
      "Invalid Argument: Generation failed with reason 'MALFORMED_FUNCTION_CALL'. Try a simpler prompt."
      400)).
Proof.
  assert (Hnot : ~ In "MALFORMED_FUNCTION_CALL"
                      ["SAFETY"; "RECITATION"; "STOP"; "MAX_TOKENS"; ""]).
  { cbn [In]. intros Hin.
    repeat (destruct Hin as [Hin|Hin]; [discriminate Hin|]). exact Hin. }
  split; [exact Hnot|].
  assert (Hle : 1 <= 2) by (vm_compute; discriminate).
  assert (Hkey : "SECRET" <> "") by discriminate.
  pose proof (abnormal_finish_policy sampleCleanBase64 sampleGetMimeType 500
                (answeringEnv cutOffResponse) "Add a sci-fi HUD" ["logo"] (hudConfig 2)
                2 initialWorld "SECRET" "MALFORMED_FUNCTION_CALL" cutOffResponse
                eq_refl Hle eq_refl Hkey (fun _ => eq_refl) eq_refl eq_refl Hnot) as H.
  cbv zeta in H. destruct H as (_ & Hreads & Hcopy).
  split; [exact Hreads|]. unfold runGenerateCopy. rewrite Hcopy. reflexivity.
Defined.

End ResponsePolicyProps.

(** ** The video poller on every run *)

Module VideoProps.
Import Js Errors Provider Runtime Traces Runs Scenarios MoreScenarios.
Import OrchestratorProps PollerProps.






Section WithService.
Variable cleanBase64 : string -> string.
Variable getMimeType : string -> string.
Variable env : Env.










End WithService.


End VideoProps.

(** ** The request the executor sends *)

Module RequestProps.
Import Js Errors Provider Runtime Scenarios.

Section WithImageHelpers.
Variable cleanBase64 : string -> string.
Variable getMimeType : string -> string.

(** X10.  The output budget of a request, for budgets that are integers
    JavaScript numbers add exactly ([exactInteger]): the thinking budget,
    the largest sum formed from it, and [maxOutputTokens].  With a
    thinking budget the executor of [src/services/ai-core.ts] always sends
    an output budget, at least 1024 tokens above the thinking budget and
    never below a requested (non-zero) [maxOutputTokens]; without one it
    sends no thinking settings and passes [maxOutputTokens] on, dropping a
    zero.  The second copy passes [maxOutputTokens] on as it is and never
    sends thinking settings, so there the thinking budget is lost. *)
Theorem request_output_budget (prompt : string) (images : list string)
    (config : AIRequestConfig) :
  (forall budget, thinkingBudget config = Some budget ->
                  exactInteger budget /\ exactInteger (budget + 2048)) ->
  (forall requested, maxOutputTokens config = Some requested -> exactInteger requested) ->
  match thinkingBudget config with
  | Some budget =>
    gc_thinkingConfig
      (req_config (AiCore.buildRequest cleanBase64 getMimeType prompt images config))
    = Some budget /\
    exists m : Z,
      gc_maxOutputTokens
        (req_config (AiCore.buildRequest cleanBase64 getMimeType prompt images config))
      = Some m /\
      exactInteger m /\
      budget + 1024 <= m /\
      match maxOutputTokens config with
      | Some requested => requested = 0 \/ requested <= m
      | None => m = budget + 2048
      end
  | None =>
    gc_thinkingConfig
      (req_config (AiCore.buildRequest cleanBase64 getMimeType prompt images config))
    = None /\
    gc_maxOutputTokens
      (req_config (AiCore.buildRequest cleanBase64 getMimeType prompt images config))
    = match maxOutputTokens config with
      | Some requested => if requested =? 0 then None else Some requested
      | None => None
      end
  end /\
  gc_thinkingConfig
    (req_config (Part003.buildRequest cleanBase64 getMimeType prompt images config)) = None /\
  gc_maxOutputTokens
    (req_config (Part003.buildRequest cleanBase64 getMimeType prompt images config))
  = maxOutputTokens config.
Proof.
  intros Hbudget Hrequested.
  cbn [AiCore.buildRequest Part003.buildRequest req_config AiCore.buildGenerationConfig
       gc_maxOutputTokens gc_thinkingConfig].
  unfold AiCore.effectiveMaxOutputTokens.
  split; [|split; reflexivity].
  destruct (thinkingBudget config) as [budget|].
  - destruct (Hbudget budget eq_refl) as [Hb Hsum].
    split; [reflexivity|].
    destruct (maxOutputTokens config) as [requested|].
    + specialize (Hrequested requested eq_refl).
      unfold truthyNumber. destruct (Z.eqb_spec requested 0) as [->|Hnz].
      * exists (budget + 2048). cbn. split; [reflexivity|]. split; [exact Hsum|].
        split; [lia|]. left. reflexivity.
      * exists (Z.max requested (budget + 1024)). split; [reflexivity|].
        split; [unfold exactInteger in *; lia|]. split; [lia|]. right. lia.
    + exists (budget + 2048). split; [reflexivity|]. split; [exact Hsum|].
      split; [lia|reflexivity].
  - split; [reflexivity|].
    destruct (maxOutputTokens config) as [requested|]; [|reflexivity].
    unfold truthyNumber. destruct (requested =? 0); reflexivity.
Qed.

(** X11.  Image settings of a request.  The executor of
    [src/services/ai-core.ts] sends image settings for exactly the two
    image models, with aspect ratio 1:1 unless one is configured, and an
    image size (1K unless configured) for [gemini-3-pro-image-preview]
    only; a configured aspect ratio or size is ignored for every other
    model.  The system instruction travels inside the generation config,
    unchanged.  The second copy never sends image settings and puts the
    system instruction at the top level of the request, leaving an empty
    one out. *)
Theorem request_image_settings (prompt : string) (images : list string)
    (config : AIRequestConfig) :
  gc_imageConfig (req_config (AiCore.buildRequest cleanBase64 getMimeType prompt images config))
  = match model config with
    | Gemini25FlashImage =>
      Some (mkImageConfig (match aspectRatio config with Some a => a | None => AR_1_1 end) None)
    | Gemini3ProImagePreview =>
      Some (mkImageConfig (match aspectRatio config with Some a => a | None => AR_1_1 end)
              (Some (match imageSize config with Some s => s | None => Size1K end)))
    | _ => None
    end /\
  gc_systemInstruction
    (req_config (AiCore.buildRequest cleanBase64 getMimeType prompt images config))
  = systemInstruction config /\
  req_systemInstruction (AiCore.buildRequest cleanBase64 getMimeType prompt images config)
  = None /\
  gc_imageConfig (req_config (Part003.buildRequest cleanBase64 getMimeType prompt images config))
  = None /\
  gc_systemInstruction
    (req_config (Part003.buildRequest cleanBase64 getMimeType prompt images config)) = None /\
  req_systemInstruction (Part003.buildRequest cleanBase64 getMimeType prompt images config)
  = match systemInstruction config with
    | Some text => if (text =? "")%string then None else Some text
    | None => None
    end.
Proof.
  cbn [AiCore.buildRequest Part003.buildRequest req_config req_systemInstruction
       AiCore.buildGenerationConfig gc_imageConfig gc_systemInstruction].
  repeat split.
  - unfold AiCore.imageConfigOf. destruct (model config); reflexivity.
  - destruct (systemInstruction config) as [[|ch text]|]; reflexivity.
Qed.

End WithImageHelpers.

Lemma request_output_budget_witness :
  exactInteger 1000 /\
  exactInteger (1000 + 2048) /\
  exactInteger 500 /\
  exists m : Z,
    gc_maxOutputTokens
      (req_config (AiCore.buildRequest sampleCleanBase64 sampleGetMimeType
                     "Explain the design" [] (thinkingConfig 1000 (Some 500))))
    = Some m /\
    1000 + 1024 <= m /\
    500 <= m.
Proof.
  assert (H1000 : exactInteger 1000) by (unfold exactInteger; lia).
  assert (H3048 : exactInteger (1000 + 2048)) by (unfold exactInteger; lia).
  assert (H500 : exactInteger 500) by (unfold exactInteger; lia).
  split; [exact H1000|]. split; [exact H3048|]. split; [exact H500|].
  destruct (request_output_budget sampleCleanBase64 sampleGetMimeType "Explain the design" []
              (thinkingConfig 1000 (Some 500))) as [Hmain _].
  - intros budget [= <-]. split; assumption.
  - intros requested [= <-]. exact H500.
  - cbn [thinkingConfig thinkingBudget maxOutputTokens] in Hmain.
    destruct Hmain as (_ & m & Hsent & _ & Hlow & [Hzero|Hreq]); [discriminate Hzero|].
    exists m. split; [exact Hsent|]. split; [exact Hlow|exact Hreq].
Defined.

End RequestProps.

(** ** What the classifier can answer *)

Module ClassifierRangeProps.
Import Js Errors Provider Runtime AiCore.

Lemma strictEq_false (status : option Z) (n : Z) :
  strictEq status n = false -> status <> Some n.
Proof.
  intros H ->. cbn in H. rewrite Z.eqb_refl in H. discriminate.
Qed.

(** [status || 500] is the status itself unless it is undefined or zero. *)
Lemma statusOr500_cases (status : option Z) :
  (status = Some (statusOr500 status) /\ statusOr500 status <> 0) \/
  ((status = None \/ status = Some 0) /\ statusOr500 status = 500).
Proof.
  destruct status as [z|]; [|right; split; [left|]; reflexivity].
  unfold statusOr500, orNumber, truthyNumber. destruct (Z.eqb_spec z 0) as [->|Hnz].
  - right. split; [right|]; reflexivity.
  - left. split; [reflexivity|exact Hnz].
Qed.

(** The eleven fixed answers and the fallback. *)
Lemma normalizeError_range_list (r : RawError) :
  In (normalizeError (Raw r))
     [RateLimitError None;
      AuthenticationError INVALID_API_KEY;
      AuthenticationError BILLING_REQUIRED;
      AuthenticationError GEO_RESTRICTION;
      AuthenticationError ACCESS_DENIED;
      SafetyError SAFETY_VIOLATION;
      ApiError MODEL_UNAVAILABLE 404;
      ApiError SYSTEM_OVERLOAD 503;
      ApiError NETWORK_ERROR 0;
      ApiError INVALID_IMAGE 400;
      ApiError INVALID_REQUEST 400] \/
  normalizeError (Raw r)
  = ApiError ("GENAI_ERROR: " ++ rawMessageOf r) (statusOr500 (statusOf r)).
Proof.
  unfold normalizeError. cbv zeta.
  destruct (strictEq (statusOf r) 429 || _ || _ || _); [left; cbn; auto 20|].
  destruct (strictEq (statusOf r) 401 || _ || _); [left; cbn; auto 20|].
  destruct (strictEq (statusOf r) 403 || _).
  { left. destruct (includes _ "billing"); [cbn; auto 20|].
    destruct (includes _ "location" || _); cbn; auto 20. }
  destruct (includes _ "safety" || _ || _); [left; cbn; auto 20|].
  destruct (strictEq (statusOf r) 404 || _); [left; cbn; auto 20|].
  destruct (existsb _ _ || _ || _ || _); [left; cbn; auto 20|].
  destruct (includes _ "fetch" || _ || _); [left; cbn; auto 20|].
  destruct (strictEq (statusOf r) 400 || _).
  { left. destruct (includes _ "image"); cbn; auto 20. }
  right. reflexivity.
Qed.

(** X12.  The answers of the classifier of [src/services/ai-core.ts].  A
    raw failure is turned into one of eleven fixed errors, whose text never
    quotes the provider, or into the fallback error, the only one that
    carries the provider's own message (after the tag GENAI_ERROR); the
    fallback keeps the provider's status, or 500 when there is none, and
    that status is never one the numbered rules claim. *)
Theorem normalizeError_range (r : RawError) :
  In (normalizeError (Raw r))
     [RateLimitError None;
      AuthenticationError INVALID_API_KEY;
      AuthenticationError BILLING_REQUIRED;
      AuthenticationError GEO_RESTRICTION;
      AuthenticationError ACCESS_DENIED;
      SafetyError SAFETY_VIOLATION;
      ApiError MODEL_UNAVAILABLE 404;
      ApiError SYSTEM_OVERLOAD 503;
      ApiError NETWORK_ERROR 0;
      ApiError INVALID_IMAGE 400;
      ApiError INVALID_REQUEST 400] \/
  (normalizeError (Raw r)
   = ApiError ("GENAI_ERROR: " ++ rawMessageOf r) (statusOr500 (statusOf r)) /\
   ~ In (statusOr500 (statusOf r)) [0; 400; 401; 403; 404; 429; 502; 503; 504] /\
   (statusOr500 (statusOf r) = 500 -> statusOf r = None \/ statusOf r = Some 0)).
Proof.
  unfold normalizeError. cbv zeta.
  destruct (strictEq (statusOf r) 429 || _ || _ || _) eqn:H1; [left; cbn; auto 20|].
  destruct (strictEq (statusOf r) 401 || _ || _) eqn:H2; [left; cbn; auto 20|].
  destruct (strictEq (statusOf r) 403 || _) eqn:H3.
  { left. destruct (includes _ "billing"); [cbn; auto 20|].
    destruct (includes _ "location" || _); cbn; auto 20. }
  destruct (includes _ "safety" || _ || _) eqn:H4; [left; cbn; auto 20|].
  destruct (strictEq (statusOf r) 404 || _) eqn:H5; [left; cbn; auto 20|].
  destruct (existsb _ _ || _ || _ || _) eqn:H6; [left; cbn; auto 20|].
  destruct (includes _ "fetch" || _ || _) eqn:H7; [left; cbn; auto 20|].
  destruct (strictEq (statusOf r) 400 || _) eqn:H8.
  { left. destruct (includes _ "image"); cbn; auto 20. }
  right. split; [reflexivity|].
  cbn [existsb] in H6.
  repeat match goal with
         | H : _ || _ = false |- _ => apply orb_false_elim in H; destruct H
         end.
  repeat match goal with
         | H : strictEq _ _ = false |- _ => apply strictEq_false in H
         end.
  destruct (statusOr500_cases (statusOf r)) as [[Hs Hnz]|[Hs H500]].
  - split.
    + cbn [In]. intros Hin.
      repeat (destruct Hin as [Hin|Hin]; [rewrite <- Hin in Hs; congruence|]).
      exact Hin.
    + intros H500. rewrite H500 in Hs. congruence.
  - split; [rewrite H500; cbn [In]; lia|intros _; exact Hs].
Qed.

End ClassifierRangeProps.

(** ** The advice shown with an error *)

Module AdviceProps.
Import Js Errors Provider Runtime AiCore MerchUtils Runs.

(** X13.  The background flag matters to [getErrorSuggestion] in one case
    only: a message that no numbered rule answers and that mentions a
    blend or a composite gets the composition advice with a background and
    the unknown-error advice without.  Every other message gets the same
    advice either way. *)
Theorem background_only_in_fallback (errorMsg : string) :
  getErrorSuggestion errorMsg true = getErrorSuggestion errorMsg false \/
  (getErrorSuggestion errorMsg true = COMPOSITION_ERROR /\
   getErrorSuggestion errorMsg false = DIAGNOSTIC /\
   (includes (toLowerCase errorMsg) "blend" || includes (toLowerCase errorMsg) "composite")
   = true).
Proof.
  assert (Hlate : forall msg,
             lateAdvice msg true = lateAdvice msg false \/
             (lateAdvice msg true = COMPOSITION_ERROR /\
              lateAdvice msg false = DIAGNOSTIC /\
              (includes msg "blend" || includes msg "composite") = true)).
  { intros msg. unfold lateAdvice.
    destruct (includes msg "400" || includes msg "invalid argument"); [left; reflexivity|].
    cbn [andb].
    destruct (includes msg "blend" || includes msg "composite");
      [right; repeat split|left; reflexivity]. }
  unfold getErrorSuggestion. cbv zeta.
  repeat match goal with
         | |- (if ?c then _ else _) = _ \/ _ => destruct c; [left; reflexivity|]
         end.
  destruct (includes (toLowerCase errorMsg) "image" || _ || _); [|apply Hlate].
  destruct (assetAdvice (toLowerCase errorMsg)); [left; reflexivity|apply Hlate].
Qed.

(** X14.  The advice the merch screen shows for a failure the classifier
    of [src/services/ai-core.ts] has named.  Each of the ten fixed errors
    with a text of its own gets one advice, with or without a background:
    the invalid-key, billing, region, safety and invalid-image errors get
    the matching advice; the access-denied error gets the billing advice;
    the model-unavailable, overload, network and invalid-request errors
    match no rule and get the unknown-error advice.  Left out are the
    rate-limit error, whose text is declared elsewhere, and the fallback
    error, whose text is the provider's. *)
Theorem advice_for_classified (rateLimitDefault : string) (r : RawError) (bg : option string) :
  In (normalizeError (Raw r),
      errorSuggestion (Some (messageOf rateLimitDefault (normalizeError (Raw r)))) bg)
     [(AuthenticationError INVALID_API_KEY, Some AUTHENTICATION);
      (AuthenticationError BILLING_REQUIRED, Some ACCOUNT_CONFIG);
      (AuthenticationError GEO_RESTRICTION, Some GEO_UNAVAILABLE);
      (AuthenticationError ACCESS_DENIED, Some ACCOUNT_CONFIG);
      (SafetyError SAFETY_VIOLATION, Some SAFETY_FILTER);
      (ApiError MODEL_UNAVAILABLE 404, Some DIAGNOSTIC);
      (ApiError SYSTEM_OVERLOAD 503, Some DIAGNOSTIC);
      (ApiError NETWORK_ERROR 0, Some DIAGNOSTIC);
      (ApiError INVALID_IMAGE 400, Some ASSET_TOO_LARGE);
      (ApiError INVALID_REQUEST 400, Some DIAGNOSTIC)] \/
  normalizeError (Raw r) = RateLimitError None \/
  normalizeError (Raw r)
  = ApiError ("GENAI_ERROR: " ++ rawMessageOf r) (statusOr500 (statusOf r)).
Proof.
  destruct (ClassifierRangeProps.normalizeError_range_list r) as [Hin|Hfallback];
    [|right; right; exact Hfallback].
  cbn [In] in Hin.
  destruct Hin as [H|[H|[H|[H|[H|[H|[H|[H|[H|[H|[H|[]]]]]]]]]]]]; rewrite <- H;
    [right; left; reflexivity|..]; left; cbn [messageOf];
    destruct bg as [[|c bg]|]; vm_compute; auto 20.
Qed.

End AdviceProps.

(** ** The marketing copy *)

Module MarketingProps.
Import Js Errors Provider Runtime AiCore Runs Marketing.

Section WithService.
Variable cleanBase64 : string -> string.
Variable getMimeType : string -> string.
Variable env : Env.
Variable MarketingCopyData : Type.
Variable JSON_parse : string -> RawError + MarketingCopyData.

(** The call in terms of the [generate] it runs. *)
Lemma generateMarketingCopy_run (productName image : string) (w : World) :
  generateMarketingCopy cleanBase64 getMimeType env MarketingCopyData JSON_parse
    productName image w
  = match generate cleanBase64 getMimeType env (marketingPrompt productName) [image]
            marketingConfig w with
    | (Returned response, w1) =>
      match JSON_parse (textOrEmptyObject response) with
      | inl syntaxError =>
        (Threw (AppErr (normalizeError (Raw syntaxError))), record (EvError (Raw syntaxError)) w1)
      | inr data => (Returned data, w1)
      end
    | (Threw t, w1) => (Threw (AppErr (normalizeError t)), record (EvError t) w1)
    | (OutOfFuel, w1) => (OutOfFuel, w1)
    end.
Proof.
  unfold generateMarketingCopy, tryCatch. unfold bind at 1.
  destruct (generate cleanBase64 getMimeType env (marketingPrompt productName) [image]
              marketingConfig w) as [[response|t|] w1]; try reflexivity.
  destruct (JSON_parse (textOrEmptyObject response)); reflexivity.
Qed.

(** X15.  [generateMarketingCopy] of [src/services/ai-core.ts] adds no
    provider call and no sleep to those of the one [generate] it runs,
    which with the default of three retries calls the provider at most
    four times and sleeps at most three times.  An error of [generate]
    reaches the caller unchanged; a response is parsed once, its text
    replaced by an empty object when missing or empty, and a text that
    does not parse ends the call with the classification of the parse
    error, without a new request.  The call always ends, with parsed data
    or a classified error. *)
Theorem generateMarketingCopy_outcomes (productName image : string) (w : World) :
  settled (fst (generateMarketingCopy cleanBase64 getMimeType env MarketingCopyData JSON_parse
                  productName image w)) = true /\
  contentCalls (snd (generateMarketingCopy cleanBase64 getMimeType env MarketingCopyData
                       JSON_parse productName image w))
  = contentCalls (snd (generate cleanBase64 getMimeType env (marketingPrompt productName)
                         [image] marketingConfig w)) /\
  sleeps (log (snd (generateMarketingCopy cleanBase64 getMimeType env MarketingCopyData
                      JSON_parse productName image w)))
  = sleeps (log (snd (generate cleanBase64 getMimeType env (marketingPrompt productName)
                        [image] marketingConfig w))) /\
  (contentCalls (snd (generateMarketingCopy cleanBase64 getMimeType env MarketingCopyData
                        JSON_parse productName image w)) <= contentCalls w + 4)%nat /\
  (length (sleeps (log (snd (generateMarketingCopy cleanBase64 getMimeType env
                               MarketingCopyData JSON_parse productName image w))))
   <= length (sleeps (log w)) + 3)%nat /\
  fst (generateMarketingCopy cleanBase64 getMimeType env MarketingCopyData JSON_parse
         productName image w)
  = match fst (generate cleanBase64 getMimeType env (marketingPrompt productName)
                 [image] marketingConfig w) with
    | Returned response =>
      match JSON_parse (textOrEmptyObject response) with
      | inl syntaxError => Threw (AppErr (normalizeError (Raw syntaxError)))
      | inr data => Returned data
      end
    | Threw t => Threw t
    | OutOfFuel => OutOfFuel
    end.
Proof.
  destruct (LoopProps.generateFrom_invariant cleanBase64 getMimeType env
              (marketingPrompt productName) [image] marketingConfig
              (retriesOf marketingConfig) (Z.to_nat (retriesOf marketingConfig + 1)) 0
              (Raw undefinedValue) w) as [k Hinv]; [lia|].
  cbv zeta in Hinv.
  fold (generate cleanBase64 getMimeType env (marketingPrompt productName) [image]
          marketingConfig) in Hinv.
  destruct Hinv as (Hs & _ & Hk & Hkeys & Hc1 & Hc2 & _ & Hout).
  change (retriesOf marketingConfig) with 3 in *.
  change (0 <=? 3) with true in Hkeys. cbv iota in Hkeys.
  assert (Hk3 : (k <= 3)%nat) by (assert (0 <= 3) as H0 by lia; apply Hk in H0; lia).
  assert (Hlen : (length (sleeps (log (snd (generate cleanBase64 getMimeType env
                    (marketingPrompt productName) [image] marketingConfig w))))
                  <= length (sleeps (log w)) + 3)%nat).
  { rewrite Hs, length_app, LoopProps.backoffSchedule_length. lia. }
  clear Hs Hk. rewrite generateMarketingCopy_run.
  destruct (generate cleanBase64 getMimeType env (marketingPrompt productName) [image]
              marketingConfig w) as [[response|t|] w1]; cbn [fst snd] in *.
  - destruct (JSON_parse (textOrEmptyObject response)) as [syntaxError|data];
      cbn [fst snd record log contentCalls];
      rewrite ?OrchestratorProps.sleeps_app; cbn [sleeps];
      rewrite ?app_nil_r; repeat split; try reflexivity; lia.
  - cbn [fst snd record log contentCalls]. rewrite ?OrchestratorProps.sleeps_app.
    cbn [sleeps]. rewrite ?app_nil_r.
    destruct Hout as [[Hcl _]|(_ & _ & Hbad)]; [|lia].
    destruct t as [e|r]; [|discriminate].
    repeat split; try reflexivity; lia.
  - contradiction.
Qed.

End WithService.

End MarketingProps.
